(** * Reddit sentiment pipeline: ingestion and refresh, embedded from the source

    The development follows four source files:
    - [sentiment_analysis/API/reddit.py]       ([RedditAPI])
    - [database/database_manager.py] and
      [sentiment_analysis/_database/connection.py]
      ([DatabaseManager], [DBConnection])
    - [sentiment_analysis/platform_managers.py] ([RedditManager])

    Python objects are modelled with the types the code puts in them, the
    database is three tables of records, exceptions are a result
    constructor, and the pipeline runs in a small state-and-error monad
    whose state is the store together with the trace of session calls.
    Calls to [logger] and [tqdm] have no effect on control flow or on the
    store and are left out. *)

From Stdlib Require Import ZArith List String Ascii Bool Lia.
From Stdlib Require Import Decimal DecimalString DecimalPos DecimalZ.
Import ListNotations.

Local Open Scope string_scope.
Local Open Scope Z_scope.
Local Open Scope list_scope.

Set Implicit Arguments.

(* ================================================================== *)
(** * Python values, exceptions and results *)

(** A value of the [params] dictionary that the code reads with [int(...)]
    and updates with [-=]: a string (what [strftime('%s')] gives) or an
    integer (what a JSON [created_utc] is). The same type serves for the
    [subreddit_id] column, which receives whatever the frame holds. *)
Inductive pyval : Type :=
| PyStr (s : string)
| PyInt (z : Z).

Inductive exn : Type :=
| TypeError
| ValueError
| AttributeError
| KeyError
| IntegrityError
| PendingRollbackError
| PrawException.

(** The result of running a piece of code: a value, a raised exception, or
    a [while] loop that is still running when the fuel is spent. *)
Inductive outcome (A : Type) : Type :=
| Ok (a : A)
| Raise (e : exn)
| OutOfFuel.

Arguments Ok {A} a.
Arguments Raise {A} e.
Arguments OutOfFuel {A}.

Definition obind {A B} (o : outcome A) (k : A -> outcome B) : outcome B :=
  match o with
  | Ok a => k a
  | Raise e => Raise e
  | OutOfFuel => OutOfFuel
  end.

(** [int(v)]: the identity on an integer; on a string, the decimal
    numeral with an optional leading minus sign, [ValueError] otherwise.
    (Python also reads a numeral with blanks around it, a plus sign or
    underscores; [strftime] writes none of these.) *)
Definition py_int (v : pyval) : outcome Z :=
  match v with
  | PyInt z => Ok z
  | PyStr s =>
      match NilZero.int_of_string s with
      | Some d => Ok (Z.of_int d)
      | None => Raise ValueError
      end
  end.

(** [v - n] with [n] an integer: defined on integers, [TypeError] on a
    string (unsupported operand types [str] and [int]). *)
Definition py_sub (v : pyval) (n : Z) : outcome pyval :=
  match v with
  | PyInt z => Ok (PyInt (z - n))
  | PyStr _ => Raise TypeError
  end.

(** [datetime.strftime('%s')]: the epoch seconds as a decimal string. *)
Definition strftime_s (t : Z) : string := NilZero.string_of_int (Z.to_int t).

Definition isin (x : string) (l : list string) : bool :=
  existsb (String.eqb x) l.

Definition len {A} (l : list A) : Z := Z.of_nat (List.length l).

(** [l[-1]]: [None] stands for the [IndexError] of an empty list. *)
Definition last_item {A} (l : list A) : option A :=
  match l with
  | [] => None
  | x :: l' => Some (last l' x)
  end.

(* ================================================================== *)
(** * Frames and API objects *)

(** One item of a Pushshift page, with the fields [fetch_data] asks for. *)
Module Post.
Record t : Type := mk {
  id : string;
  created_utc : Z;
  subreddit : string;
  title : string;
  score : Z
}.
End Post.

(** The [params] dictionary of [get_submissions]. The keys [title],
    [sort_type] and [sort] are constants of the request and are not read
    by the code. *)
Module Params.
Record t : Type := mk {
  ticker : string;
  limit : pyval;
  fields : list string;
  subreddit : list string;
  before : pyval;
  after : pyval
}.

Definition set_before (p : t) (v : pyval) : t :=
  mk (ticker p) (limit p) (fields p) (subreddit p) v (after p).

Definition set_fields (p : t) (f : list string) : t :=
  mk (ticker p) (limit p) f (subreddit p) (before p) (after p).
End Params.

(** What [r.json()['data']] gives for one request: a list of items, or
    anything on which the extraction raises something other than
    [IndexError] (a body that is not JSON, no ['data'] key). *)
Inductive response : Type :=
| Data (data : list Post.t)
| Malformed.

(** A row of the frame [_process_submissions] returns: the page fields
    with [id] renamed to [submission_id], the score replaced by the
    refreshed one, and the [ticker] column. [created_utc] is the epoch
    second that [pd.to_datetime(unit='s')] converts. *)
Module SubmissionsDF.
Record row : Type := mk {
  submission_id : string;
  created_utc : Z;
  subreddit : string;
  title : string;
  score : Z;
  ticker : string
}.
End SubmissionsDF.

(** A row of the frame of [get_submission_details] and
    [get_comment_details] called with [fields=['id', 'score']]. *)
Module ScoresDF.
Record row : Type := mk {
  id : string;
  score : Z
}.
End ScoresDF.

(** A row of the frame [get_comments] returns. *)
Module CommentsDF.
Record row : Type := mk {
  created_utc : Z;
  submission_id : string;
  comment_id : string;
  body : string;
  score : Z
}.
End CommentsDF.

(** A row of the frame [get_subreddit_details] returns; [subscribers] may
    be missing. *)
Module SubredditsDF.
Record row : Type := mk {
  name : string;
  subreddit_id : string;
  subscribers : option Z
}.
End SubredditsDF.

(** An element of [submission.comments]. *)
Module PrawComment.
Record t : Type := mk {
  created_utc : Z;
  id : string;
  body : string;
  score : Z
}.
End PrawComment.

Inductive top_level : Type :=
| MoreComments
| Comment (c : PrawComment.t).

(** What [get_submissions] returns: the list [submissions] itself when it
    is empty, the frame of [_process_submissions] otherwise. *)
Inductive submissions_obj : Type :=
| EmptyList
| DataFrame (rows : list SubmissionsDF.row).

(** The world outside the program. [pushshift k p] is the answer to the
    request number [k] of one call, sent with parameters [p]. For PRAW,
    [None] (or [false]) means that the call raises.
    [strip_punctuation_lower x] stands for
    [utils.strip_punctuation(x).lower()]; its module is not part of the
    sources at hand. *)
Record Env : Type := mkEnv {
  pushshift : nat -> Params.t -> response;
  praw_submission_init : string -> bool;
  praw_submission_score : string -> option Z;
  praw_submission_comments : string -> option (list top_level);
  praw_comment_score : string -> option Z;
  praw_subreddit : string -> option (string * option Z);
  strip_punctuation_lower : string -> string
}.

(* ================================================================== *)
(** * RedditAPI *)

Module RedditAPI.

Definition before_decay : Z := 18000.

(** [_check_params] *)
Definition _check_params (params : Params.t) : Params.t :=
  if isin "created_utc" (Params.fields params) then params
  else Params.set_fields params (Params.fields params ++ ["created_utc"]).

(** [get_submission_details(ids, fields=['id', 'score'])]: one lookup per
    id, in order; a lookup that raises ends the call. *)
Fixpoint get_submission_details (E : Env) (submission_ids : list string)
  : outcome (list ScoresDF.row) :=
  match submission_ids with
  | [] => Ok []
  | submission_id :: rest =>
      if praw_submission_init E submission_id then
        match praw_submission_score E submission_id with
        | Some sc =>
            obind (get_submission_details E rest)
              (fun info => Ok (ScoresDF.mk submission_id sc :: info))
        | None => Raise PrawException
        end
      else Raise PrawException
  end.

(** [get_comment_details(ids, fields=['id', 'score'])] *)
Fixpoint get_comment_details (E : Env) (comment_ids : list string)
  : outcome (list ScoresDF.row) :=
  match comment_ids with
  | [] => Ok []
  | comment_id :: rest =>
      match praw_comment_score E comment_id with
      | Some sc =>
          obind (get_comment_details E rest)
            (fun info => Ok (ScoresDF.mk comment_id sc :: info))
      | None => Raise PrawException
      end
  end.

(** The rows one submission adds to the [comments] dictionary. *)
Fixpoint top_level_rows (submission_id : string) (cs : list top_level)
  : list CommentsDF.row :=
  match cs with
  | [] => []
  | MoreComments :: cs' => top_level_rows submission_id cs'
  | Comment c :: cs' =>
      CommentsDF.mk (PrawComment.created_utc c) submission_id
        (PrawComment.id c) (PrawComment.body c) (PrawComment.score c)
      :: top_level_rows submission_id cs'
  end.

(** [get_comments]: the [try] covers the construction of the submission
    object only; iterating [submission.comments] is outside it. *)
Fixpoint get_comments (E : Env) (submission_ids : list string)
  : outcome (list CommentsDF.row) :=
  match submission_ids with
  | [] => Ok []
  | submission_id :: rest =>
      if praw_submission_init E submission_id then
        match praw_submission_comments E submission_id with
        | Some cs =>
            obind (get_comments E rest)
              (fun rows => Ok (top_level_rows submission_id cs ++ rows))
        | None => Raise PrawException
        end
      else get_comments E rest
  end.

(** [get_subreddit_details] *)
Fixpoint get_subreddit_details (E : Env) (subreddits : list string)
  : outcome (list SubredditsDF.row) :=
  match subreddits with
  | [] => Ok []
  | subreddit :: rest =>
      match praw_subreddit E subreddit with
      | Some (fullname, subs) =>
          obind (get_subreddit_details E rest)
            (fun info => Ok (SubredditsDF.mk subreddit fullname subs :: info))
      | None => Raise PrawException
      end
  end.

(** [pd.merge(left=submissions_df, right=updated_scores, on='id')]
    followed by the clean-up: an inner join that keeps the order of the
    left keys, takes the score of the right side and renames [id]. When
    a page repeats an id, [pd.merge] puts the rows of that id together at
    its first position; the rows are the same, and the two orders agree
    when the ids of the page are distinct. The conversion of
    [created_utc] to a date, which raises on a number of seconds outside
    the range of a pandas timestamp, is left out. *)
Definition merge_scores (ticker : string) (submissions : list Post.t)
  (updated_scores : list ScoresDF.row) : list SubmissionsDF.row :=
  flat_map
    (fun p =>
       map (fun u =>
              SubmissionsDF.mk (Post.id p) (Post.created_utc p)
                (Post.subreddit p) (Post.title p) (ScoresDF.score u) ticker)
           (filter (fun u => String.eqb (Post.id p) (ScoresDF.id u))
                   updated_scores))
    submissions.

(** [_process_submissions] *)
Definition _process_submissions (E : Env) (submissions : list Post.t)
  (ticker : string) : outcome (list SubmissionsDF.row) :=
  obind (get_submission_details E (map Post.id submissions))
    (fun updated_scores => Ok (merge_scores ticker submissions updated_scores)).

(** The [while] loop of [get_submissions]. [before], [after] and [limit]
    are the local variables read by the loop condition; the body assigns
    to [params['before']] and to [submissions] only. [k] counts the
    requests sent. *)
Fixpoint fetch_loop (E : Env) (fuel : nat) (k : nat) (before after limit : Z)
  (params : Params.t) (submissions : list Post.t) : outcome (list Post.t) :=
  match fuel with
  | O => OutOfFuel
  | S fuel' =>
      if (after <? before) && (len submissions <? limit) then
        match pushshift E k params with
        | Data data =>
            match last_item data with
            | Some post =>
                fetch_loop E fuel' (S k) before after limit
                  (Params.set_before params (PyInt (Post.created_utc post)))
                  (submissions ++ data)
            | None =>
                (* except IndexError *)
                match py_sub (Params.before params) before_decay with
                | Ok v =>
                    fetch_loop E fuel' (S k) before after limit
                      (Params.set_before params v) submissions
                | Raise e => Raise e
                | OutOfFuel => OutOfFuel
                end
            end
        | Malformed =>
            (* except Exception: break *)
            Ok submissions
        end
      else Ok submissions
  end.

(** [get_submissions] *)
Definition get_submissions (E : Env) (fuel : nat) (params : Params.t)
  : outcome submissions_obj :=
  let params := _check_params params in
  let ticker := Params.ticker params in
  obind (py_int (Params.after params)) (fun after =>
  obind (py_int (Params.before params)) (fun before =>
  obind (py_int (Params.limit params)) (fun limit =>
  obind (fetch_loop E fuel 0 before after limit params []) (fun submissions =>
  match submissions with
  | [] => Ok EmptyList
  | _ :: _ =>
      obind (_process_submissions E submissions ticker)
        (fun df => Ok (DataFrame df))
  end)))).

End RedditAPI.

(* ================================================================== *)
(** * The store: ORM models and tables ([_database/models.py]) *)

Module models.
Inductive t : Type :=
| Subreddits
| RedditSubmissions
| RedditComments.
End models.

Module Subreddits.
Record row : Type := mk {
  id : Z;
  name : string;
  subreddit_id : string;
  subscribers : option Z
}.
End Subreddits.

(** The column [subreddit_id] is declared [String(32)] with a foreign key
    to [subreddits.subreddit_id]; the row keeps the Python value the
    mapping carries. *)
Module RedditSubmissions.
Record row : Type := mk {
  id : Z;
  ticker : string;
  subreddit_id : pyval;
  submission_id : string;
  created_utc : Z;
  title : string;
  score : Z
}.

Definition set_score (sc : Z) (r : row) : row :=
  mk (id r) (ticker r) (subreddit_id r) (submission_id r) (created_utc r)
     (title r) sc.
End RedditSubmissions.

Module RedditComments.
Record row : Type := mk {
  id : Z;
  submission_id : string;
  comment_id : string;
  created_utc : Z;
  cleaned_comment : string;
  score : Z
}.

Definition set_score (sc : Z) (r : row) : row :=
  mk (id r) (submission_id r) (comment_id r) (created_utc r)
     (cleaned_comment r) sc.
End RedditComments.

(** The frame [process_submissions] returns when there are new rows: the
    [subreddit] column has been overwritten and renamed [subreddit_id]. *)
Module ProcessedSubmissionsDF.
Record row : Type := mk {
  submission_id : string;
  created_utc : Z;
  subreddit_id : pyval;
  title : string;
  score : Z;
  ticker : string
}.
End ProcessedSubmissionsDF.

(** The frame [process_comments] returns when there are new rows: [body]
    has been renamed [cleaned_comment]. *)
Module ProcessedCommentsDF.
Record row : Type := mk {
  created_utc : Z;
  submission_id : string;
  comment_id : string;
  cleaned_comment : string;
  score : Z
}.
End ProcessedCommentsDF.

(** A mapping of [bulk_update_mappings] as [update_values] builds it: the
    primary key and the score. *)
Module ScoreMapping.
Record t : Type := mk {
  id : Z;
  score : Z
}.
End ScoreMapping.

Record Store : Type := mkStore {
  subreddits : list Subreddits.row;
  reddit_submissions : list RedditSubmissions.row;
  reddit_comments : list RedditComments.row
}.

Definition row (m : models.t) : Type :=
  match m with
  | models.Subreddits => Subreddits.row
  | models.RedditSubmissions => RedditSubmissions.row
  | models.RedditComments => RedditComments.row
  end.

(** The frame [insert_values] is given for each model. *)
Definition frame (m : models.t) : Type :=
  match m with
  | models.Subreddits => SubredditsDF.row
  | models.RedditSubmissions => ProcessedSubmissionsDF.row
  | models.RedditComments => ProcessedCommentsDF.row
  end.

Definition table (m : models.t) (db : Store) : list (row m) :=
  match m with
  | models.Subreddits => subreddits db
  | models.RedditSubmissions => reddit_submissions db
  | models.RedditComments => reddit_comments db
  end.

Definition set_table (m : models.t) (db : Store) : list (row m) -> Store :=
  match m with
  | models.Subreddits => fun t =>
      mkStore t (reddit_submissions db) (reddit_comments db)
  | models.RedditSubmissions => fun t =>
      mkStore (subreddits db) t (reddit_comments db)
  | models.RedditComments => fun t =>
      mkStore (subreddits db) (reddit_submissions db) t
  end.

Definition pk (m : models.t) : row m -> Z :=
  match m with
  | models.Subreddits => Subreddits.id
  | models.RedditSubmissions => RedditSubmissions.id
  | models.RedditComments => RedditComments.id
  end.

(** The column declared [unique=True] of each model. *)
Definition unique_column (m : models.t) : row m -> string :=
  match m with
  | models.Subreddits => Subreddits.subreddit_id
  | models.RedditSubmissions => RedditSubmissions.submission_id
  | models.RedditComments => RedditComments.comment_id
  end.

(** The autoincremented integer primary key. *)
Definition next_id (ids : list Z) : Z := 1 + fold_right Z.max 0 ids.

(** The table row a mapping becomes once the key [i] is assigned. A row
    holds the Python value the mapping carries; the [String(32)] column
    [subreddit_id] hands an integer back as its decimal text. *)
Definition to_row (m : models.t) (i : Z) : frame m -> row m :=
  match m with
  | models.Subreddits => fun v =>
      Subreddits.mk i (SubredditsDF.name v) (SubredditsDF.subreddit_id v)
        (SubredditsDF.subscribers v)
  | models.RedditSubmissions => fun v =>
      RedditSubmissions.mk i (ProcessedSubmissionsDF.ticker v)
        (ProcessedSubmissionsDF.subreddit_id v)
        (ProcessedSubmissionsDF.submission_id v)
        (ProcessedSubmissionsDF.created_utc v)
        (ProcessedSubmissionsDF.title v)
        (ProcessedSubmissionsDF.score v)
  | models.RedditComments => fun v =>
      RedditComments.mk i (ProcessedCommentsDF.submission_id v)
        (ProcessedCommentsDF.comment_id v)
        (ProcessedCommentsDF.created_utc v)
        (ProcessedCommentsDF.cleaned_comment v)
        (ProcessedCommentsDF.score v)
  end.

(** What a mapping with primary key and score writes into a row. The
    [Subreddits] model has no [score] column. *)
Definition set_score (m : models.t) (sc : Z) : row m -> row m :=
  match m with
  | models.Subreddits => fun r => r
  | models.RedditSubmissions => RedditSubmissions.set_score sc
  | models.RedditComments => RedditComments.set_score sc
  end.

(** The string columns of a model that a merge can be made [on]; the
    code merges on [submission_id] and on [comment_id]. A merge on a
    column of another type (the integer [id], a date, a score) is not
    modelled and is given the answer of a column that is missing. *)
Definition on_column (m : models.t) (on : string) : option (row m -> string) :=
  match m with
  | models.Subreddits =>
      if on =? "name" then Some Subreddits.name
      else if on =? "subreddit_id" then Some Subreddits.subreddit_id
      else None
  | models.RedditSubmissions =>
      if on =? "submission_id" then Some RedditSubmissions.submission_id
      else if on =? "ticker" then Some RedditSubmissions.ticker
      else if on =? "title" then Some RedditSubmissions.title
      else None
  | models.RedditComments =>
      if on =? "comment_id" then Some RedditComments.comment_id
      else if on =? "submission_id" then Some RedditComments.submission_id
      else if on =? "cleaned_comment" then Some RedditComments.cleaned_comment
      else None
  end%string.

(* ================================================================== *)
(** * Sessions ([sqlalchemy.orm.Session] as the code uses it)

    A session works on a copy of the store inside one transaction.
    [commit] makes the copy the store, [close] releases the session and
    keeps what was committed. A bulk insert emits its rows in order; when
    a row breaks a [unique] constraint the operation raises
    [IntegrityError] and the library rolls the transaction back itself:
    none of the rows of the batch stays, and the session is left inactive.
    On an inactive session [commit] raises ([PendingRollbackError];
    [InvalidRequestError] before SQLAlchemy 1.4) until [rollback] is
    called, which the code never does.

    The [unique] constraints are the only ones modelled. Foreign keys are
    not checked (SQLite's default), nor [NOT NULL], nor the 64-bit range of
    an integer column: an insert can fail in the database for a reason the
    model does not have, and is then rolled back in the same way. *)

Module Session.

Record t : Type := mk {
  committed : Store;
  working : Store;
  active : bool
}.

Definition new (db : Store) : t := mk db db true.

(** [session.commit()] *)
Definition commit (s : t) : outcome unit * t :=
  if active s then (Ok tt, mk (working s) (working s) true)
  else (Raise PendingRollbackError, s).

(** [session.rollback()] *)
Definition rollback (s : t) : t := mk (committed s) (committed s) true.

(** The rollback the library makes when a flush fails. *)
Definition fail (s : t) : t := mk (committed s) (committed s) false.

Definition close (s : t) : Store := committed s.

(** The rows of a batch, emitted in order after [tbl]; [None] when one of
    them repeats a [unique] value already in the table or emitted before
    it. *)
Fixpoint emit_rows (m : models.t) (mappings : list (frame m))
  (tbl : list (row m)) : option (list (row m)) :=
  match mappings with
  | [] => Some tbl
  | v :: rest =>
      let r := to_row m (next_id (map (pk m) tbl)) v in
      if isin (unique_column m r) (map (unique_column m) tbl)
      then None
      else emit_rows m rest (tbl ++ [r])
  end.

(** The table a bulk insert leaves: all the rows of the batch, or, on a
    [unique] violation, the table as it was. *)
Definition insert_rows (m : models.t) (mappings : list (frame m))
  (tbl : list (row m)) : outcome unit * list (row m) :=
  match emit_rows m mappings tbl with
  | Some tbl' => (Ok tt, tbl')
  | None => (Raise IntegrityError, tbl)
  end.

Definition bulk_insert_mappings (m : models.t) (mappings : list (frame m))
  (s : t) : outcome unit * t :=
  let (r, tbl) := insert_rows m mappings (table m (working s)) in
  match r with
  | Ok _ => (r, mk (committed s) (set_table m (working s) tbl) (active s))
  | _ => (r, fail s)
  end.

Definition update_row (m : models.t) (u : ScoreMapping.t) (r : row m) : row m :=
  if pk m r =? ScoreMapping.id u then set_score m (ScoreMapping.score u) r
  else r.

Definition update_rows (m : models.t) (mappings : list ScoreMapping.t)
  (tbl : list (row m)) : list (row m) :=
  fold_left (fun tbl u => map (update_row m u) tbl) mappings tbl.

Definition bulk_update_mappings (m : models.t) (mappings : list ScoreMapping.t)
  (s : t) : outcome unit * t :=
  (Ok tt,
   mk (committed s)
      (set_table m (working s) (update_rows m mappings (table m (working s))))
      (active s)).

End Session.

(* ================================================================== *)
(** * The pipeline monad: the store and the trace of store calls *)

Inductive call : Type :=
| SessionNew
| Query (m : models.t)
| BulkInsert (m : models.t) (n : nat)
| BulkUpdate (m : models.t) (n : nat)
| Commit
| Rollback
| Close
| ReadSql (m : models.t).

Record World : Type := mkWorld {
  store : Store;
  trace : list call
}.

Definition M (A : Type) : Type := World -> outcome A * World.

Definition ret {A} (a : A) : M A := fun w => (Ok a, w).

Definition raise {A} (e : exn) : M A := fun w => (Raise e, w).

Definition lift {A} (o : outcome A) : M A := fun w => (o, w).

Definition bind {A B} (c : M A) (k : A -> M B) : M B :=
  fun w =>
    match c w with
    | (Ok a, w') => k a w'
    | (Raise e, w') => (Raise e, w')
    | (OutOfFuel, w') => (OutOfFuel, w')
    end.

Notation "x <- c ;; k" := (bind c (fun x => k))
  (at level 61, c at next level, right associativity).
Notation "c ;;; k" := (bind c (fun _ => k))
  (at level 61, right associativity).

(* ================================================================== *)
(** * DBConnection ([_database/connection.py]) *)

Module DBConnection.

Definition __enter__ (db : Store) : Session.t := Session.new db.

(** [__exit__] does not look at its arguments: it commits, then closes.
    When [commit] raises, [close] is not reached and the store keeps what
    was committed before. When [__exit__] returns, it returns [None], so an
    exception of the body propagates. *)
Definition __exit__ (exception_type : option exn) (session : Session.t)
  : outcome unit * Store * list call :=
  match Session.commit session with
  | (Ok _, session) => (Ok tt, Session.close session, [Commit; Close])
  | (r, session) => (r, Session.committed session, [Commit])
  end.

Definition exception_of {A} (r : outcome A) : option exn :=
  match r with
  | Raise e => Some e
  | _ => None
  end.

(** The calls a body that made the call [c] has caused on its session:
    [c], and the rollback of the library when [c] failed. *)
Definition body_calls (c : call) (session : Session.t) : list call :=
  if Session.active session then [c] else [c; Rollback].

(** [with self.Connection as session: body]; [c] names the call the body
    makes on the session. An exception raised by [__exit__] replaces the
    one of the body. *)
Definition with_Connection {A} (c : call)
  (body : Session.t -> outcome A * Session.t) : M A :=
  fun w =>
    let session := __enter__ (store w) in
    let (r, session') := body session in
    let '(exit, db, calls) := __exit__ (exception_of r) session' in
    (match exit with
     | Ok _ => r
     | Raise e => Raise e
     | OutOfFuel => OutOfFuel
     end,
     mkWorld db (trace w ++ [SessionNew] ++ body_calls c session' ++ calls)).

End DBConnection.

(* ================================================================== *)
(** * DatabaseManager ([database/database_manager.py]) *)

Module DatabaseManager.

(** [insert_values]; [values] is a frame, so the [isinstance] test
    passes. *)
Definition insert_values (model : models.t) (values : list (frame model))
  : M unit :=
  DBConnection.with_Connection (BulkInsert model (List.length values))
    (Session.bulk_insert_mappings model values).

(** [pd.read_sql] through the engine, after the session is closed. *)
Definition read_sql (model : models.t) (filters : list (row model -> bool))
  : M (list (row model)) :=
  fun w =>
    (Ok (filter (fun r => forallb (fun f => f r) filters) (table model (store w))),
     mkWorld (store w) (trace w ++ [ReadSql model])).

(** [get_values] *)
Definition get_values (model : models.t) (filters : list (row model -> bool))
  : M (list (row model)) :=
  DBConnection.with_Connection (Query model) (fun s => (Ok tt, s)) ;;;
  read_sql model filters.

(** The rows of the inner join of [original] and [values] on the key,
    after the column loop that follows the merge: [score_x] is dropped,
    [score_y] becomes [score], and of the other columns only [id] is
    kept. *)
Definition join_on (model : models.t) (key : row model -> string)
  (original : list (row model)) (values : list ScoresDF.row)
  : list ScoreMapping.t :=
  flat_map
    (fun o =>
       map (fun v => ScoreMapping.mk (pk model o) (ScoresDF.score v))
           (filter (fun v => String.eqb (key o) (ScoresDF.id v)) values))
    original.

(** [pd.merge(original, values, on=on)] and the column loop. The key
    column of an empty table read by [pd.read_sql] has dtype [object], the
    one of an empty details frame [float64]: when both frames are empty
    [pd.merge] raises [ValueError]. When only one is empty the dtypes are
    not compared, and two frames with rows both carry strings. *)
Definition merge_on (model : models.t) (key : row model -> string)
  (original : list (row model)) (values : list ScoresDF.row)
  : outcome (list ScoreMapping.t) :=
  match original, values with
  | [], [] => Raise ValueError
  | _, _ => Ok (join_on model key original values)
  end.

(** [update_values]; [values] is the frame of a details call, with the two
    columns [id] and [score], whose [id] column the caller has renamed to
    [on], and [on] is one of the string columns of the model. A column
    name that is not in both frames makes [pd.merge] raise [KeyError]. *)
Definition update_values (model : models.t) (values : list ScoresDF.row)
  (on : string) : M unit :=
  original <- get_values model [] ;;
  match on_column model on with
  | None => raise KeyError
  | Some key =>
      merged <- lift (merge_on model key original values) ;;
      DBConnection.with_Connection (BulkUpdate model (List.length merged))
        (Session.bulk_update_mappings model merged)
  end.

End DatabaseManager.

(* ================================================================== *)
(** * RedditManager ([sentiment_analysis/platform_managers.py]) *)

Module RedditManager.

Import DatabaseManager.

Fixpoint mapM {A B} (f : A -> outcome B) (l : list A) : outcome (list B) :=
  match l with
  | [] => Ok []
  | x :: l' => obind (f x) (fun y => obind (mapM f l') (fun ys => Ok (y :: ys)))
  end.

(** [subscribers.fillna(0)] *)
Definition fillna (r : SubredditsDF.row) : SubredditsDF.row :=
  SubredditsDF.mk (SubredditsDF.name r) (SubredditsDF.subreddit_id r)
    (Some (match SubredditsDF.subscribers r with Some n => n | None => 0 end)).

(** [list(set([sub for sub in subreddits_list if sub not in existing_subs]))];
    the order in which a Python set lists its elements is not specified,
    [nodup] fixes one. *)
Definition new_subs (existing_subs subreddits_list : list string) : list string :=
  nodup string_dec
    (filter (fun sub => negb (isin sub existing_subs)) subreddits_list).

(** [update_subreddits]; [subreddits_list=None] is the empty list. The
    [update_all] branch ends on [update_table_values], which
    [DatabaseManager] does not define. *)
Definition update_subreddits (E : Env) (subreddits_list : list string)
  (update_all : bool) : M unit :=
  stored_subreddits <- get_values models.Subreddits [] ;;
  if update_all then
    _updated <- lift (RedditAPI.get_subreddit_details E
                        (map Subreddits.name stored_subreddits)) ;;
    raise AttributeError
  else
    match subreddits_list with
    | [] => ret tt
    | _ :: _ =>
        let existing_subs := map Subreddits.name stored_subreddits in
        match new_subs existing_subs subreddits_list with
        | [] => ret tt
        | (_ :: _) as subs =>
            new_sub_info <- lift (RedditAPI.get_subreddit_details E subs) ;;
            insert_values models.Subreddits (map fillna new_sub_info)
        end
    end.

(** [stored_subreddits.id[stored_subreddits.name == x].item()]: the [id]
    column of the only row named [x]; [item()] raises [ValueError] when
    the selection does not hold exactly one element. *)
Definition subreddit_item (stored_subreddits : list Subreddits.row) (x : string)
  : outcome Z :=
  match filter (fun r => String.eqb (Subreddits.name r) x) stored_subreddits with
  | [r] => Ok (Subreddits.id r)
  | _ => Raise ValueError
  end.

(** The [subreddit] column overwritten and renamed [subreddit_id]. *)
Definition map_subreddit (stored_subreddits : list Subreddits.row)
  (r : SubmissionsDF.row) : outcome ProcessedSubmissionsDF.row :=
  obind (subreddit_item stored_subreddits (SubmissionsDF.subreddit r))
    (fun i =>
       Ok (ProcessedSubmissionsDF.mk (SubmissionsDF.submission_id r)
             (SubmissionsDF.created_utc r) (PyInt i) (SubmissionsDF.title r)
             (SubmissionsDF.score r) (SubmissionsDF.ticker r))).

Definition clean_title (E : Env) (r : ProcessedSubmissionsDF.row)
  : ProcessedSubmissionsDF.row :=
  ProcessedSubmissionsDF.mk (ProcessedSubmissionsDF.submission_id r)
    (ProcessedSubmissionsDF.created_utc r)
    (ProcessedSubmissionsDF.subreddit_id r)
    (strip_punctuation_lower E (ProcessedSubmissionsDF.title r))
    (ProcessedSubmissionsDF.score r) (ProcessedSubmissionsDF.ticker r).

(** [submissions[~submissions.submission_id.isin(submission_ids)]] *)
Definition new_submissions (submission_ids : list string)
  (submissions : list SubmissionsDF.row) : list SubmissionsDF.row :=
  filter (fun r => negb (isin (SubmissionsDF.submission_id r) submission_ids))
         submissions.

(** [process_submissions]. The attribute [submission_id] is read after
    the store has been queried; the list that [get_submissions] returns
    when it found nothing does not have it. The empty frame returned
    when nothing is new is the empty list of rows. *)
Definition process_submissions (E : Env) (submissions : submissions_obj)
  : M (list ProcessedSubmissionsDF.row) :=
  stored <- get_values models.RedditSubmissions [] ;;
  let submission_ids := map RedditSubmissions.submission_id stored in
  match submissions with
  | EmptyList => raise AttributeError
  | DataFrame rows =>
      match new_submissions submission_ids rows with
      | [] => ret []
      | (_ :: _) as submissions =>
          update_subreddits E (map SubmissionsDF.subreddit submissions) false ;;;
          stored_subreddits <- get_values models.Subreddits [] ;;
          mapped <- lift (mapM (map_subreddit stored_subreddits) submissions) ;;
          ret (map (clean_title E) mapped)
      end
  end.

(** [comments[~comments.comment_id.isin(comment_ids)]] *)
Definition new_comments (comment_ids : list string)
  (comments : list CommentsDF.row) : list CommentsDF.row :=
  filter (fun c => negb (isin (CommentsDF.comment_id c) comment_ids)) comments.

Definition clean_comment (E : Env) (c : CommentsDF.row)
  : ProcessedCommentsDF.row :=
  ProcessedCommentsDF.mk (CommentsDF.created_utc c)
    (CommentsDF.submission_id c) (CommentsDF.comment_id c)
    (strip_punctuation_lower E (CommentsDF.body c)) (CommentsDF.score c).

(** [process_comments]; the empty frame returned when nothing is new is
    the empty list of rows. *)
Definition process_comments (E : Env) (comments : list CommentsDF.row)
  : M (list ProcessedCommentsDF.row) :=
  stored <- get_values models.RedditComments [] ;;
  let comment_ids := map RedditComments.comment_id stored in
  match new_comments comment_ids comments with
  | [] => ret []
  | (_ :: _) as comments => ret (map (clean_comment E) comments)
  end.

(** [update_comments] *)
Definition update_comments (E : Env) (comments : list CommentsDF.row)
  : M unit :=
  updated_comments <- lift (RedditAPI.get_comment_details E
                              (map CommentsDF.comment_id comments)) ;;
  update_values models.RedditComments updated_comments "comment_id".

(** [comments[~comments.comment_id.isin(processed_comments.comment_id)]] *)
Definition old_comments (comments : list CommentsDF.row)
  (processed_comments : list ProcessedCommentsDF.row) : list CommentsDF.row :=
  filter
    (fun c => negb (isin (CommentsDF.comment_id c)
                      (map ProcessedCommentsDF.comment_id processed_comments)))
    comments.

(** The filters of the first query of [update_submissions]. *)
Definition ticker_in_range (ticker : string) (daterange : Z * Z)
  : list (RedditSubmissions.row -> bool) :=
  [ (fun r => String.eqb (RedditSubmissions.ticker r) ticker);
    (fun r => (fst daterange <=? RedditSubmissions.created_utc r)
              && (RedditSubmissions.created_utc r <=? snd daterange)) ].

(** The body of the [for ticker in tickers] loop of
    [update_submissions]. *)
Definition update_ticker (E : Env) (ticker : string) (daterange : Z * Z)
  : M unit :=
  rows <- get_values models.RedditSubmissions (ticker_in_range ticker daterange) ;;
  let submission_ids := map RedditSubmissions.submission_id rows in
  updated_submissions <- lift (RedditAPI.get_submission_details E submission_ids) ;;
  update_values models.RedditSubmissions updated_submissions "submission_id" ;;;
  comments <- lift (RedditAPI.get_comments E submission_ids) ;;
  processed_comments <- process_comments E comments ;;
  match processed_comments with
  | [] => ret tt
  | _ :: _ => insert_values models.RedditComments processed_comments
  end ;;;
  match old_comments comments processed_comments with
  | [] => ret tt
  | (_ :: _) as old => update_comments E old
  end.

(** [update_submissions] *)
Fixpoint update_submissions (E : Env) (tickers : list string)
  (daterange : Z * Z) : M unit :=
  match tickers with
  | [] => ret tt
  | ticker :: rest =>
      update_ticker E ticker daterange ;;;
      update_submissions E rest daterange
  end.

Definition fields : list string :=
  ["id"; "created_utc"; "subreddit"; "title"; "score"]%string.

(** The [params] dictionary [fetch_data] builds from its arguments. *)
Definition fetch_params (ticker : string) (limit before after : Z)
  (subreddits : list string) : Params.t :=
  Params.mk ticker (PyInt limit) fields subreddits
    (PyStr (strftime_s before)) (PyStr (strftime_s after)).

(** [fetch_data]; [before] and [after] are the epoch seconds of the two
    [datetime] arguments. *)
Definition fetch_data (E : Env) (fuel : nat) (ticker : string)
  (limit before after : Z) (subreddits : list string) : M unit :=
  let params := fetch_params ticker limit before after subreddits in
  submissions <- lift (RedditAPI.get_submissions E fuel params) ;;
  processed_submissions <- process_submissions E submissions ;;
  match processed_submissions with
  | [] => ret tt
  | _ :: _ =>
      insert_values models.RedditSubmissions processed_submissions ;;;
      comments <- lift (RedditAPI.get_comments E
                          (map ProcessedSubmissionsDF.submission_id
                               processed_submissions)) ;;
      processed_comments <- process_comments E comments ;;
      match processed_comments with
      | [] => ret tt
      | _ :: _ => insert_values models.RedditComments processed_comments
      end
  end.

End RedditManager.

(* ================================================================== *)
(** * Vocabulary of the statements *)

(** The calls of one [get_values]. *)
Definition get_values_calls (m : models.t) : list call :=
  [SessionNew; Query m; Commit; Close; ReadSql m].

(** The calls of one write session. *)
Definition write_calls (c : call) : list call :=
  [SessionNew; c; Commit; Close].

(** The rows a read with [filters] returns. *)
Definition select (m : models.t) (filters : list (row m -> bool))
  (db : Store) : list (row m) :=
  filter (fun r => forallb (fun f => f r) filters) (table m db).

(** A lookup of [get_submission_details] that answers. *)
Definition submission_resolves (E : Env) (i : string) : bool :=
  praw_submission_init E i
  && match praw_submission_score E i with Some _ => true | None => false end.

(** The calls of a write session whose bulk operation failed: the
    library rolls the transaction back, [commit] is called and raises,
    [close] is not reached. *)
Definition failed_write_calls (c : call) : list call :=
  [SessionNew; c; Rollback; Commit].

(** What the caller of a write session gets when the bulk operation
    gave [r]: [r] when it returned, the exception of [commit]
    otherwise. *)
Definition after_exit (r : outcome unit) : outcome unit :=
  match r with
  | Ok _ => r
  | _ => Raise PendingRollbackError
  end.

Definition session_calls (c : call) (r : outcome unit) : list call :=
  match r with
  | Ok _ => write_calls c
  | _ => failed_write_calls c
  end.




(** The claim C6 as the specification words it: the call returns and
    the only store calls it made are those of its first read. *)
Definition only_the_initial_read (r : outcome unit) (before after : World)
  : Prop :=
  r = Ok tt
  /\ trace after = trace before ++ get_values_calls models.RedditSubmissions.

(** Two submission rows that differ at most by their score. *)
Definition same_but_score (r r' : RedditSubmissions.row) : Prop :=
  RedditSubmissions.id r = RedditSubmissions.id r'
  /\ RedditSubmissions.ticker r = RedditSubmissions.ticker r'
  /\ RedditSubmissions.subreddit_id r = RedditSubmissions.subreddit_id r'
  /\ RedditSubmissions.submission_id r = RedditSubmissions.submission_id r'
  /\ RedditSubmissions.created_utc r = RedditSubmissions.created_utc r'
  /\ RedditSubmissions.title r = RedditSubmissions.title r'.

(** The submissions table keeps its rows, each up to its score. *)
Definition submissions_kept (db db' : Store) : Prop :=
  Forall2 same_but_score (reddit_submissions db) (reddit_submissions db').

(** A computation whose effect on the store stays within [R], whatever
    its outcome. *)
Definition preserves {A} (R : Store -> Store -> Prop) (c : M A) : Prop :=
  forall w, R (store w) (store (snd (c w))).





(** The claim C3 for one stored submission: its [subreddit_id] is the
    [subreddit_id] of a row of the subreddits table. *)
Definition references_a_subreddit (db : Store) (r : RedditSubmissions.row)
  : Prop :=
  exists s, In s (subreddits db)
            /\ RedditSubmissions.subreddit_id r = PyStr (Subreddits.subreddit_id s).

(** A comment lookup of [get_comment_details] that answers. *)
Definition comment_resolves (E : Env) (i : string) : bool :=
  match praw_comment_score E i with Some _ => true | None => false end.

(** A row of a details frame says what the source says of its id. *)
Definition submission_detail (E : Env) (i : string) (r : ScoresDF.row) : Prop :=
  praw_submission_init E i = true
  /\ praw_submission_score E i = Some (ScoresDF.score r)
  /\ ScoresDF.id r = i.

Definition comment_detail (E : Env) (i : string) (r : ScoresDF.row) : Prop :=
  praw_comment_score E i = Some (ScoresDF.score r) /\ ScoresDF.id r = i.

(** A row of the frame of [_process_submissions] carries the columns of
    a page item, the refreshed score and the ticker. *)
Definition refreshed_post (E : Env) (ticker : string) (p : Post.t)
  (r : SubmissionsDF.row) : Prop :=
  SubmissionsDF.submission_id r = Post.id p
  /\ SubmissionsDF.created_utc r = Post.created_utc p
  /\ SubmissionsDF.subreddit r = Post.subreddit p
  /\ SubmissionsDF.title r = Post.title p
  /\ SubmissionsDF.ticker r = ticker
  /\ praw_submission_score E (Post.id p) = Some (SubmissionsDF.score r).

(** A row of the comments frame is a top-level comment of the
    submission it names. *)
Definition comment_of_submission (E : Env) (r : CommentsDF.row) : Prop :=
  praw_submission_init E (CommentsDF.submission_id r) = true
  /\ exists cs c,
       praw_submission_comments E (CommentsDF.submission_id r) = Some cs
       /\ In (Comment c) cs
       /\ r = CommentsDF.mk (PrawComment.created_utc c)
                (CommentsDF.submission_id r) (PrawComment.id c)
                (PrawComment.body c) (PrawComment.score c).

(** The column of a mapping that goes to the unique column of its
    model. *)
Definition frame_key (m : models.t) : frame m -> string :=
  match m with
  | models.Subreddits => SubredditsDF.subreddit_id
  | models.RedditSubmissions => ProcessedSubmissionsDF.submission_id
  | models.RedditComments => ProcessedCommentsDF.comment_id
  end.

(** The rows a batch becomes when its mappings receive the primary keys
    [i], [i + 1], ... in order. *)
Fixpoint numbered (m : models.t) (i : Z) (values : list (frame m))
  : list (row m) :=
  match values with
  | [] => []
  | v :: rest => to_row m i v :: numbered m (i + 1) rest
  end.

(** The keys of a table are pairwise distinct: the primary key and the
    column declared unique. *)
Definition well_keyed (m : models.t) (db : Store) : Prop :=
  NoDup (map (pk m) (table m db))
  /\ NoDup (map (unique_column m) (table m db)).

(** What [update_values] makes of a row: the score of the last row of
    [values] that matches it on [key], if there is one. *)
Definition refreshed (m : models.t) (key : row m -> string)
  (values : list ScoresDF.row) (r : row m) : row m :=
  match last_item (filter (fun v => String.eqb (key r) (ScoresDF.id v)) values) with
  | Some v => set_score m (ScoresDF.score v) r
  | None => r
  end.

(** A row of the frame [process_submissions] returns, against the
    fetched row it comes from and the store it was mapped in. *)
Definition processed_row (E : Env) (db : Store) (r : SubmissionsDF.row)
  (p : ProcessedSubmissionsDF.row) : Prop :=
  ProcessedSubmissionsDF.submission_id p = SubmissionsDF.submission_id r
  /\ ProcessedSubmissionsDF.created_utc p = SubmissionsDF.created_utc r
  /\ ProcessedSubmissionsDF.score p = SubmissionsDF.score r
  /\ ProcessedSubmissionsDF.ticker p = SubmissionsDF.ticker r
  /\ ProcessedSubmissionsDF.title p
     = strip_punctuation_lower E (SubmissionsDF.title r)
  /\ exists s, In s (subreddits db)
               /\ Subreddits.name s = SubmissionsDF.subreddit r
               /\ ProcessedSubmissionsDF.subreddit_id p = PyInt (Subreddits.id s).

(** Every table of [db'] is the table of [db] with rows appended. *)
Definition grows (db db' : Store) : Prop :=
  forall m, exists added, table m db' = table m db ++ added.

(** Two comment rows that differ at most by their score. *)
Definition same_comment_but_score (c c' : RedditComments.row) : Prop :=
  RedditComments.id c = RedditComments.id c'
  /\ RedditComments.submission_id c = RedditComments.submission_id c'
  /\ RedditComments.comment_id c = RedditComments.comment_id c'
  /\ RedditComments.created_utc c = RedditComments.created_utc c'
  /\ RedditComments.cleaned_comment c = RedditComments.cleaned_comment c'.

(** The comments table keeps its rows in place, each up to its score,
    and receives new rows, all under submissions of [S]. *)
Definition comments_kept (S : string -> Prop) (db db' : Store) : Prop :=
  exists kept added,
    reddit_comments db' = kept ++ added
    /\ Forall2 same_comment_but_score (reddit_comments db) kept
    /\ Forall (fun c => S (RedditComments.submission_id c)) added.

(** Every stored comment names a stored submission. *)
Definition comments_reference_submissions (db : Store) : Prop :=
  Forall (fun c => In (RedditComments.submission_id c)
                      (map RedditSubmissions.submission_id (reddit_submissions db)))
         (reddit_comments db).

(** What a refresh makes of a stored submission: the score the source
    gives for it when it is of the ticker and in the range, the row
    itself otherwise. *)
Definition refreshed_from_source (E : Env) (ticker : string)
  (daterange : Z * Z) (r : RedditSubmissions.row) : RedditSubmissions.row :=
  if forallb (fun f => f r) (RedditManager.ticker_in_range ticker daterange)
  then match praw_submission_score E (RedditSubmissions.submission_id r) with
       | Some sc => RedditSubmissions.set_score sc r
       | None => r
       end
  else r.

(** The tables whose keys were distinct in [db] have distinct keys in
    [db']. *)
Definition keys_stay_distinct (db db' : Store) : Prop :=
  forall m, well_keyed m db -> well_keyed m db'.

(* ================================================================== *)
(** * Scenarios: concrete worlds used by the examples below *)

Module Scenario.

Definition empty_store : Store := mkStore [] [] [].

Definition start (db : Store) : World := mkWorld db [].

(** A source with no matching item: every page is empty. *)
Definition no_items : Env :=
  mkEnv (fun _ _ => Data []) (fun _ => true) (fun _ => None)
        (fun _ => None) (fun _ => None) (fun _ => None) (fun s => s).

(** A query that carries its window as integers. *)
Definition int_query : Params.t :=
  Params.mk "GME" (PyInt 1) RedditManager.fields [] (PyInt 100000) (PyInt 0).

(** The same query with the window as [fetch_data] writes it. *)
Definition str_query : Params.t :=
  Params.mk "GME" (PyInt 1) RedditManager.fields [] (PyStr "100000") (PyStr "0").

(** A source where the lookup of the id ["bad"] fails and every other
    lookup answers. *)
Definition answers (i : string) : option Z :=
  if String.eqb i "bad" then None else Some 7.

Definition one_bad_id : Env :=
  mkEnv (fun _ _ => Data []) (fun i => negb (String.eqb i "bad")) answers
        (fun _ => Some []) answers (fun _ => None) (fun s => s).

(** A source with one submission in one new subreddit and one comment
    under it. *)
Definition a1 : Post.t :=
  Post.mk "a1" 90000 "wallstreetbets" "gme to the moon" 5.

Definition c1 : PrawComment.t := PrawComment.mk 90060 "c1" "holding" 3.

Definition one_submission : Env :=
  mkEnv (fun _ _ => Data [a1]) (fun _ => true) (fun _ => Some 12)
        (fun _ => Some [MoreComments; Comment c1]) (fun _ => Some 3)
        (fun _ => Some ("t5_2th52", Some 1000)) (fun s => s).

(** A batch that holds the same submission twice. *)
Definition v1 : ProcessedSubmissionsDF.row :=
  ProcessedSubmissionsDF.mk "a1" 90000 (PyInt 1) "gme to the moon" 12 "GME".

Definition twice : list ProcessedSubmissionsDF.row := [v1; v1].

(** The world the first ingestion of [one_submission] leaves. *)
Definition after_first_fetch : World :=
  snd (RedditManager.fetch_data one_submission 2 "GME" 1 100000 0
         ["wallstreetbets"] (start empty_store)).

(** A store that holds the submission [a1] of GME, created at 90000,
    and its comment [c1], with no call made on it yet. *)
Definition one_stored : World := start (store after_first_fetch).

(** Scenario D: the store knows comment [c1]; the source now lists [c1]
    and [c2] under the submission, with fresh scores 5 and 9. *)
Definition c1_now : PrawComment.t := PrawComment.mk 90060 "c1" "holding" 5.
Definition c2_now : PrawComment.t := PrawComment.mk 90120 "c2" "Buying!" 9.

Definition two_comments : Env :=
  mkEnv (fun _ _ => Data [a1]) (fun _ => true) (fun _ => Some 12)
        (fun _ => Some [Comment c1_now; Comment c2_now])
        (fun i => if String.eqb i "c1" then Some 5 else Some 9)
        (fun _ => Some ("t5_2th52", Some 1000)) (fun s => s).


(** A source with one item on its first page and nothing after. *)
Definition one_item_then_nothing : Env :=
  mkEnv (fun k _ => match k with O => Data [a1] | S _ => Data [] end)
        (fun _ => true) (fun _ => Some 12) (fun _ => Some [])
        (fun _ => None) (fun _ => Some ("t5_2th52", Some 1000)) (fun s => s).

(** Fresh scores for a stored submission and for one that is not
    stored; the stored one is listed twice. *)
Definition fresh_scores : list ScoresDF.row :=
  [ScoresDF.mk "a1" 20; ScoresDF.mk "zz" 99; ScoresDF.mk "a1" 21].

End Scenario.

(* ================================================================== *)
(** * The paginated fetch *)

Section FetchLoop.

Variable E : Env.

Lemma py_int_strftime_s (t : Z) : py_int (PyStr (strftime_s t)) = Ok t.
Proof.
  unfold py_int, strftime_s.
  rewrite NilZero.isi.
  - now rewrite DecimalZ.of_to.
  - destruct t; simpl; try discriminate.
    intros H; injection H as H. now apply DecimalPos.Unsigned.to_uint_nonnil in H.
  - destruct t; simpl; try discriminate.
    intros H; injection H as H. now apply DecimalPos.Unsigned.to_uint_nonnil in H.
Qed.

Lemma last_item_None {A} (l : list A) : last_item l = None <-> l = [].
Proof. destruct l; simpl; split; congruence. Qed.

(** The loop condition reads the locals [before], [after] and [limit];
    no iteration assigns to them. From a request on, while only empty
    pages arrive and the cursor in [params] is an integer, an iteration
    changes nothing the condition depends on: whatever the fuel, the
    loop is still running when it is spent. *)
Lemma fetch_loop_empty_pages_runs_on (k0 : nat) :
  (forall k p, (k0 <= k)%nat -> pushshift E k p = Data []) ->
  forall fuel k before after limit params c submissions,
    (k0 <= k)%nat ->
    after < before -> len submissions < limit ->
    Params.before params = PyInt c ->
    RedditAPI.fetch_loop E fuel k before after limit params submissions
    = OutOfFuel.
Proof.
  intros Hempty fuel.
  induction fuel as [|fuel IH];
    intros k before after limit params c submissions Hk Hw Hl Hc.
  - reflexivity.
  - simpl.
    assert (Hcond : (after <? before) && (len submissions <? limit) = true).
    { apply andb_true_iff; split; apply Z.ltb_lt; assumption. }
    rewrite Hcond, (Hempty k params Hk). simpl. rewrite Hc. simpl.
    apply IH with (c := c - RedditAPI.before_decay); auto.
Qed.

(** The first iteration of a loop that is entered with a string cursor
    and receives an empty page. *)
Lemma fetch_loop_string_cursor fuel before after limit params s :
  after < before -> 0 < limit ->
  Params.before params = PyStr s ->
  pushshift E 0 params = Data [] ->
  RedditAPI.fetch_loop E (S fuel) 0 before after limit params [] = Raise TypeError.
Proof.
  intros Hw Hl Hs Hp. simpl.
  assert (Hcond : (after <? before) && (len (@nil Post.t) <? limit) = true).
  { apply andb_true_iff; split; apply Z.ltb_lt; [lia | exact Hl]. }
  rewrite Hcond, Hp. simpl. now rewrite Hs.
Qed.

Lemma check_params_before params :
  Params.before (RedditAPI._check_params params) = Params.before params.
Proof. unfold RedditAPI._check_params. now destruct (isin _ _). Qed.

Lemma check_params_after params :
  Params.after (RedditAPI._check_params params) = Params.after params.
Proof. unfold RedditAPI._check_params. now destruct (isin _ _). Qed.

Lemma check_params_limit params :
  Params.limit (RedditAPI._check_params params) = Params.limit params.
Proof. unfold RedditAPI._check_params. now destruct (isin _ _). Qed.

End FetchLoop.

(** C10. A call of [get_submissions] whose [before] is a decimal string
    and whose first page is empty raises [TypeError]: the handler of
    [IndexError] subtracts the integer decay from the string, and the
    exception leaves the call, which returns no item. *)
Theorem get_submissions_string_cursor_raises :
  forall (E : Env) (fuel : nat) (params : Params.t) (s : string) (b a l : Z),
    Params.before params = PyStr s ->
    py_int (PyStr s) = Ok b ->
    py_int (Params.after params) = Ok a ->
    py_int (Params.limit params) = Ok l ->
    a < b -> 0 < l ->
    pushshift E 0 (RedditAPI._check_params params) = Data [] ->
    RedditAPI.get_submissions E (S fuel) params = Raise TypeError.
Proof.
  intros E fuel params s b a l Hs Hb Ha Hl Hw Hpos Hpage.
  unfold RedditAPI.get_submissions.
  rewrite check_params_after, check_params_before, check_params_limit.
  rewrite Ha, Hs, Hb, Hl. cbn [obind].
  rewrite (@fetch_loop_string_cursor E fuel b a l _ s); auto.
  now rewrite check_params_before.
Qed.

Lemma get_submissions_string_cursor_raises_witness :
  RedditAPI.get_submissions Scenario.no_items 1 Scenario.str_query
  = Raise TypeError.
Proof.
  apply (@get_submissions_string_cursor_raises Scenario.no_items 0
           Scenario.str_query "100000" 100000 0 1);
    try reflexivity; lia.
Defined.

(** C1, at two inputs. First a query whose window is given as integers
    and a source that only sends empty pages; then the query
    [fetch_data] builds, with its window as strings, and a source whose
    first page holds one item and whose later pages are empty. In both
    the call is still in its loop whatever the number of iterations
    allowed: the cursor [params['before']] goes down by 18000 at each
    empty page and passes below [after], but the condition tests the
    local [before], which stays at 100000. *)
Theorem get_submissions_empty_pages_never_exits :
  forall fuel : nat,
    RedditAPI.get_submissions Scenario.no_items fuel Scenario.int_query
    = OutOfFuel
    /\ RedditAPI.get_submissions Scenario.one_item_then_nothing fuel
         (RedditManager.fetch_params "GME" 10 100000 0 [])
       = OutOfFuel.
Proof.
  intros fuel. split.
  - unfold RedditAPI.get_submissions.
    change (RedditAPI._check_params Scenario.int_query) with Scenario.int_query.
    cbn [obind py_int Scenario.int_query Params.after Params.before Params.limit].
    rewrite (@fetch_loop_empty_pages_runs_on Scenario.no_items 0)
      with (c := 100000); try reflexivity; lia.
  - unfold RedditAPI.get_submissions.
    rewrite check_params_after, check_params_before, check_params_limit.
    unfold RedditManager.fetch_params.
    cbn [Params.after Params.before Params.limit].
    rewrite !py_int_strftime_s. cbn [obind py_int].
    destruct fuel as [|fuel]; [reflexivity|].
    cbn [RedditAPI.fetch_loop]. simpl.
    rewrite (@fetch_loop_empty_pages_runs_on Scenario.one_item_then_nothing 1)
      with (c := 90000); try reflexivity; try lia.
    intros [|k] p Hk; [lia | reflexivity].
Qed.

(* ================================================================== *)
(** * The detail lookups *)

Section Details.

Variable E : Env.

(** One unresolved id anywhere in the list makes the whole call raise. *)
Lemma get_submission_details_raises ids :
  existsb (fun i => negb (submission_resolves E i)) ids = true ->
  RedditAPI.get_submission_details E ids = Raise PrawException.
Proof.
  unfold submission_resolves.
  induction ids as [|i ids IH]; simpl; intros H; [discriminate|].
  destruct (praw_submission_init E i); [|reflexivity].
  destruct (praw_submission_score E i); [|reflexivity].
  simpl in H. now rewrite IH.
Qed.

Lemma get_comment_details_raises ids :
  existsb (fun i => match praw_comment_score E i with
                    | Some _ => false | None => true end) ids = true ->
  RedditAPI.get_comment_details E ids = Raise PrawException.
Proof.
  induction ids as [|i ids IH]; simpl; intros H; [discriminate|].
  destruct (praw_comment_score E i); [|reflexivity].
  simpl in H. now rewrite IH.
Qed.

(** A call that returns has one row per id, in the order of the ids. *)
Lemma get_submission_details_ids ids rows :
  RedditAPI.get_submission_details E ids = Ok rows ->
  map ScoresDF.id rows = ids.
Proof.
  revert rows. induction ids as [|i ids IH]; simpl; intros rows H.
  - now injection H as <-.
  - destruct (praw_submission_init E i); [|discriminate].
    destruct (praw_submission_score E i); [|discriminate].
    destruct (RedditAPI.get_submission_details E ids) as [info| |];
      simpl in H; try discriminate.
    injection H as <-. simpl. now rewrite (IH info).
Qed.

Lemma get_submission_details_never_out_of_fuel ids :
  RedditAPI.get_submission_details E ids <> OutOfFuel.
Proof.
  induction ids as [|i ids IH]; simpl; [discriminate|].
  destruct (praw_submission_init E i); [|discriminate].
  destruct (praw_submission_score E i); [|discriminate].
  destruct (RedditAPI.get_submission_details E ids); simpl; congruence.
Qed.

End Details.

(** C5, at the id list [bad, good]: the lookup of ["bad"] raises inside
    [get_submission_details] and inside [get_comment_details], nothing
    catches it, and the call ends there without a row for ["good"],
    which resolves when asked alone. [get_comments], next to them, does
    skip the id it cannot open. *)
Theorem detail_lookup_failure_aborts_the_call :
  RedditAPI.get_submission_details Scenario.one_bad_id ["bad"; "good"]
    = Raise PrawException
  /\ RedditAPI.get_comment_details Scenario.one_bad_id ["bad"; "good"]
    = Raise PrawException
  /\ RedditAPI.get_submission_details Scenario.one_bad_id ["good"]
    = Ok [ScoresDF.mk "good" 7]
  /\ RedditAPI.get_comment_details Scenario.one_bad_id ["good"]
    = Ok [ScoresDF.mk "good" 7]
  /\ RedditAPI.get_comments Scenario.one_bad_id ["bad"; "good"] = Ok [].
Proof.
  split; [|split].
  - now apply get_submission_details_raises.
  - now apply get_comment_details_raises.
  - repeat split.
Qed.

(* ================================================================== *)
(** * Store calls: what each [DatabaseManager] method does to the world *)

Lemma set_table_table m db : set_table m db (table m db) = db.
Proof. destruct m, db; reflexivity. Qed.

Lemma table_set_table m db tbl : table m (set_table m db tbl) = tbl.
Proof. destruct m; reflexivity. Qed.

Lemma with_Connection_run {A} c (body : Session.t -> outcome A * Session.t) w :
  Session.active (snd (body (Session.new (store w)))) = true ->
  DBConnection.with_Connection c body w
  = (fst (body (Session.new (store w))),
     mkWorld (Session.working (snd (body (Session.new (store w)))))
             (trace w ++ write_calls c)).
Proof.
  unfold DBConnection.with_Connection, DBConnection.__enter__.
  destruct (body (Session.new (store w))) as [r s]. simpl. intros Ha.
  unfold DBConnection.__exit__, Session.commit, DBConnection.body_calls.
  rewrite Ha. reflexivity.
Qed.

(** A body that leaves the session inactive: [commit] raises, the store
    keeps what was committed and the session is not closed. *)
Lemma with_Connection_inactive {A} c
  (body : Session.t -> outcome A * Session.t) w :
  Session.active (snd (body (Session.new (store w)))) = false ->
  DBConnection.with_Connection c body w
  = (Raise PendingRollbackError,
     mkWorld (Session.committed (snd (body (Session.new (store w)))))
             (trace w ++ failed_write_calls c)).
Proof.
  unfold DBConnection.with_Connection, DBConnection.__enter__.
  destruct (body (Session.new (store w))) as [r s]. simpl. intros Ha.
  unfold DBConnection.__exit__, Session.commit, DBConnection.body_calls.
  rewrite Ha. reflexivity.
Qed.

Lemma get_values_run m filters w :
  DatabaseManager.get_values m filters w
  = (Ok (select m filters (store w)),
     mkWorld (store w) (trace w ++ get_values_calls m)).
Proof.
  unfold DatabaseManager.get_values, bind.
  rewrite with_Connection_run by reflexivity.
  simpl. unfold DatabaseManager.read_sql, select. simpl.
  now rewrite <- app_assoc.
Qed.

Lemma bind_eq {A B} (c : M A) (k : A -> M B) w :
  bind c k w
  = match c w with
    | (Ok a, w') => k a w'
    | (Raise e, w') => (Raise e, w')
    | (OutOfFuel, w') => (OutOfFuel, w')
    end.
Proof. reflexivity. Qed.

Lemma bind_get_values {B} m filters (k : list (row m) -> M B) w :
  bind (DatabaseManager.get_values m filters) k w
  = k (select m filters (store w))
      (mkWorld (store w) (trace w ++ get_values_calls m)).
Proof. unfold bind. now rewrite get_values_run. Qed.

Lemma select_all m db : select m [] db = table m db.
Proof.
  unfold select. simpl. induction (table m db) as [|r l IH]; simpl; congruence.
Qed.

Lemma insert_values_run m values w :
  DatabaseManager.insert_values m values w
  = (after_exit (fst (Session.insert_rows m values (table m (store w)))),
     mkWorld (set_table m (store w)
                (snd (Session.insert_rows m values (table m (store w)))))
             (trace w
                ++ session_calls (BulkInsert m (List.length values))
                     (fst (Session.insert_rows m values (table m (store w)))))).
Proof.
  unfold DatabaseManager.insert_values.
  destruct (Session.insert_rows m values (table m (store w))) as [r tbl] eqn:Hrows.
  assert (Hbody : Session.bulk_insert_mappings m values (Session.new (store w))
                  = match r with
                    | Ok _ => (r, Session.mk (store w) (set_table m (store w) tbl) true)
                    | _ => (r, Session.fail (Session.new (store w)))
                    end).
  { unfold Session.bulk_insert_mappings. simpl. now rewrite Hrows. }
  unfold Session.insert_rows in Hrows.
  destruct (Session.emit_rows m values (table m (store w))) as [tbl'|];
    injection Hrows as <- <-.
  - rewrite with_Connection_run; rewrite Hbody; reflexivity.
  - rewrite with_Connection_inactive; rewrite Hbody; [|reflexivity].
    simpl. now rewrite set_table_table.
Qed.

Lemma after_exit_Ok r u : after_exit r = Ok u -> r = Ok tt.
Proof. destruct r as [[]| |]; simpl; congruence. Qed.

Lemma merge_on_not_both_empty m key original values :
  original <> [] \/ values <> [] ->
  DatabaseManager.merge_on m key original values
  = Ok (DatabaseManager.join_on m key original values).
Proof.
  unfold DatabaseManager.merge_on.
  destruct original, values; intros [H|H]; congruence.
Qed.

Lemma update_values_run m values on key w :
  on_column m on = Some key ->
  table m (store w) <> [] \/ values <> [] ->
  DatabaseManager.update_values m values on w
  = (Ok tt,
     mkWorld
       (set_table m (store w)
          (Session.update_rows m
             (DatabaseManager.join_on m key (table m (store w)) values)
             (table m (store w))))
       (trace w ++ get_values_calls m
          ++ write_calls
               (BulkUpdate m
                  (List.length
                     (DatabaseManager.join_on m key (table m (store w)) values))))).
Proof.
  intros Hon Hne. unfold DatabaseManager.update_values, bind.
  rewrite get_values_run, Hon, select_all. unfold lift.
  rewrite (merge_on_not_both_empty m key Hne).
  rewrite with_Connection_run by reflexivity. simpl.
  now rewrite <- app_assoc.
Qed.

Lemma update_values_KeyError m values on w :
  on_column m on = None ->
  DatabaseManager.update_values m values on w
  = (Raise KeyError, mkWorld (store w) (trace w ++ get_values_calls m)).
Proof.
  intros Hon. unfold DatabaseManager.update_values, bind.
  now rewrite get_values_run, Hon.
Qed.

(** The merge of an empty table with an empty frame raises. *)
Lemma update_values_ValueError m on key w :
  on_column m on = Some key ->
  table m (store w) = [] ->
  DatabaseManager.update_values m [] on w
  = (Raise ValueError, mkWorld (store w) (trace w ++ get_values_calls m)).
Proof.
  intros Hon He. unfold DatabaseManager.update_values, bind.
  rewrite get_values_run, Hon, select_all, He. reflexivity.
Qed.

(** [update_values] in all its cases: it stops before its write session
    and leaves the store as it was, or it returns and has written the
    scores of the join. *)
Lemma update_values_cases m values on w :
  (store (snd (DatabaseManager.update_values m values on w)) = store w
   /\ fst (DatabaseManager.update_values m values on w) <> Ok tt)
  \/ exists key,
       on_column m on = Some key
       /\ (table m (store w) <> [] \/ values <> [])
       /\ fst (DatabaseManager.update_values m values on w) = Ok tt
       /\ store (snd (DatabaseManager.update_values m values on w))
          = set_table m (store w)
              (Session.update_rows m
                 (DatabaseManager.join_on m key (table m (store w)) values)
                 (table m (store w))).
Proof.
  destruct (on_column m on) as [key|] eqn:Hon.
  - destruct (table m (store w)) as [|r tbl] eqn:Ht.
    + destruct values as [|v values].
      * left. rewrite (@update_values_ValueError m on key w Hon Ht).
        split; [reflexivity | discriminate].
      * right. exists key.
        assert (Hne : table m (store w) <> [] \/ v :: values <> [])
          by (right; discriminate).
        rewrite (@update_values_run m (v :: values) on key w Hon Hne).
        rewrite Ht. repeat split. right. discriminate.
    + right. exists key.
      assert (Hne : table m (store w) <> [] \/ values <> [])
        by (left; rewrite Ht; discriminate).
      rewrite (@update_values_run m values on key w Hon Hne).
      rewrite Ht. repeat split. left. discriminate.
  - left. rewrite (@update_values_KeyError m values on w Hon).
    split; [reflexivity | discriminate].
Qed.

Lemma update_values_store m values on w :
  store (snd (DatabaseManager.update_values m values on w)) = store w
  \/ exists key,
       on_column m on = Some key
       /\ store (snd (DatabaseManager.update_values m values on w))
          = set_table m (store w)
              (Session.update_rows m
                 (DatabaseManager.join_on m key (table m (store w)) values)
                 (table m (store w))).
Proof.
  destruct (update_values_cases m values on w) as [[H _]|(key & Hon & _ & _ & H)].
  - now left.
  - right. now exists key.
Qed.

(** What a call of [update_values] that returned has written. *)
Lemma update_values_Ok m values on key w u w' :
  on_column m on = Some key ->
  DatabaseManager.update_values m values on w = (Ok u, w') ->
  store w'
  = set_table m (store w)
      (Session.update_rows m
         (DatabaseManager.join_on m key (table m (store w)) values)
         (table m (store w))).
Proof.
  intros Hon H.
  destruct (update_values_cases m values on w)
    as [[_ Hno]|(key' & Hon' & _ & _ & Hs)].
  - rewrite H in Hno. destruct u. now elim Hno.
  - rewrite Hon in Hon'. injection Hon' as <-. rewrite H in Hs. exact Hs.
Qed.

Lemma join_on_nil m key original :
  DatabaseManager.join_on m key original [] = [].
Proof.
  unfold DatabaseManager.join_on.
  induction original as [|o l IH]; simpl; auto.
Qed.


(* ================================================================== *)
(** * The scoped session *)




(** The calls of the failed insert above, one by one. *)
Lemma insert_values_twice_calls :
  DatabaseManager.insert_values models.RedditSubmissions Scenario.twice
    (Scenario.start Scenario.empty_store)
  = (Raise PendingRollbackError,
     mkWorld Scenario.empty_store
       [SessionNew; BulkInsert models.RedditSubmissions 2; Rollback; Commit]).
Proof. reflexivity. Qed.

(* ================================================================== *)
(** * Frame rules for the monad *)

Section Preserves.

Variable R : Store -> Store -> Prop.
Hypothesis R_refl : forall db, R db db.
Hypothesis R_trans : forall a b c, R a b -> R b c -> R a c.

Lemma preserves_ret {A} (a : A) : preserves R (ret a).
Proof. intros w. apply R_refl. Qed.

Lemma preserves_raise {A} e : preserves R (@raise A e).
Proof. intros w. apply R_refl. Qed.

Lemma preserves_lift {A} (o : outcome A) : preserves R (lift o).
Proof. intros w. apply R_refl. Qed.

Lemma preserves_bind {A B} (c : M A) (k : A -> M B) :
  preserves R c -> (forall a, preserves R (k a)) -> preserves R (bind c k).
Proof.
  intros Hc Hk w. unfold bind. specialize (Hc w).
  destruct (c w) as [[a|e|] w']; simpl in *; auto.
  eapply R_trans; [exact Hc | apply Hk].
Qed.

Lemma preserves_get_values m filters :
  preserves R (DatabaseManager.get_values m filters).
Proof. intros w. rewrite get_values_run. apply R_refl. Qed.

End Preserves.

(* ================================================================== *)
(** * Score-only refresh *)

Lemma same_but_score_refl r : same_but_score r r.
Proof. repeat split. Qed.

Lemma same_but_score_trans a b c :
  same_but_score a b -> same_but_score b c -> same_but_score a c.
Proof.
  unfold same_but_score. intros (?&?&?&?&?&?) (?&?&?&?&?&?).
  repeat split; congruence.
Qed.

Lemma submissions_kept_refl db : submissions_kept db db.
Proof.
  unfold submissions_kept.
  induction (reddit_submissions db); constructor; auto using same_but_score_refl.
Qed.

Lemma submissions_kept_trans a b c :
  submissions_kept a b -> submissions_kept b c -> submissions_kept a c.
Proof.
  unfold submissions_kept.
  generalize (reddit_submissions a) (reddit_submissions b) (reddit_submissions c).
  intros la lb lc Hab. revert lc.
  induction Hab as [|x y la lb Hxy Hab IH]; intros lc Hbc; inversion Hbc; subst.
  - constructor.
  - constructor; eauto using same_but_score_trans.
Qed.

Lemma submissions_kept_same_table db db' :
  reddit_submissions db' = reddit_submissions db -> submissions_kept db db'.
Proof.
  unfold submissions_kept. intros ->.
  induction (reddit_submissions db); constructor; auto using same_but_score_refl.
Qed.

Lemma update_row_same_but_score u r :
  same_but_score r (Session.update_row models.RedditSubmissions u r).
Proof.
  unfold Session.update_row. simpl.
  destruct (RedditSubmissions.id r =? ScoreMapping.id u); repeat split.
Qed.

Lemma update_rows_same_but_score mappings tbl :
  Forall2 same_but_score tbl
    (Session.update_rows models.RedditSubmissions mappings tbl).
Proof.
  unfold Session.update_rows. revert tbl.
  induction mappings as [|u us IH]; intros tbl; simpl.
  - induction tbl; constructor; auto using same_but_score_refl.
  - specialize (IH (map (Session.update_row models.RedditSubmissions u) tbl)).
    remember (fold_left _ us _) as out eqn:Hout. clear Hout.
    revert out IH. induction tbl as [|r tbl IHt]; intros out H;
      simpl in H; inversion H; subst; constructor; auto.
    eapply same_but_score_trans; [apply update_row_same_but_score | eassumption].
Qed.

Lemma preserves_update_values m values on :
  preserves submissions_kept (DatabaseManager.update_values m values on).
Proof.
  intros w.
  destruct (update_values_store m values on w) as [->|(key & _ & ->)].
  - apply submissions_kept_refl.
  - destruct m; simpl.
    + now apply submissions_kept_same_table.
    + unfold submissions_kept. simpl. apply update_rows_same_but_score.
    + now apply submissions_kept_same_table.
Qed.

Lemma preserves_insert_comments values :
  preserves submissions_kept
    (DatabaseManager.insert_values models.RedditComments values).
Proof.
  intros w. rewrite insert_values_run. now apply submissions_kept_same_table.
Qed.

Lemma preserves_insert_subreddits values :
  preserves submissions_kept
    (DatabaseManager.insert_values models.Subreddits values).
Proof.
  intros w. rewrite insert_values_run. now apply submissions_kept_same_table.
Qed.

Lemma kept_ret {A} (a : A) : preserves submissions_kept (ret a).
Proof. apply preserves_ret, submissions_kept_refl. Qed.

Lemma kept_raise {A} e : preserves submissions_kept (@raise A e).
Proof. apply preserves_raise, submissions_kept_refl. Qed.

Lemma kept_lift {A} (o : outcome A) : preserves submissions_kept (lift o).
Proof. apply preserves_lift, submissions_kept_refl. Qed.

Lemma kept_get_values m filters :
  preserves submissions_kept (DatabaseManager.get_values m filters).
Proof. apply preserves_get_values, submissions_kept_refl. Qed.

Lemma kept_bind {A B} (c : M A) (k : A -> M B) :
  preserves submissions_kept c ->
  (forall a, preserves submissions_kept (k a)) ->
  preserves submissions_kept (bind c k).
Proof. apply preserves_bind, submissions_kept_trans. Qed.

(** Walks down a computation built from [bind], the tests on empty
    frames and the store calls that keep the submissions. *)
Ltac kept_with lemmas :=
  repeat first
    [ lemmas
    | apply kept_ret | apply kept_raise | apply kept_lift
    | apply kept_get_values | apply preserves_update_values
    | apply preserves_insert_comments | apply preserves_insert_subreddits
    | apply kept_bind; [ | intro ]
    | progress cbv zeta
    | match goal with
      | |- preserves _ (match ?l with [] => _ | _ :: _ => _ end) => destruct l
      end ].

Ltac kept := kept_with fail.

Lemma preserves_process_comments E comments :
  preserves submissions_kept (RedditManager.process_comments E comments).
Proof. unfold RedditManager.process_comments. kept. Qed.

Lemma preserves_update_comments E comments :
  preserves submissions_kept (RedditManager.update_comments E comments).
Proof. unfold RedditManager.update_comments. kept. Qed.

Lemma preserves_update_ticker E ticker daterange :
  preserves submissions_kept (RedditManager.update_ticker E ticker daterange).
Proof.
  unfold RedditManager.update_ticker.
  kept_with ltac:(first [ apply preserves_process_comments
                        | apply preserves_update_comments ]).
Qed.

(** C4. Whatever the store, the source and the arguments, and whether
    the call returns or raises, the submissions table after
    [update_submissions] holds the same rows in the same order, each
    with its key, ticker, subreddit, submission id, creation time and
    title unchanged; the score is the only column that may differ. *)
Theorem update_submissions_changes_scores_only :
  forall (E : Env) (tickers : list string) (daterange : Z * Z) (w : World),
    Forall2 same_but_score
      (reddit_submissions (store w))
      (reddit_submissions
         (store (snd (RedditManager.update_submissions E tickers daterange w)))).
Proof.
  intros E tickers daterange.
  change (preserves submissions_kept
            (RedditManager.update_submissions E tickers daterange)).
  induction tickers as [|ticker rest IH]; simpl.
  - apply kept_ret.
  - apply kept_bind; [apply preserves_update_ticker | intros _; exact IH].
Qed.

(* ================================================================== *)
(** * A refresh with nothing to refresh *)

Lemma process_comments_run E comments w :
  RedditManager.process_comments E comments w
  = (Ok (map (RedditManager.clean_comment E)
           (RedditManager.new_comments
              (map RedditComments.comment_id (reddit_comments (store w)))
              comments)),
     mkWorld (store w) (trace w ++ get_values_calls models.RedditComments)).
Proof.
  unfold RedditManager.process_comments, bind.
  rewrite get_values_run, select_all.
  now destruct (RedditManager.new_comments _ comments).
Qed.

Lemma update_ticker_nothing_in_range E ticker daterange w :
  select models.RedditSubmissions
    (RedditManager.ticker_in_range ticker daterange) (store w) = [] ->
  reddit_submissions (store w) <> [] ->
  RedditManager.update_ticker E ticker daterange w
  = (Ok tt,
     mkWorld (store w)
       (trace w
          ++ get_values_calls models.RedditSubmissions
          ++ get_values_calls models.RedditSubmissions
          ++ write_calls (BulkUpdate models.RedditSubmissions 0)
          ++ get_values_calls models.RedditComments)).
Proof.
  intros Hnone Hne. unfold RedditManager.update_ticker, bind.
  rewrite get_values_run, Hnone. simpl map. simpl RedditAPI.get_submission_details.
  unfold lift at 1.
  rewrite (@update_values_run models.RedditSubmissions [] "submission_id"
             RedditSubmissions.submission_id _ eq_refl)
    by (left; exact Hne).
  rewrite join_on_nil.
  change (Session.update_rows models.RedditSubmissions []
            (table models.RedditSubmissions (store w)))
    with (table models.RedditSubmissions (store w)).
  rewrite set_table_table.
  simpl RedditAPI.get_comments. unfold lift.
  rewrite process_comments_run. simpl.
  unfold ret. now rewrite <- !app_assoc.
Qed.

(** On a store with no submission at all the same call stops in the
    merge of [update_values], which raises on its two empty frames. *)
Lemma update_ticker_empty_table E ticker daterange w :
  reddit_submissions (store w) = [] ->
  RedditManager.update_ticker E ticker daterange w
  = (Raise ValueError,
     mkWorld (store w)
       (trace w
          ++ get_values_calls models.RedditSubmissions
          ++ get_values_calls models.RedditSubmissions)).
Proof.
  intros He. unfold RedditManager.update_ticker, bind.
  rewrite get_values_run. unfold select. simpl table. rewrite He.
  simpl filter. simpl map. simpl RedditAPI.get_submission_details.
  unfold lift at 1.
  rewrite (@update_values_ValueError models.RedditSubmissions "submission_id"
             RedditSubmissions.submission_id _ eq_refl) by exact He.
  simpl. now rewrite <- app_assoc.
Qed.

(** C6, amended. When the store holds submissions but none of the
    ticker in the range, [update_submissions] returns without error and
    leaves the store as it was; it does make store calls after its first
    read: the read of the whole submissions table inside
    [update_values], a write session that updates no row and commits,
    and the read of the comments table inside [process_comments]. *)
Theorem update_submissions_nothing_in_range :
  forall (E : Env) (ticker : string) (daterange : Z * Z) (w : World),
    select models.RedditSubmissions
      (RedditManager.ticker_in_range ticker daterange) (store w) = [] ->
    reddit_submissions (store w) <> [] ->
    RedditManager.update_submissions E [ticker] daterange w
    = (Ok tt,
       mkWorld (store w)
         (trace w
            ++ get_values_calls models.RedditSubmissions
            ++ get_values_calls models.RedditSubmissions
            ++ write_calls (BulkUpdate models.RedditSubmissions 0)
            ++ get_values_calls models.RedditComments)).
Proof.
  intros E ticker daterange w Hnone Hne.
  simpl. unfold bind. now rewrite update_ticker_nothing_in_range.
Qed.

Lemma update_submissions_nothing_in_range_witness :
  RedditManager.update_submissions Scenario.no_items ["GME"] (95000, 100000)
    Scenario.one_stored
  = (Ok tt,
     mkWorld (store Scenario.one_stored)
       (get_values_calls models.RedditSubmissions
          ++ get_values_calls models.RedditSubmissions
          ++ write_calls (BulkUpdate models.RedditSubmissions 0)
          ++ get_values_calls models.RedditComments)).
Proof.
  apply (@update_submissions_nothing_in_range Scenario.no_items "GME"
           (95000, 100000) Scenario.one_stored).
  - vm_compute. reflexivity.
  - vm_compute. discriminate.
Defined.

(** C6 as worded fails on a store whose one submission of GME lies
    before the range: the call returns, but its trace holds nineteen
    store calls, not the five of the first read. *)
Lemma update_submissions_calls_the_store_again :
  ~ only_the_initial_read
      (fst (RedditManager.update_submissions Scenario.no_items ["GME"]
              (95000, 100000) Scenario.one_stored))
      Scenario.one_stored
      (snd (RedditManager.update_submissions Scenario.no_items ["GME"]
              (95000, 100000) Scenario.one_stored)).
Proof.
  intros [_ H]. vm_compute in H. discriminate H.
Qed.

(* ================================================================== *)
(** * New and known comments *)

Lemma isin_In x l : isin x l = true <-> In x l.
Proof.
  unfold isin. rewrite existsb_exists. split.
  - intros (y & Hy & Heq). apply String.eqb_eq in Heq. now subst.
  - intros H. exists x. split; [assumption | apply String.eqb_refl].
Qed.

Lemma isin_false x l : isin x l = false <-> ~ In x l.
Proof.
  rewrite <- isin_In. destruct (isin x l); split; congruence.
Qed.

Lemma isin_app x l l' : isin x (l ++ l') = isin x l || isin x l'.
Proof. unfold isin. apply existsb_app. Qed.







(* ================================================================== *)
(** * Ingestion *)

Lemma process_submissions_EmptyList E w :
  RedditManager.process_submissions E EmptyList w
  = (Raise AttributeError,
     mkWorld (store w) (trace w ++ get_values_calls models.RedditSubmissions)).
Proof.
  unfold RedditManager.process_submissions, bind.
  now rewrite get_values_run.
Qed.

(** A fetch that comes back with the empty list makes [fetch_data] raise
    on the first attribute it reads. *)
Lemma fetch_data_nothing_fetched E fuel ticker limit before after subreddits w :
  RedditAPI.get_submissions E fuel
    (RedditManager.fetch_params ticker limit before after subreddits)
  = Ok EmptyList ->
  RedditManager.fetch_data E fuel ticker limit before after subreddits w
  = (Raise AttributeError,
     mkWorld (store w) (trace w ++ get_values_calls models.RedditSubmissions)).
Proof.
  intros H. unfold RedditManager.fetch_data, bind, lift.
  now rewrite H, process_submissions_EmptyList.
Qed.

(** [fetch_data] sends its window as strings: an empty first page ends
    the call with [TypeError] before any store call. *)
Lemma fetch_data_first_page_empty E fuel ticker limit before after subreddits w :
  after < before -> 0 < limit ->
  pushshift E 0
    (RedditAPI._check_params
       (RedditManager.fetch_params ticker limit before after subreddits))
  = Data [] ->
  RedditManager.fetch_data E (S fuel) ticker limit before after subreddits w
  = (Raise TypeError, w).
Proof.
  intros Hw Hl Hpage. unfold RedditManager.fetch_data, bind, lift.
  unfold RedditAPI.get_submissions.
  rewrite check_params_after, check_params_before, check_params_limit.
  unfold RedditManager.fetch_params at 1 2 3.
  cbn [Params.after Params.before Params.limit].
  rewrite !py_int_strftime_s. cbn [obind py_int].
  rewrite (@fetch_loop_string_cursor E fuel before after limit _
             (strftime_s before)); auto.
Qed.

(** C7, at a window with no matching item (every page empty):
    [fetch_data] does not stop cleanly. With the window 0..100000 the
    first empty page raises [TypeError] inside [get_submissions]; and
    when the loop is not entered at all (window 100000..0),
    [get_submissions] returns a plain list on which
    [process_submissions] raises [AttributeError] after its read. *)
Theorem fetch_data_no_items_raises :
  forall (fuel : nat) (w : World),
    RedditManager.fetch_data Scenario.no_items (S fuel) "GME" 10 100000 0 [] w
    = (Raise TypeError, w)
    /\ RedditManager.fetch_data Scenario.no_items (S fuel) "GME" 10 0 100000 [] w
       = (Raise AttributeError,
          mkWorld (store w)
                  (trace w ++ get_values_calls models.RedditSubmissions)).
Proof.
  intros fuel w. split.
  - apply fetch_data_first_page_empty; [lia | lia | reflexivity].
  - apply fetch_data_nothing_fetched. reflexivity.
Qed.

(** The value [process_submissions] writes in the [subreddit_id] column
    is the integer primary key of the subreddit row with that name. *)
Lemma map_subreddit_primary_key stored r r' :
  RedditManager.map_subreddit stored r = Ok r' ->
  exists s, In s stored
            /\ Subreddits.name s = SubmissionsDF.subreddit r
            /\ ProcessedSubmissionsDF.subreddit_id r' = PyInt (Subreddits.id s).
Proof.
  unfold RedditManager.map_subreddit, RedditManager.subreddit_item.
  destruct (filter _ stored) as [|s [|s' l]] eqn:Hf; simpl; try discriminate.
  intros H. injection H as <-. exists s.
  assert (Hin : In s (filter (fun r0 => (Subreddits.name r0 =? SubmissionsDF.subreddit r)%string) stored))
    by (rewrite Hf; now left).
  apply filter_In in Hin. destruct Hin as [Hin Hname].
  apply String.eqb_eq in Hname. auto.
Qed.

(** C3, at a store with no subreddit and a source with one submission
    in [wallstreetbets], whose Reddit id is [t5_2th52]: the call
    returns, the subreddit row is created with primary key 1, and the
    submission is stored with [subreddit_id] 1, the primary key, which
    is the [subreddit_id] of no subreddit row. *)
Theorem fetch_data_stores_subreddit_primary_key :
  let run :=
    RedditManager.fetch_data Scenario.one_submission 2 "GME" 1 100000 0
      ["wallstreetbets"] (Scenario.start Scenario.empty_store) in
  fst run = Ok tt
  /\ subreddits (store (snd run))
     = [Subreddits.mk 1 "wallstreetbets" "t5_2th52" (Some 1000)]
  /\ map RedditSubmissions.subreddit_id (reddit_submissions (store (snd run)))
     = [PyInt 1]
  /\ Forall (fun r => ~ references_a_subreddit (store (snd run)) r)
            (reddit_submissions (store (snd run))).
Proof.
  vm_compute. repeat split.
  constructor; [|constructor].
  intros (s & _ & H). discriminate H.
Qed.

(* ================================================================== *)
(** * Running the ingestion twice *)

Lemma bind_Ok {A B} (c : M A) (k : A -> M B) w b w2 :
  bind c k w = (Ok b, w2) ->
  exists a w1, c w = (Ok a, w1) /\ k a w1 = (Ok b, w2).
Proof.
  unfold bind. destruct (c w) as [[a|e|] w1]; intros H; try discriminate.
  now exists a, w1.
Qed.

Lemma submissions_kept_ids db db' :
  submissions_kept db db' ->
  map RedditSubmissions.submission_id (reddit_submissions db')
  = map RedditSubmissions.submission_id (reddit_submissions db).
Proof.
  unfold submissions_kept.
  induction 1 as [|r r' l l' Hr _ IH]; simpl; [reflexivity|].
  destruct Hr as (_ & _ & _ & Hid & _). now rewrite IH, Hid.
Qed.

Lemma preserves_update_subreddits E subreddits_list update_all :
  preserves submissions_kept
    (RedditManager.update_subreddits E subreddits_list update_all).
Proof.
  unfold RedditManager.update_subreddits.
  destruct update_all; kept.
Qed.

Lemma preserves_process_submissions E submissions :
  preserves submissions_kept (RedditManager.process_submissions E submissions).
Proof.
  unfold RedditManager.process_submissions.
  destruct submissions as [|rows];
    kept_with ltac:(apply preserves_update_subreddits).
Qed.

Lemma mapM_map_subreddit_ids stored rows mapped :
  RedditManager.mapM (RedditManager.map_subreddit stored) rows = Ok mapped ->
  map ProcessedSubmissionsDF.submission_id mapped
  = map SubmissionsDF.submission_id rows.
Proof.
  revert mapped. induction rows as [|r rows IH]; simpl; intros mapped H.
  - now injection H as <-.
  - unfold RedditManager.map_subreddit in H at 1.
    destruct (RedditManager.subreddit_item stored (SubmissionsDF.subreddit r));
      simpl in H; try discriminate.
    destruct (RedditManager.mapM _ rows) as [ms| |]; simpl in H; try discriminate.
    injection H as <-. simpl. now rewrite (IH ms).
Qed.

Lemma map_submission_id_clean E l :
  map ProcessedSubmissionsDF.submission_id (map (RedditManager.clean_title E) l)
  = map ProcessedSubmissionsDF.submission_id l.
Proof. rewrite map_map. reflexivity. Qed.

(** The frame [process_submissions] returns holds the ids of the fetched
    rows that were not in the store when it read it. *)
Lemma process_submissions_Ok_ids E rows w processed w' :
  RedditManager.process_submissions E (DataFrame rows) w = (Ok processed, w') ->
  map ProcessedSubmissionsDF.submission_id processed
  = map SubmissionsDF.submission_id
      (RedditManager.new_submissions
         (map RedditSubmissions.submission_id (reddit_submissions (store w)))
         rows).
Proof.
  unfold RedditManager.process_submissions. intros H.
  apply bind_Ok in H as (stored & w1 & Hget & H).
  rewrite get_values_run, select_all in Hget. injection Hget as <- <-.
  change (table models.RedditSubmissions (store w))
    with (reddit_submissions (store w)) in H.
  cbv zeta in H.
  destruct (RedditManager.new_submissions _ rows) as [|r l].
  - unfold ret in H. now injection H as <- _.
  - apply bind_Ok in H as (u & w2 & _ & H).
    apply bind_Ok in H as (subs & w3 & _ & H).
    apply bind_Ok in H as (mapped & w4 & Hmap & H).
    apply (f_equal fst) in Hmap.
    change (RedditManager.mapM (RedditManager.map_subreddit subs) (r :: l)
            = Ok mapped) in Hmap.
    unfold ret in H. injection H as <- _.
    rewrite map_submission_id_clean.
    now apply mapM_map_subreddit_ids in Hmap.
Qed.

(** A bulk insert that succeeds appends one row per mapping. *)
Lemma insert_rows_Ok_ids values : forall tbl tbl',
  Session.insert_rows models.RedditSubmissions values tbl = (Ok tt, tbl') ->
  map RedditSubmissions.submission_id tbl'
  = map RedditSubmissions.submission_id tbl
    ++ map ProcessedSubmissionsDF.submission_id values.
Proof.
  intros tbl tbl' H. unfold Session.insert_rows in H.
  destruct (Session.emit_rows models.RedditSubmissions values tbl)
    as [out|] eqn:He; [|discriminate].
  injection H as <-. revert tbl He.
  induction values as [|v values IH]; intros tbl H; simpl in H.
  - injection H as <-. now rewrite app_nil_r.
  - match type of H with (if ?c then _ else _) = _ => destruct c end;
      [discriminate|].
    apply IH in H. rewrite H, map_app, <- app_assoc. reflexivity.
Qed.

Lemma new_submissions_all_known ids rows :
  (forall r, In r rows -> isin (SubmissionsDF.submission_id r) ids = true) ->
  RedditManager.new_submissions ids rows = [].
Proof.
  unfold RedditManager.new_submissions.
  induction rows as [|r rows IH]; simpl; intros H; [reflexivity|].
  rewrite (H r (or_introl eq_refl)). simpl. apply IH. auto.
Qed.

(** Once the store holds its former ids and those of the rows that were
    new, no fetched row is new. *)
Lemma new_submissions_after_insert ids rows :
  RedditManager.new_submissions
    (ids ++ map SubmissionsDF.submission_id
              (RedditManager.new_submissions ids rows))
    rows = [].
Proof.
  apply new_submissions_all_known. intros r Hr.
  rewrite isin_app.
  destruct (isin (SubmissionsDF.submission_id r) ids) eqn:Hknown; [reflexivity|].
  simpl. apply isin_In, in_map. unfold RedditManager.new_submissions.
  apply filter_In. split; [assumption | now rewrite Hknown].
Qed.

(** When the fetch returns a frame whose ids are all stored,
    [fetch_data] reads the submissions table once and returns. *)
Lemma fetch_data_nothing_new E fuel ticker limit before after subreddits rows w :
  RedditAPI.get_submissions E fuel
    (RedditManager.fetch_params ticker limit before after subreddits)
  = Ok (DataFrame rows) ->
  RedditManager.new_submissions
    (map RedditSubmissions.submission_id (reddit_submissions (store w))) rows
  = [] ->
  RedditManager.fetch_data E fuel ticker limit before after subreddits w
  = (Ok tt,
     mkWorld (store w) (trace w ++ get_values_calls models.RedditSubmissions)).
Proof.
  intros Hget Hnew.
  unfold RedditManager.fetch_data, bind, lift. rewrite Hget.
  unfold RedditManager.process_submissions, bind.
  rewrite get_values_run, select_all. simpl. now rewrite Hnew.
Qed.

(** C8. If a call of [fetch_data] returns, a second call with the same
    arguments against the same source returns too, does nothing but
    read the submissions table, and leaves the store as the first call
    left it: no submission row and no comment row is added. *)
Theorem fetch_data_twice_inserts_nothing :
  forall (E : Env) (fuel : nat) (ticker : string) (limit before after : Z)
         (subreddits : list string) (w0 w1 : World),
    RedditManager.fetch_data E fuel ticker limit before after subreddits w0
    = (Ok tt, w1) ->
    RedditManager.fetch_data E fuel ticker limit before after subreddits w1
    = (Ok tt,
       mkWorld (store w1)
               (trace w1 ++ get_values_calls models.RedditSubmissions)).
Proof.
  intros E fuel ticker limit before after subreddits w0 w1 H.
  unfold RedditManager.fetch_data in H.
  apply bind_Ok in H as (obj & wA & Hget & H).
  unfold lift in Hget. injection Hget as Hget <-.
  apply bind_Ok in H as (processed & wB & Hproc & H).
  destruct obj as [|rows].
  { rewrite process_submissions_EmptyList in Hproc. discriminate Hproc. }
  apply fetch_data_nothing_new with (rows := rows); [exact Hget|].
  pose proof (process_submissions_Ok_ids _ _ _ Hproc) as Hids.
  pose proof (preserves_process_submissions E (DataFrame rows) w0) as HB.
  rewrite Hproc in HB. simpl in HB. apply submissions_kept_ids in HB.
  set (ids0 := map RedditSubmissions.submission_id
                   (reddit_submissions (store w0))) in *.
  assert (H1 : map RedditSubmissions.submission_id (reddit_submissions (store w1))
               = ids0 ++ map SubmissionsDF.submission_id
                           (RedditManager.new_submissions ids0 rows)).
  { rewrite <- Hids, <- HB. destruct processed as [|p ps].
    - unfold ret in H. injection H as <-. now rewrite app_nil_r.
    - apply bind_Ok in H as (u & wC & Hins & H).
      rewrite insert_values_run in Hins.
      injection Hins as Hok HC. apply after_exit_Ok in Hok.
      assert (Hrows : Session.insert_rows models.RedditSubmissions (p :: ps)
                        (reddit_submissions (store wB))
                      = (Ok tt, reddit_submissions (store wC))).
      { rewrite <- HC. simpl store. simpl reddit_submissions.
        destruct u. rewrite <- Hok. apply surjective_pairing. }
      apply insert_rows_Ok_ids in Hrows. rewrite <- Hrows.
      match type of H with ?c wC = _ =>
        assert (Hrest : preserves submissions_kept c)
          by kept_with ltac:(apply preserves_process_comments)
      end.
      specialize (Hrest wC). rewrite H in Hrest. simpl in Hrest.
      now apply submissions_kept_ids in Hrest. }
  rewrite H1. apply new_submissions_after_insert.
Qed.

Lemma fetch_data_twice_inserts_nothing_witness :
  RedditManager.fetch_data Scenario.one_submission 2 "GME" 1 100000 0
    ["wallstreetbets"] (Scenario.start Scenario.empty_store)
  = (Ok tt, Scenario.after_first_fetch)
  /\ RedditManager.fetch_data Scenario.one_submission 2 "GME" 1 100000 0
       ["wallstreetbets"] Scenario.after_first_fetch
     = (Ok tt,
        mkWorld (store Scenario.after_first_fetch)
                (trace Scenario.after_first_fetch
                   ++ get_values_calls models.RedditSubmissions)).
Proof.
  assert (H : RedditManager.fetch_data Scenario.one_submission 2 "GME" 1
                100000 0 ["wallstreetbets"] (Scenario.start Scenario.empty_store)
              = (Ok tt, Scenario.after_first_fetch)) by (vm_compute; reflexivity).
  split; [exact H|].
  exact (@fetch_data_twice_inserts_nothing Scenario.one_submission 2 "GME" 1
           100000 0 ["wallstreetbets"] (Scenario.start Scenario.empty_store)
           Scenario.after_first_fetch H).
Defined.

(** Scenario D, run through [update_submissions]: [c2] is inserted, the
    score of [c1] is refreshed by an update, the submission keeps its
    title and creation time, and each comment table write holds one
    row. *)
Example update_submissions_scenario_D :
  RedditManager.update_submissions Scenario.two_comments ["GME"] (80000, 100000)
    (Scenario.start (store Scenario.after_first_fetch))
  = (Ok tt,
     mkWorld
       (mkStore
          [Subreddits.mk 1 "wallstreetbets" "t5_2th52" (Some 1000)]
          [RedditSubmissions.mk 1 "GME" (PyInt 1) "a1" 90000 "gme to the moon" 12]
          [RedditComments.mk 1 "a1" "c1" 90060 "holding" 5;
           RedditComments.mk 2 "a1" "c2" 90120 "Buying!" 9])
       (get_values_calls models.RedditSubmissions
          ++ get_values_calls models.RedditSubmissions
          ++ write_calls (BulkUpdate models.RedditSubmissions 1)
          ++ get_values_calls models.RedditComments
          ++ write_calls (BulkInsert models.RedditComments 1)
          ++ get_values_calls models.RedditComments
          ++ write_calls (BulkUpdate models.RedditComments 1))).
Proof. vm_compute. reflexivity. Qed.

(* ================================================================== *)
(** * Further properties of RedditAPI *)

(** X1. [_check_params] makes sure [created_utc] is among the requested
    fields by appending it when it is missing; it keeps the fields that
    were there, does not touch the other parameters, and checking twice
    is checking once. *)
Theorem check_params_adds_created_utc :
  forall params : Params.t,
    isin "created_utc" (Params.fields (RedditAPI._check_params params)) = true
    /\ (exists extra,
          Params.fields (RedditAPI._check_params params)
          = Params.fields params ++ extra)
    /\ Params.ticker (RedditAPI._check_params params) = Params.ticker params
    /\ Params.subreddit (RedditAPI._check_params params) = Params.subreddit params
    /\ Params.before (RedditAPI._check_params params) = Params.before params
    /\ Params.after (RedditAPI._check_params params) = Params.after params
    /\ Params.limit (RedditAPI._check_params params) = Params.limit params
    /\ RedditAPI._check_params (RedditAPI._check_params params)
       = RedditAPI._check_params params.
Proof.
  intros params. unfold RedditAPI._check_params.
  destruct (isin "created_utc" (Params.fields params)) eqn:Hin.
  - rewrite Hin. repeat split; auto. exists []. now rewrite app_nil_r.
  - assert (Hnow : isin "created_utc" (Params.fields params ++ ["created_utc"])
                   = true).
    { rewrite isin_app, Hin. reflexivity. }
    cbn [Params.fields Params.set_fields Params.ticker Params.subreddit
         Params.before Params.after Params.limit].
    rewrite Hnow. repeat split; auto. now exists ["created_utc"].
Qed.

(** X2. When the window is empty ([before <= after]) or the limit is not
    positive, [get_submissions] sends no request: whatever the source,
    it returns the empty list, not a frame. *)
Theorem get_submissions_closed_window :
  forall (E : Env) (fuel : nat) (params : Params.t) (b a l : Z),
    py_int (Params.before params) = Ok b ->
    py_int (Params.after params) = Ok a ->
    py_int (Params.limit params) = Ok l ->
    b <= a \/ l <= 0 ->
    RedditAPI.get_submissions E (S fuel) params = Ok EmptyList.
Proof.
  intros E fuel params b a l Hb Ha Hl Hclosed.
  unfold RedditAPI.get_submissions.
  rewrite check_params_after, check_params_before, check_params_limit.
  rewrite Ha, Hb, Hl. cbn [obind RedditAPI.fetch_loop].
  assert (Hcond : (a <? b) && (len (@nil Post.t) <? l) = false).
  { apply andb_false_iff. destruct Hclosed; [left | right]; apply Z.ltb_ge;
      [assumption | exact H]. }
  now rewrite Hcond.
Qed.

Lemma get_submissions_closed_window_witness :
  RedditAPI.get_submissions Scenario.one_submission 1
    (RedditManager.fetch_params "GME" 10 0 100000 [])
  = Ok EmptyList.
Proof.
  apply (@get_submissions_closed_window Scenario.one_submission 0
           (RedditManager.fetch_params "GME" 10 0 100000 []) 0 100000 10);
    try reflexivity.
  left. lia.
Defined.

(** X3. The only ways out of the loop are its condition and the [break]
    of a malformed response. When the window is open and the source
    never sends a malformed response, a call that leaves the loop has as
    many items as the limit asks, or more. *)
Theorem fetch_loop_returns_at_limit :
  forall (E : Env) (fuel k : nat) (before after limit : Z)
         (params : Params.t) (submissions out : list Post.t),
    (forall k p, pushshift E k p <> Malformed) ->
    after < before ->
    RedditAPI.fetch_loop E fuel k before after limit params submissions = Ok out ->
    limit <= len out.
Proof.
  intros E fuel. induction fuel as [|fuel IH];
    intros k before after limit params submissions out Hwell Hw H;
    simpl in H; [discriminate|].
  destruct ((after <? before) && (len submissions <? limit)) eqn:Hcond.
  - destruct (pushshift E k params) as [data|] eqn:Hp;
      [|now elim (Hwell k params)].
    destruct (last_item data) as [post|].
    + eapply IH; eauto.
    + destruct (py_sub (Params.before params) RedditAPI.before_decay);
        try discriminate. eapply IH; eauto.
  - injection H as <-. apply andb_false_iff in Hcond.
    destruct Hcond as [Hc|Hc]; apply Z.ltb_ge in Hc; lia.
Qed.

Lemma fetch_loop_returns_at_limit_witness :
  RedditAPI.fetch_loop Scenario.one_submission 2 0 100000 0 1
    Scenario.str_query [] = Ok [Scenario.a1]
  /\ 1 <= len [Scenario.a1].
Proof.
  split; [reflexivity|].
  apply (@fetch_loop_returns_at_limit Scenario.one_submission 2 0 100000 0 1
           Scenario.str_query [] [Scenario.a1]).
  - intros k p. discriminate.
  - lia.
  - reflexivity.
Defined.

(** X4. A call that leaves the loop returns what it had accumulated
    followed by the pages received since, in the order of the requests
    and with nothing dropped: the first of them answers the request the
    loop was about to send, the next one the request after it, and so
    on. The limit bounds the result only up to one page: when no page
    has more than [n] items, the result has at most [limit - 1 + n]
    items (or what it started with). *)
Theorem fetch_loop_result_bounds :
  forall (E : Env) (n : Z) (fuel k : nat) (before after limit : Z)
         (params : Params.t) (submissions out : list Post.t),
    (forall k p data, pushshift E k p = Data data -> len data <= n) ->
    RedditAPI.fetch_loop E fuel k before after limit params submissions = Ok out ->
    (exists answers : list (Params.t * list Post.t),
        out = submissions ++ List.concat (map snd answers)
        /\ (forall i p data,
              nth_error answers i = Some (p, data) ->
              pushshift E (k + i) p = Data data)
        /\ (forall p data, hd_error answers = Some (p, data) -> p = params))
    /\ len out <= Z.max (len submissions) (limit - 1 + n).
Proof.
  intros E n fuel. induction fuel as [|fuel IH];
    intros k before after limit params submissions out Hpage H;
    simpl in H; [discriminate|].
  assert (Hstop : out = submissions ->
            (exists answers : list (Params.t * list Post.t),
                out = submissions ++ List.concat (map snd answers)
                /\ (forall i p data,
                      nth_error answers i = Some (p, data) ->
                      pushshift E (k + i) p = Data data)
                /\ (forall p data,
                      hd_error answers = Some (p, data) -> p = params))
            /\ len out <= Z.max (len submissions) (limit - 1 + n)).
  { intros ->. split; [|lia]. exists []. simpl. rewrite app_nil_r.
    repeat split; try discriminate. intros [|i] p data Hi; discriminate Hi. }
  destruct ((after <? before) && (len submissions <? limit)) eqn:Hcond;
    [|injection H as <-; now apply Hstop].
  apply andb_true_iff in Hcond. destruct Hcond as [_ Hl]. apply Z.ltb_lt in Hl.
  destruct (pushshift E k params) as [data|] eqn:Hp;
    [|injection H as <-; now apply Hstop].
  assert (Hnext : forall answers : list (Params.t * list Post.t),
            (forall i p data,
               nth_error answers i = Some (p, data) ->
               pushshift E (S k + i) p = Data data) ->
            (forall i p data0,
               nth_error ((params, data) :: answers) i = Some (p, data0) ->
               pushshift E (k + i) p = Data data0)
            /\ (forall p data0,
                  hd_error ((params, data) :: answers) = Some (p, data0) ->
                  p = params)).
  { intros answers Ha. split.
    - intros [|i] p data0 Hi; simpl in Hi.
      + injection Hi as <- <-. now rewrite Nat.add_0_r.
      + rewrite Nat.add_succ_r. now apply Ha.
    - intros p data0 Hh. simpl in Hh. now injection Hh as <- _. }
  destruct (last_item data) as [post|] eqn:Hlast.
  - apply IH in H; [|assumption].
    destruct H as [(answers & -> & Ha & _) Hb]. split.
    + exists ((params, data) :: answers). simpl. rewrite app_assoc.
      split; [reflexivity | now apply Hnext].
    + apply Hpage in Hp. unfold len in *.
      rewrite !length_app, !Nat2Z.inj_add in *. lia.
  - destruct (py_sub (Params.before params) RedditAPI.before_decay);
      try discriminate.
    apply IH in H; [|assumption].
    destruct H as [(answers & -> & Ha & _) Hb]. split; [|exact Hb].
    exists ((params, data) :: answers).
    apply last_item_None in Hlast. subst data. simpl.
    split; [reflexivity | now apply Hnext].
Qed.

Lemma fetch_loop_result_bounds_witness :
  RedditAPI.fetch_loop Scenario.one_submission 2 0 100000 0 1
    Scenario.str_query [] = Ok [Scenario.a1]
  /\ (exists answers : list (Params.t * list Post.t),
        [Scenario.a1] = [] ++ List.concat (map snd answers)
        /\ (forall i p data,
              nth_error answers i = Some (p, data) ->
              pushshift Scenario.one_submission (0 + i) p = Data data)
        /\ (forall p data,
              hd_error answers = Some (p, data) -> p = Scenario.str_query))
  /\ len [Scenario.a1] <= Z.max (len (@nil Post.t)) (1 - 1 + 1).
Proof.
  split; [reflexivity|].
  apply (@fetch_loop_result_bounds Scenario.one_submission 1 2 0 100000 0 1
           Scenario.str_query [] [Scenario.a1]).
  - intros k p data H. injection H as <-. vm_compute. discriminate.
  - reflexivity.
Defined.

(** X5. [get_submission_details] is all or nothing: it returns a frame
    exactly when every id of the list resolves, and the frame then has
    one row per id, in the order of the ids, with the score the source
    gives; otherwise it raises. *)
Theorem get_submission_details_all_or_nothing :
  forall (E : Env) (ids : list string),
    (forall rows,
        RedditAPI.get_submission_details E ids = Ok rows
        <-> Forall2 (submission_detail E) ids rows)
    /\ (forallb (submission_resolves E) ids = false ->
        RedditAPI.get_submission_details E ids = Raise PrawException).
Proof.
  intros E ids. split.
  - induction ids as [|i ids IH]; intros rows; simpl.
    + split; intros H; [injection H as <-; constructor | now inversion H].
    + split.
      * intros H.
        destruct (praw_submission_init E i) eqn:Hi; [|discriminate].
        destruct (praw_submission_score E i) as [sc|] eqn:Hs; [|discriminate].
        destruct (RedditAPI.get_submission_details E ids) as [info| |];
          simpl in H; try discriminate.
        injection H as <-. constructor; [now repeat split | now apply IH].
      * intros H. inversion H as [|i' r ids' rows' (Hi & Hs & Hid) Hrest]; subst.
        rewrite Hi, Hs. apply IH in Hrest. rewrite Hrest. simpl.
        now destruct r.
  - intros H. apply get_submission_details_raises.
    induction ids as [|i ids IH]; simpl in *; [discriminate|].
    destruct (submission_resolves E i); simpl in *; auto.
Qed.

(** X6. The same for [get_comment_details]. *)
Theorem get_comment_details_all_or_nothing :
  forall (E : Env) (ids : list string),
    (forall rows,
        RedditAPI.get_comment_details E ids = Ok rows
        <-> Forall2 (comment_detail E) ids rows)
    /\ (forallb (comment_resolves E) ids = false ->
        RedditAPI.get_comment_details E ids = Raise PrawException).
Proof.
  intros E ids. split.
  - induction ids as [|i ids IH]; intros rows; simpl.
    + split; intros H; [injection H as <-; constructor | now inversion H].
    + split.
      * intros H.
        destruct (praw_comment_score E i) as [sc|] eqn:Hs; [|discriminate].
        destruct (RedditAPI.get_comment_details E ids) as [info| |];
          simpl in H; try discriminate.
        injection H as <-. constructor; [now split | now apply IH].
      * intros H. inversion H as [|i' r ids' rows' (Hs & Hid) Hrest]; subst.
        rewrite Hs. apply IH in Hrest. rewrite Hrest. simpl.
        now destruct r.
  - intros H. apply get_comment_details_raises.
    unfold comment_resolves in H.
    induction ids as [|i ids IH]; simpl in *; [discriminate|].
    destruct (praw_comment_score E i); simpl in *; auto.
Qed.

Lemma details_of_posts E posts updated :
  RedditAPI.get_submission_details E (map Post.id posts) = Ok updated ->
  Forall2 (fun p u => ScoresDF.id u = Post.id p
                      /\ praw_submission_score E (Post.id p)
                         = Some (ScoresDF.score u))
          posts updated.
Proof.
  revert updated. induction posts as [|p posts IH]; simpl; intros updated H.
  - injection H as <-. constructor.
  - destruct (praw_submission_init E (Post.id p)); [|discriminate].
    destruct (praw_submission_score E (Post.id p)) as [sc|] eqn:Hs;
      [|discriminate].
    destruct (RedditAPI.get_submission_details E (map Post.id posts))
      as [info| |]; simpl in H; try discriminate.
    injection H as <-. constructor; [now split | now apply IH].
Qed.

Lemma Forall2_In_incl {A B} (R : A -> B -> Prop) l l' all :
  Forall2 R l l' -> incl l' all ->
  Forall2 (fun a b => R a b /\ In b all) l l'.
Proof.
  induction 1 as [|a b l l' Hab _ IH]; intros Hincl; constructor.
  - split; [assumption | apply Hincl; now left].
  - apply IH. intros x Hx. apply Hincl. now right.
Qed.

Lemma Forall2_In_r {A B} (R : A -> B -> Prop) l l' :
  Forall2 R l l' -> Forall2 (fun a b => R a b /\ In b l') l l'.
Proof. intros H. apply Forall2_In_incl; [assumption | apply incl_refl]. Qed.

Lemma filter_none {A} (f : A -> bool) l :
  (forall x, In x l -> f x = false) -> filter f l = [].
Proof.
  induction l as [|x l IH]; simpl; intros H; [reflexivity|].
  rewrite (H x (or_introl eq_refl)). apply IH. auto.
Qed.

(** In a frame whose ids are distinct, selecting by the id of a row
    selects that row. *)
Lemma filter_by_distinct_id k u us :
  NoDup (map ScoresDF.id us) -> In u us -> k = ScoresDF.id u ->
  filter (fun u' => String.eqb k (ScoresDF.id u')) us = [u].
Proof.
  intros Hnd Hin ->. induction us as [|x us IH]; [contradiction|].
  simpl in Hnd. inversion Hnd as [|? ? Hx Hnd']; subst. simpl.
  destruct Hin as [->|Hin].
  - rewrite String.eqb_refl. f_equal. apply filter_none.
    intros y Hy. apply String.eqb_neq. intros Heq. apply Hx.
    rewrite Heq. now apply in_map.
  - assert (Hneq : String.eqb (ScoresDF.id u) (ScoresDF.id x) = false).
    { apply String.eqb_neq. intros Heq. apply Hx. rewrite <- Heq.
      now apply in_map. }
    rewrite Hneq. now apply IH.
Qed.

(** X7. Every row of the frame [_process_submissions] returns stems from
    a fetched item and carries its columns, the ticker, and the score
    PRAW gives for its id: the score of the page is dropped. *)
Theorem process_submissions_rows_are_refreshed :
  forall (E : Env) (submissions : list Post.t) (ticker : string)
         (rows : list SubmissionsDF.row),
    RedditAPI._process_submissions E submissions ticker = Ok rows ->
    Forall (fun r => exists p, In p submissions /\ refreshed_post E ticker p r)
           rows.
Proof.
  intros E submissions ticker rows H. unfold RedditAPI._process_submissions in H.
  destruct (RedditAPI.get_submission_details E (map Post.id submissions))
    as [updated| |] eqn:Hd; simpl in H; try discriminate.
  injection H as <-. apply details_of_posts in Hd.
  apply Forall_forall. intros r Hr. unfold RedditAPI.merge_scores in Hr.
  apply in_flat_map in Hr. destruct Hr as (p & Hp & Hr).
  apply in_map_iff in Hr. destruct Hr as (u & <- & Hu).
  apply filter_In in Hu. destruct Hu as [Hu Hid]. apply String.eqb_eq in Hid.
  exists p. split; [assumption|]. repeat split; simpl.
  clear Hp. induction Hd as [|p' u' ps us [Hid' Hsc] _ IH]; [contradiction|].
  destruct Hu as [->|Hu]; [|now apply IH].
  rewrite Hid, Hid'. now rewrite <- Hid', <- Hid in Hsc |- *.
Qed.

Lemma process_submissions_rows_are_refreshed_witness :
  Forall (fun r => exists p, In p [Scenario.a1]
                             /\ refreshed_post Scenario.one_submission "GME" p r)
         [SubmissionsDF.mk "a1" 90000 "wallstreetbets" "gme to the moon" 12 "GME"].
Proof.
  apply (@process_submissions_rows_are_refreshed Scenario.one_submission
           [Scenario.a1] "GME"). reflexivity.
Defined.

Lemma merge_scores_distinct E ticker all :
  NoDup (map ScoresDF.id all) ->
  forall ps us,
    Forall2 (fun p u => (ScoresDF.id u = Post.id p
                         /\ praw_submission_score E (Post.id p)
                            = Some (ScoresDF.score u))
                        /\ In u all) ps us ->
    Forall2 (refreshed_post E ticker) ps (RedditAPI.merge_scores ticker ps all).
Proof.
  intros Hnd ps us Hd. unfold RedditAPI.merge_scores.
  induction Hd as [|p u ps us [[Hid Hsc] Hin] _ IH]; simpl; [constructor|].
  rewrite (@filter_by_distinct_id (Post.id p) u all Hnd Hin (eq_sym Hid)).
  simpl. constructor; [|exact IH]. now repeat split.
Qed.

(** X8. When the fetched items have distinct ids, the frame of
    [_process_submissions] has exactly one row per item, in the order
    of the items. *)
Theorem process_submissions_one_row_per_item :
  forall (E : Env) (submissions : list Post.t) (ticker : string)
         (rows : list SubmissionsDF.row),
    NoDup (map Post.id submissions) ->
    RedditAPI._process_submissions E submissions ticker = Ok rows ->
    Forall2 (refreshed_post E ticker) submissions rows.
Proof.
  intros E submissions ticker rows Hnd H.
  unfold RedditAPI._process_submissions in H.
  destruct (RedditAPI.get_submission_details E (map Post.id submissions))
    as [updated| |] eqn:Hd; simpl in H; try discriminate.
  injection H as <-.
  assert (Hids : map ScoresDF.id updated = map Post.id submissions)
    by now apply get_submission_details_ids in Hd.
  apply details_of_posts, Forall2_In_r in Hd.
  rewrite <- Hids in Hnd.
  now apply merge_scores_distinct with (us := updated).
Qed.

Lemma process_submissions_one_row_per_item_witness :
  Forall2 (refreshed_post Scenario.one_submission "GME") [Scenario.a1]
    [SubmissionsDF.mk "a1" 90000 "wallstreetbets" "gme to the moon" 12 "GME"].
Proof.
  apply (@process_submissions_one_row_per_item Scenario.one_submission
           [Scenario.a1] "GME").
  - repeat constructor. simpl. tauto.
  - reflexivity.
Defined.

Lemma in_top_level_rows i cs r :
  In r (RedditAPI.top_level_rows i cs) ->
  exists c, In (Comment c) cs
            /\ r = CommentsDF.mk (PrawComment.created_utc c) i
                     (PrawComment.id c) (PrawComment.body c)
                     (PrawComment.score c).
Proof.
  induction cs as [|[|c] cs IH]; simpl; intros H; [contradiction| |].
  - destruct (IH H) as (c & Hc & ->). exists c. auto.
  - destruct H as [<-|H].
    + exists c. auto.
    + destruct (IH H) as (c' & Hc & ->). exists c'. auto.
Qed.

Lemma get_comments_rows E ids : forall rows,
  RedditAPI.get_comments E ids = Ok rows ->
  Forall (fun r => In (CommentsDF.submission_id r) ids
                   /\ comment_of_submission E r)
         rows.
Proof.
  induction ids as [|i ids IH]; simpl; intros rows H.
  - injection H as <-. constructor.
  - assert (Hweak : forall rows',
              Forall (fun r => In (CommentsDF.submission_id r) ids
                               /\ comment_of_submission E r) rows' ->
              Forall (fun r => (i = CommentsDF.submission_id r
                                \/ In (CommentsDF.submission_id r) ids)
                               /\ comment_of_submission E r) rows').
    { intros rows' Hr. eapply Forall_impl; [|exact Hr]. simpl. tauto. }
    destruct (praw_submission_init E i) eqn:Hi; [|now apply Hweak, IH].
    destruct (praw_submission_comments E i) as [cs|] eqn:Hcs; [|discriminate].
    destruct (RedditAPI.get_comments E ids) as [rest| |];
      simpl in H; try discriminate.
    injection H as <-. apply Forall_app. split; [|now apply Hweak, IH].
    apply Forall_forall. intros r Hr.
    apply in_top_level_rows in Hr. destruct Hr as (c & Hc & ->).
    split; [now left|]. split; [exact Hi|].
    exists cs, c. simpl. auto.
Qed.

(** X9. [get_comments] passes over the ids whose submission object
    cannot be built, as if they were not in the list; and every row of
    the frame it returns is a top-level comment of one of the listed
    submissions, under the id it was asked for. The [MoreComments]
    entries give no row. *)
Theorem get_comments_rows_belong_to_the_list :
  forall (E : Env) (submission_ids : list string),
    RedditAPI.get_comments E submission_ids
    = RedditAPI.get_comments E (filter (praw_submission_init E) submission_ids)
    /\ (forall rows,
          RedditAPI.get_comments E submission_ids = Ok rows ->
          Forall (fun r => In (CommentsDF.submission_id r) submission_ids
                           /\ comment_of_submission E r)
                 rows).
Proof.
  intros E ids. split; [|apply get_comments_rows].
  induction ids as [|i ids IH]; simpl; [reflexivity|].
  destruct (praw_submission_init E i) eqn:Hi; [|exact IH].
  simpl. rewrite Hi, IH. reflexivity.
Qed.

(* ================================================================== *)
(** * Further properties of DatabaseManager *)

Lemma pk_to_row m i v : pk m (to_row m i v) = i.
Proof. destruct m; reflexivity. Qed.

Lemma unique_column_to_row m i v : unique_column m (to_row m i v) = frame_key m v.
Proof. destruct m; reflexivity. Qed.

Lemma fold_max_snoc l n :
  fold_right Z.max 0 (l ++ [n]) = Z.max (fold_right Z.max 0 l) n.
Proof. induction l as [|x l IH]; simpl; [lia | rewrite IH; lia]. Qed.

Lemma next_id_snoc l : next_id (l ++ [next_id l]) = next_id l + 1.
Proof. unfold next_id. rewrite fold_max_snoc. lia. Qed.

Lemma next_id_fresh l : ~ In (next_id l) l.
Proof.
  assert (H : forall x, In x l -> x <= fold_right Z.max 0 l).
  { induction l as [|y l IH]; simpl; [contradiction|].
    intros x [->|Hx]; [lia | specialize (IH x Hx); lia]. }
  intros Hin. apply H in Hin. unfold next_id in Hin. lia.
Qed.

(** The rows a batch emits: the former rows, then the mappings of the
    batch numbered from the next key. *)
Lemma emit_rows_Some m values : forall tbl out,
  Session.emit_rows m values tbl = Some out ->
  out = tbl ++ numbered m (next_id (map (pk m) tbl)) values.
Proof.
  induction values as [|v values IH]; intros tbl out H; simpl in H.
  - injection H as <-. simpl. now rewrite app_nil_r.
  - destruct (isin _ _); [discriminate|].
    apply IH in H. rewrite H, map_app. simpl map.
    rewrite pk_to_row, next_id_snoc. simpl. now rewrite <- app_assoc.
Qed.

Lemma emit_rows_Some_iff m values : forall tbl,
  Session.emit_rows m values tbl <> None
  <-> NoDup (map (frame_key m) values)
      /\ (forall v, In v values ->
            ~ In (frame_key m v) (map (unique_column m) tbl)).
Proof.
  induction values as [|v values IH]; intros tbl; simpl.
  - split; [intros _; split; [constructor | contradiction] | discriminate].
  - rewrite unique_column_to_row.
    destruct (isin (frame_key m v) (map (unique_column m) tbl)) eqn:Hin.
    + split; [congruence|]. intros [_ Hfresh]. apply isin_In in Hin.
      now elim (Hfresh v (or_introl eq_refl)).
    + apply isin_false in Hin. rewrite IH. split.
      * intros [Hnd Hfresh]. split.
        -- constructor; [|assumption]. intros Hv.
           apply in_map_iff in Hv. destruct Hv as (v' & Hk & Hv').
           apply (Hfresh v' Hv'). rewrite map_app, in_app_iff. right.
           simpl. rewrite unique_column_to_row. auto.
        -- intros v' [<-|Hv']; [assumption|]. intros Hv.
           apply (Hfresh v' Hv'). rewrite map_app, in_app_iff. now left.
      * intros [Hnd Hfresh]. inversion Hnd as [|? ? Hv Hnd']; subst. split.
        -- assumption.
        -- intros v' Hv'. rewrite map_app, in_app_iff. simpl.
           rewrite unique_column_to_row.
           intros [Hold|[Hsame|[]]].
           ++ now apply (Hfresh v' (or_intror Hv')).
           ++ apply Hv. rewrite Hsame. now apply in_map.
Qed.

(** The table a bulk insert leaves: the former rows, followed by the
    rows of the whole batch when the insert succeeds and by nothing when
    it fails. *)
Lemma insert_rows_appends m values : forall tbl,
  exists done rest,
    values = done ++ rest
    /\ snd (Session.insert_rows m values tbl)
       = tbl ++ numbered m (next_id (map (pk m) tbl)) done
    /\ (fst (Session.insert_rows m values tbl) = Ok tt -> rest = []).
Proof.
  intros tbl. unfold Session.insert_rows.
  destruct (Session.emit_rows m values tbl) as [out|] eqn:He; simpl.
  - exists values, []. rewrite app_nil_r. repeat split.
    now apply emit_rows_Some.
  - exists [], values. simpl. rewrite app_nil_r. repeat split. discriminate.
Qed.

Lemma insert_rows_Ok_iff m values : forall tbl,
  fst (Session.insert_rows m values tbl) = Ok tt
  <-> NoDup (map (frame_key m) values)
      /\ (forall v, In v values ->
            ~ In (frame_key m v) (map (unique_column m) tbl)).
Proof.
  intros tbl. rewrite <- emit_rows_Some_iff. unfold Session.insert_rows.
  destruct (Session.emit_rows m values tbl); simpl; split; congruence.
Qed.

Lemma unique_column_numbered m values : forall i,
  map (unique_column m) (numbered m i values) = map (frame_key m) values.
Proof.
  induction values as [|v values IH]; intros i; simpl; [reflexivity|].
  now rewrite unique_column_to_row, IH.
Qed.

(** X10. [insert_values] lets no duplicate in. When it returns, the
    unique ids of the batch were pairwise distinct and none of them was
    stored; on a batch that repeats an id or carries a stored one it
    raises and leaves the store as it was. *)
Theorem insert_values_admits_fresh_ids_only :
  forall (m : models.t) (values : list (frame m)) (w : World),
    (fst (DatabaseManager.insert_values m values w) = Ok tt ->
     NoDup (map (frame_key m) values)
     /\ (forall v, In v values ->
           ~ In (frame_key m v)
                (map (unique_column m) (table m (store w)))))
    /\ (~ (NoDup (map (frame_key m) values)
           /\ (forall v, In v values ->
                 ~ In (frame_key m v)
                      (map (unique_column m) (table m (store w))))) ->
        (exists e, fst (DatabaseManager.insert_values m values w) = Raise e)
        /\ store (snd (DatabaseManager.insert_values m values w)) = store w).
Proof.
  intros m values w. rewrite insert_values_run. simpl fst. simpl snd.
  rewrite <- insert_rows_Ok_iff. unfold Session.insert_rows.
  destruct (Session.emit_rows m values (table m (store w))); simpl.
  - split; [reflexivity|]. intros H. now elim H.
  - split; [discriminate|]. intros _. split.
    + now exists PendingRollbackError.
    + apply set_table_table.
Qed.

(** X11. Insert, then read. After an [insert_values] that returned,
    [get_values] with no filter gives rows whose unique ids are the ids
    that were stored, followed by the ids of the batch, one row per
    mapping and in the order of the batch. *)
Theorem insert_values_then_get_values :
  forall (m : models.t) (values : list (frame m)) (w w1 : World),
    DatabaseManager.insert_values m values w = (Ok tt, w1) ->
    exists rows,
      fst (DatabaseManager.get_values m [] w1) = Ok rows
      /\ map (unique_column m) rows
         = map (unique_column m) (table m (store w))
           ++ map (frame_key m) values.
Proof.
  intros m values w w1 H. rewrite insert_values_run in H.
  injection H as Hok <-. apply after_exit_Ok in Hok.
  rewrite get_values_run, select_all. simpl.
  rewrite table_set_table. eexists. split; [reflexivity|].
  destruct (insert_rows_appends m values (table m (store w)))
    as (done & rest & Hv & Hsnd & Hfst).
  rewrite Hsnd. rewrite (Hfst Hok), app_nil_r in Hv. subst done.
  now rewrite map_app, unique_column_numbered.
Qed.

Lemma insert_values_then_get_values_witness :
  exists rows,
    fst (DatabaseManager.get_values models.RedditSubmissions []
           (snd (DatabaseManager.insert_values models.RedditSubmissions
                   [Scenario.v1] (Scenario.start Scenario.empty_store))))
    = Ok rows
    /\ map RedditSubmissions.submission_id rows = ["a1"].
Proof.
  exact (@insert_values_then_get_values models.RedditSubmissions [Scenario.v1]
           (Scenario.start Scenario.empty_store) _ eq_refl).
Defined.

Lemma emit_rows_well_keyed m values : forall tbl out,
  Session.emit_rows m values tbl = Some out ->
  NoDup (map (pk m) tbl) /\ NoDup (map (unique_column m) tbl) ->
  NoDup (map (pk m) out) /\ NoDup (map (unique_column m) out).
Proof.
  induction values as [|v values IH]; intros tbl out He [Hpk Huc];
    simpl in He.
  - injection He as <-. auto.
  - destruct (isin _ _) eqn:Hin; [discriminate|].
    apply isin_false in Hin. apply (IH _ _ He).
    rewrite !map_app. simpl map. split.
    + apply NoDup_app; auto.
      * repeat constructor. simpl. tauto.
      * intros x Hx [<-|[]]. rewrite pk_to_row in Hx.
        now apply next_id_fresh in Hx.
    + apply NoDup_app; auto.
      * repeat constructor. simpl. tauto.
      * intros x Hx [<-|[]]. contradiction.
Qed.

Lemma insert_rows_well_keyed m values : forall tbl,
  NoDup (map (pk m) tbl) /\ NoDup (map (unique_column m) tbl) ->
  NoDup (map (pk m) (snd (Session.insert_rows m values tbl)))
  /\ NoDup (map (unique_column m) (snd (Session.insert_rows m values tbl))).
Proof.
  intros tbl H. unfold Session.insert_rows.
  destruct (Session.emit_rows m values tbl) as [out|] eqn:He; simpl.
  - eapply emit_rows_well_keyed; eassumption.
  - exact H.
Qed.

(** X12. [insert_values] keeps the keys of its table distinct, whether
    it returns or raises: a store whose primary keys and unique ids
    have no duplicate still has none afterwards. *)
Theorem insert_values_keeps_keys_distinct :
  forall (m : models.t) (values : list (frame m)) (w : World),
    well_keyed m (store w) ->
    well_keyed m (store (snd (DatabaseManager.insert_values m values w))).
Proof.
  intros m values w H. rewrite insert_values_run. unfold well_keyed. simpl.
  rewrite table_set_table. now apply insert_rows_well_keyed.
Qed.

Lemma insert_values_keeps_keys_distinct_witness :
  well_keyed models.RedditSubmissions
    (store (snd (DatabaseManager.insert_values models.RedditSubmissions
                   Scenario.twice (Scenario.start Scenario.empty_store)))).
Proof.
  apply (@insert_values_keeps_keys_distinct models.RedditSubmissions
           Scenario.twice (Scenario.start Scenario.empty_store)).
  split; constructor.
Defined.

Lemma table_set_table_other m m' db tbl :
  m' <> m -> table m' (set_table m db tbl) = table m' db.
Proof. destruct m, m'; intros H; try reflexivity; now elim H. Qed.

(** X13. [insert_values] only appends: whether it returns or raises,
    the rows that were in its table are still there, unchanged and in
    place, followed by the rows of the first mappings of the batch; and
    the other tables are as they were. *)
Theorem insert_values_only_appends :
  forall (m : models.t) (values : list (frame m)) (w : World),
    (exists done rest,
        values = done ++ rest
        /\ table m (store (snd (DatabaseManager.insert_values m values w)))
           = table m (store w)
             ++ numbered m (next_id (map (pk m) (table m (store w)))) done)
    /\ (forall m', m' <> m ->
          table m' (store (snd (DatabaseManager.insert_values m values w)))
          = table m' (store w)).
Proof.
  intros m values w. rewrite insert_values_run. simpl. split.
  - rewrite table_set_table.
    destruct (insert_rows_appends m values (table m (store w)))
      as (done & rest & Hv & Hsnd & _).
    now exists done, rest.
  - intros m' Hm'. now apply table_set_table_other.
Qed.

Lemma pk_set_score m sc r : pk m (set_score m sc r) = pk m r.
Proof. destruct m; reflexivity. Qed.

Lemma unique_column_set_score m sc r :
  unique_column m (set_score m sc r) = unique_column m r.
Proof. destruct m; reflexivity. Qed.

Lemma set_score_set_score m a b r :
  set_score m a (set_score m b r) = set_score m a r.
Proof. destruct m; reflexivity. Qed.

(** No column a merge can be made on is the score. *)
Lemma on_column_set_score m on key sc r :
  on_column m on = Some key -> key (set_score m sc r) = key r.
Proof.
  destruct m; simpl; intros H;
    repeat match type of H with
           | (if ?c then _ else _) = _ => destruct c
           end;
    try discriminate; injection H as <-; reflexivity.
Qed.

Lemma update_rows_pointwise m us : forall tbl,
  Session.update_rows m us tbl
  = map (fun r => fold_left (fun r u => Session.update_row m u r) us r) tbl.
Proof.
  unfold Session.update_rows.
  induction us as [|u us IH]; intros tbl; simpl.
  - now rewrite map_id.
  - rewrite IH, map_map. reflexivity.
Qed.

Lemma pk_update_row m u r : pk m (Session.update_row m u r) = pk m r.
Proof.
  unfold Session.update_row. destruct (pk m r =? ScoreMapping.id u);
    [apply pk_set_score | reflexivity].
Qed.

(** Mappings for other primary keys leave a row alone. *)
Lemma fold_update_row_others m us : forall r,
  ~ In (pk m r) (map ScoreMapping.id us) ->
  fold_left (fun r u => Session.update_row m u r) us r = r.
Proof.
  induction us as [|u us IH]; intros r Hr; simpl; [reflexivity|].
  simpl in Hr. unfold Session.update_row at 2.
  destruct (Z.eqb_spec (pk m r) (ScoreMapping.id u)) as [Heq|_].
  - elim Hr. left. now rewrite Heq.
  - apply IH. tauto.
Qed.

(** Mappings for the primary key of a row write their scores into it,
    one after the other. *)
Lemma fold_update_row_own m i vs : forall r,
  pk m r = i ->
  fold_left (fun r u => Session.update_row m u r)
            (map (fun v => ScoreMapping.mk i (ScoresDF.score v)) vs) r
  = fold_left (fun r v => set_score m (ScoresDF.score v) r) vs r.
Proof.
  induction vs as [|v vs IH]; intros r Hr; simpl; [reflexivity|].
  unfold Session.update_row at 2. simpl. rewrite Hr, Z.eqb_refl.
  apply IH. now rewrite pk_set_score.
Qed.

Lemma last_cons {A} (l : list A) : forall a d, last (a :: l) d = last l a.
Proof.
  induction l as [|c l IH]; intros a d; [reflexivity|].
  change (last (a :: c :: l) d) with (last (c :: l) d).
  now rewrite (IH c d), (IH c a).
Qed.

Lemma last_item_cons {A} (a b : A) l :
  last_item (a :: b :: l) = last_item (b :: l).
Proof. unfold last_item. f_equal. apply last_cons. Qed.

Lemma fold_set_score_last m vs : forall r,
  fold_left (fun r v => set_score m (ScoresDF.score v) r) vs r
  = match last_item vs with
    | Some v => set_score m (ScoresDF.score v) r
    | None => r
    end.
Proof.
  induction vs as [|v vs IH]; intros r; [reflexivity|].
  cbn [fold_left]. rewrite IH. destruct vs as [|v' vs]; [reflexivity|].
  rewrite last_item_cons. cbn [last_item].
  apply set_score_set_score.
Qed.

Lemma join_on_ids m key tbl values :
  forall i, In i (map ScoreMapping.id (DatabaseManager.join_on m key tbl values)) ->
            In i (map (pk m) tbl).
Proof.
  intros i Hi. apply in_map_iff in Hi. destruct Hi as (u & <- & Hu).
  unfold DatabaseManager.join_on in Hu. apply in_flat_map in Hu.
  destruct Hu as (o & Ho & Hu). apply in_map_iff in Hu.
  destruct Hu as (v & <- & _). simpl. now apply in_map.
Qed.

Lemma join_on_app m key t1 t2 values :
  DatabaseManager.join_on m key (t1 ++ t2) values
  = DatabaseManager.join_on m key t1 values
    ++ DatabaseManager.join_on m key t2 values.
Proof. unfold DatabaseManager.join_on. apply flat_map_app. Qed.

(** In a table with distinct primary keys, applying the mappings of the
    merge is refreshing each row on its own. *)
Lemma update_rows_join_on m key values tbl :
  NoDup (map (pk m) tbl) ->
  Session.update_rows m (DatabaseManager.join_on m key tbl values) tbl
  = map (refreshed m key values) tbl.
Proof.
  intros Hnd.
  rewrite update_rows_pointwise. apply map_ext_in. intros r Hr.
  apply in_split in Hr. destruct Hr as (pre & post & Htbl).
  rewrite Htbl in Hnd |- *. clear Htbl. rewrite map_app in Hnd. simpl in Hnd.
  pose proof (NoDup_remove_2 _ _ _ Hnd) as Hfresh.
  rewrite in_app_iff in Hfresh.
  change (pre ++ r :: post) with (pre ++ [r] ++ post).
  rewrite !join_on_app, !fold_left_app.
  rewrite (@fold_update_row_others m
             (DatabaseManager.join_on m key pre values) r)
    by (intros Hin; apply join_on_ids in Hin; tauto).
  change (DatabaseManager.join_on m key [r] values)
    with (map (fun v => ScoreMapping.mk (pk m r) (ScoresDF.score v))
              (filter (fun v => String.eqb (key r) (ScoresDF.id v)) values)
          ++ []).
  rewrite app_nil_r.
  rewrite fold_update_row_own by reflexivity.
  rewrite fold_update_row_others.
  - unfold refreshed. apply fold_set_score_last.
  - intros Hin. apply join_on_ids in Hin.
    rewrite fold_set_score_last in Hin.
    destruct (last_item _); [rewrite pk_set_score in Hin|]; tauto.
Qed.

(** X14. What [update_values] writes, given a frame with the columns
    [on] and [score], [on] being a string column of the model. In a
    table whose primary keys are distinct, every row that matches a row
    of [values] on the column [on] receives the score of the last such
    row, every other row is left as it is, and no row is added or
    removed. The call returns, unless the table and the frame are both
    empty: the merge then raises [ValueError] and nothing is written. *)
Theorem update_values_refreshes_scores :
  forall (m : models.t) (values : list ScoresDF.row) (on : string)
         (key : row m -> string) (w : World),
    on_column m on = Some key ->
    NoDup (map (pk m) (table m (store w))) ->
    fst (DatabaseManager.update_values m values on w)
    = match table m (store w), values with
      | [], [] => Raise ValueError
      | _, _ => Ok tt
      end
    /\ store (snd (DatabaseManager.update_values m values on w))
       = set_table m (store w) (map (refreshed m key values) (table m (store w))).
Proof.
  intros m values on key w Hon Hnd.
  assert (Hrun : table m (store w) <> [] \/ values <> [] ->
            fst (DatabaseManager.update_values m values on w) = Ok tt
            /\ store (snd (DatabaseManager.update_values m values on w))
               = set_table m (store w)
                   (map (refreshed m key values) (table m (store w)))).
  { intros Hne. rewrite (@update_values_run m values on key w Hon Hne). simpl.
    split; [reflexivity|]. f_equal. now apply update_rows_join_on. }
  destruct (table m (store w)) as [|r tbl] eqn:Ht.
  - destruct values as [|v values].
    + rewrite (@update_values_ValueError m on key w Hon Ht). simpl.
      split; [reflexivity|]. now rewrite <- Ht, set_table_table.
    + apply Hrun. right. discriminate.
  - destruct values; apply Hrun; left; discriminate.
Qed.

Lemma update_values_refreshes_scores_witness :
  fst (DatabaseManager.update_values models.RedditSubmissions
         Scenario.fresh_scores "submission_id"
         (Scenario.start (store Scenario.after_first_fetch))) = Ok tt
  /\ store (snd (DatabaseManager.update_values models.RedditSubmissions
                   Scenario.fresh_scores "submission_id"
                   (Scenario.start (store Scenario.after_first_fetch))))
     = set_table models.RedditSubmissions (store Scenario.after_first_fetch)
         (map (refreshed models.RedditSubmissions
                 RedditSubmissions.submission_id Scenario.fresh_scores)
              (reddit_submissions (store Scenario.after_first_fetch))).
Proof.
  apply (@update_values_refreshes_scores models.RedditSubmissions
           Scenario.fresh_scores "submission_id"
           RedditSubmissions.submission_id
           (Scenario.start (store Scenario.after_first_fetch)) eq_refl).
  vm_compute. repeat constructor. simpl. tauto.
Defined.

(** The stored submission [a1] is listed twice among the fresh scores
    and takes the second one; the score for the unknown id is ignored. *)
Example update_values_last_score_wins :
  DatabaseManager.update_values models.RedditSubmissions Scenario.fresh_scores
    "submission_id" (Scenario.start (store Scenario.after_first_fetch))
  = (Ok tt,
     mkWorld
       (mkStore
          [Subreddits.mk 1 "wallstreetbets" "t5_2th52" (Some 1000)]
          [RedditSubmissions.mk 1 "GME" (PyInt 1) "a1" 90000 "gme to the moon" 21]
          [RedditComments.mk 1 "a1" "c1" 90060 "holding" 3])
       (get_values_calls models.RedditSubmissions
          ++ write_calls (BulkUpdate models.RedditSubmissions 2))).
Proof. vm_compute. reflexivity. Qed.

Lemma update_rows_keys m us tbl :
  map (pk m) (Session.update_rows m us tbl) = map (pk m) tbl
  /\ map (unique_column m) (Session.update_rows m us tbl)
     = map (unique_column m) tbl.
Proof.
  rewrite update_rows_pointwise, !map_map.
  assert (H : forall r,
            pk m (fold_left (fun r u => Session.update_row m u r) us r) = pk m r
            /\ unique_column m
                 (fold_left (fun r u => Session.update_row m u r) us r)
               = unique_column m r).
  { induction us as [|u us IH]; intros r; simpl; [auto|].
    destruct (IH (Session.update_row m u r)) as [-> ->].
    unfold Session.update_row. destruct (pk m r =? ScoreMapping.id u);
      [now rewrite pk_set_score, unique_column_set_score | auto]. }
  split; apply map_ext; intros r; apply H.
Qed.

(** X15. Given a frame with the columns [on] and [score], [on] being a
    string column of the model, [update_values] never adds, removes or
    re-keys a row, whatever its outcome: the primary keys and the unique
    ids of its table are, in order, what they were, and the other tables
    are untouched. *)
Theorem update_values_keeps_rows_and_keys :
  forall (m : models.t) (values : list ScoresDF.row) (on : string)
         (key : row m -> string) (w : World),
    on_column m on = Some key ->
    map (pk m) (table m (store (snd (DatabaseManager.update_values m values on w))))
    = map (pk m) (table m (store w))
    /\ map (unique_column m)
           (table m (store (snd (DatabaseManager.update_values m values on w))))
       = map (unique_column m) (table m (store w))
    /\ (forall m', m' <> m ->
          table m' (store (snd (DatabaseManager.update_values m values on w)))
          = table m' (store w)).
Proof.
  intros m values on key w _.
  destruct (update_values_store m values on w) as [->|(key' & _ & ->)].
  - auto.
  - rewrite table_set_table.
    destruct (update_rows_keys m
                (DatabaseManager.join_on m key' (table m (store w)) values)
                (table m (store w))) as [Hpk Huc].
    repeat split; auto. intros m' Hm'. now apply table_set_table_other.
Qed.

Lemma update_values_keeps_rows_and_keys_witness :
  map RedditSubmissions.id
    (reddit_submissions
       (store (snd (DatabaseManager.update_values models.RedditSubmissions
                      Scenario.fresh_scores "submission_id"
                      Scenario.one_stored))))
  = map RedditSubmissions.id (reddit_submissions (store Scenario.one_stored))
  /\ map RedditSubmissions.submission_id
       (reddit_submissions
          (store (snd (DatabaseManager.update_values models.RedditSubmissions
                         Scenario.fresh_scores "submission_id"
                         Scenario.one_stored))))
     = map RedditSubmissions.submission_id
         (reddit_submissions (store Scenario.one_stored))
  /\ (forall m', m' <> models.RedditSubmissions ->
        table m'
          (store (snd (DatabaseManager.update_values models.RedditSubmissions
                         Scenario.fresh_scores "submission_id"
                         Scenario.one_stored)))
        = table m' (store Scenario.one_stored)).
Proof.
  exact (@update_values_keeps_rows_and_keys models.RedditSubmissions
           Scenario.fresh_scores "submission_id"
           RedditSubmissions.submission_id Scenario.one_stored eq_refl).
Defined.

(* ================================================================== *)
(** * Further properties of RedditManager: the subreddits table *)

Lemma get_subreddit_details_outcome E subs :
  (exists info,
      RedditAPI.get_subreddit_details E subs = Ok info
      /\ map SubredditsDF.name info = subs)
  \/ RedditAPI.get_subreddit_details E subs = Raise PrawException.
Proof.
  induction subs as [|sub subs IH]; simpl.
  - left. now exists [].
  - destruct (praw_subreddit E sub) as [[fullname n]|]; [|now right].
    destruct IH as [(info & Hinfo & Hnames)|Hinfo]; rewrite Hinfo; simpl;
      [left | now right].
    eexists. split; [reflexivity|]. simpl. now rewrite Hnames.
Qed.

(** X16. With [update_all=True], [update_subreddits] never updates
    anything: after reading the table and asking the source, it calls a
    method [DatabaseManager] does not have. The call always raises, and
    the store is as it was. *)
Theorem update_subreddits_update_all_never_updates :
  forall (E : Env) (subreddits_list : list string) (w : World),
    (fst (RedditManager.update_subreddits E subreddits_list true w)
       = Raise AttributeError
     \/ fst (RedditManager.update_subreddits E subreddits_list true w)
       = Raise PrawException)
    /\ snd (RedditManager.update_subreddits E subreddits_list true w)
       = mkWorld (store w) (trace w ++ get_values_calls models.Subreddits).
Proof.
  intros E l w. unfold RedditManager.update_subreddits, bind.
  rewrite get_values_run. unfold lift, raise.
  destruct (get_subreddit_details_outcome E
              (map Subreddits.name (select models.Subreddits [] (store w))))
    as [(info & Hinfo & _)|Hinfo]; rewrite Hinfo; auto.
Qed.

Lemma new_subs_spec existing l n :
  In n (RedditManager.new_subs existing l) <-> In n l /\ ~ In n existing.
Proof.
  unfold RedditManager.new_subs. rewrite nodup_In, filter_In.
  rewrite negb_true_iff, isin_false. tauto.
Qed.

Lemma name_numbered i values :
  map Subreddits.name (numbered models.Subreddits i values)
  = map SubredditsDF.name values.
Proof.
  revert i. induction values as [|v values IH]; intros i; simpl;
    [reflexivity | now rewrite IH].
Qed.

Lemma subscribers_numbered i info :
  Forall (fun r => Subreddits.subscribers r <> None)
         (numbered models.Subreddits i (map RedditManager.fillna info)).
Proof.
  revert i. induction info as [|v info IH]; intros i; simpl; constructor;
    [discriminate | apply IH].
Qed.

Lemma map_name_fillna info :
  map SubredditsDF.name (map RedditManager.fillna info)
  = map SubredditsDF.name info.
Proof. rewrite map_map. reflexivity. Qed.

(** X17. A call of [update_subreddits] on a list of names that returns
    leaves every name of the list stored. It appends rows whose names
    are the names of the list that were not stored, each once and in
    some order, with a subscriber count that is never null; it keeps
    the rows that were there, and does not touch the two other
    tables. *)
Theorem update_subreddits_registers_new_names :
  forall (E : Env) (subreddits_list : list string) (w w' : World),
    RedditManager.update_subreddits E subreddits_list false w = (Ok tt, w') ->
    (exists added,
        subreddits (store w') = subreddits (store w) ++ added
        /\ NoDup (map Subreddits.name added)
        /\ (forall n,
              In n (map Subreddits.name added)
              <-> In n subreddits_list
                  /\ ~ In n (map Subreddits.name (subreddits (store w))))
        /\ Forall (fun r => Subreddits.subscribers r <> None) added)
    /\ (forall n, In n subreddits_list ->
                  In n (map Subreddits.name (subreddits (store w'))))
    /\ reddit_submissions (store w') = reddit_submissions (store w)
    /\ reddit_comments (store w') = reddit_comments (store w).
Proof.
  intros E l w w' H.
  assert (Hmain : exists added,
             store w' = mkStore (subreddits (store w) ++ added)
                          (reddit_submissions (store w))
                          (reddit_comments (store w))
             /\ map Subreddits.name added
                = RedditManager.new_subs
                    (map Subreddits.name (subreddits (store w))) l
             /\ Forall (fun r => Subreddits.subscribers r <> None) added).
  { unfold RedditManager.update_subreddits, bind in H.
    rewrite get_values_run, select_all in H. cbn [table] in H.
    assert (Hnone : RedditManager.new_subs
                      (map Subreddits.name (subreddits (store w))) l = [] ->
                    w' = mkWorld (store w)
                           (trace w ++ get_values_calls models.Subreddits) ->
                    exists added,
                      store w' = mkStore (subreddits (store w) ++ added)
                                   (reddit_submissions (store w))
                                   (reddit_comments (store w))
                      /\ map Subreddits.name added
                         = RedditManager.new_subs
                             (map Subreddits.name (subreddits (store w))) l
                      /\ Forall (fun r => Subreddits.subscribers r <> None) added).
    { intros Hn ->. exists []. rewrite Hn, app_nil_r. simpl.
      repeat split; [now destruct (store w) | constructor]. }
    destruct l as [|n l]; [injection H as <-; now apply Hnone|].
    destruct (RedditManager.new_subs _ (n :: l)) as [|s subs] eqn:Hnew;
      [injection H as <-; now apply Hnone|].
    unfold lift in H.
    destruct (get_subreddit_details_outcome E (s :: subs))
      as [(info & Hinfo & Hnames)|Hinfo]; rewrite Hinfo in H;
      [|discriminate].
    clear Hnone.
    rewrite insert_values_run in H. injection H as Hok <-.
    destruct (insert_rows_appends models.Subreddits
                (map RedditManager.fillna info) (subreddits (store w)))
      as (done & rest & Hv & Hsnd & Hfst).
    cbn [table] in Hok. apply after_exit_Ok in Hok.
    rewrite (Hfst Hok), app_nil_r in Hv. subst done.
    eexists. split; [simpl; f_equal; exact Hsnd|].
    split; [|apply subscribers_numbered].
    now rewrite name_numbered, map_name_fillna. }
  destruct Hmain as (added & Hstore & Hnames & Hsubs).
  rewrite Hstore. simpl. repeat split; auto.
  - exists added. split; [reflexivity|]. split; [|split; [|exact Hsubs]].
    + rewrite Hnames. apply NoDup_nodup.
    + intros n. rewrite Hnames. apply new_subs_spec.
  - intros n Hn. rewrite map_app, in_app_iff, Hnames, new_subs_spec.
    destruct (in_dec string_dec n (map Subreddits.name (subreddits (store w))));
      tauto.
Qed.

Lemma update_subreddits_registers_new_names_witness :
  In "wallstreetbets"
     (map Subreddits.name
        (subreddits
           (store (snd (RedditManager.update_subreddits
                          Scenario.one_submission
                          ["wallstreetbets"; "wallstreetbets"] false
                          (Scenario.start Scenario.empty_store)))))).
Proof.
  assert (H : RedditManager.update_subreddits Scenario.one_submission
                ["wallstreetbets"; "wallstreetbets"] false
                (Scenario.start Scenario.empty_store)
              = (Ok tt,
                 snd (RedditManager.update_subreddits Scenario.one_submission
                        ["wallstreetbets"; "wallstreetbets"] false
                        (Scenario.start Scenario.empty_store))))
    by (vm_compute; reflexivity).
  apply (proj1 (proj2 (@update_subreddits_registers_new_names
                         Scenario.one_submission
                         ["wallstreetbets"; "wallstreetbets"]
                         (Scenario.start Scenario.empty_store) _ H))).
  now left.
Defined.

(** X18. When every name of the list is already stored,
    [update_subreddits] asks the source nothing and writes nothing: it
    reads the subreddits table once and returns. *)
Theorem update_subreddits_all_known :
  forall (E : Env) (subreddits_list : list string) (w : World),
    (forall n, In n subreddits_list ->
               In n (map Subreddits.name (subreddits (store w)))) ->
    RedditManager.update_subreddits E subreddits_list false w
    = (Ok tt, mkWorld (store w) (trace w ++ get_values_calls models.Subreddits)).
Proof.
  intros E l w Hknown. unfold RedditManager.update_subreddits, bind.
  rewrite get_values_run, select_all. cbn [table].
  destruct l as [|n l]; [reflexivity|].
  destruct (RedditManager.new_subs _ (n :: l)) as [|s subs] eqn:Hnew;
    [reflexivity|].
  assert (Hs : In s (RedditManager.new_subs
                       (map Subreddits.name (subreddits (store w))) (n :: l)))
    by (rewrite Hnew; now left).
  apply new_subs_spec in Hs. destruct Hs as [Hin Hout].
  now elim Hout; apply Hknown.
Qed.

Lemma update_subreddits_all_known_witness :
  RedditManager.update_subreddits Scenario.no_items ["wallstreetbets"] false
    (Scenario.start (store Scenario.after_first_fetch))
  = (Ok tt,
     mkWorld (store Scenario.after_first_fetch)
             (get_values_calls models.Subreddits)).
Proof.
  apply (@update_subreddits_all_known Scenario.no_items ["wallstreetbets"]
           (Scenario.start (store Scenario.after_first_fetch))).
  intros n [<-|[]]. vm_compute. now left.
Defined.

(** The store [update_subreddits] leaves, whatever its outcome: rows
    appended to the subreddits table, named after the first of the new
    names. *)
Lemma update_subreddits_shape E l b w :
  exists added rest,
    store (snd (RedditManager.update_subreddits E l b w))
    = mkStore (subreddits (store w) ++ added)
              (reddit_submissions (store w)) (reddit_comments (store w))
    /\ RedditManager.new_subs (map Subreddits.name (subreddits (store w))) l
       = map Subreddits.name added ++ rest.
Proof.
  assert (Hsame : forall ns : list string,
            exists added rest,
              store w
              = mkStore (subreddits (store w) ++ added)
                        (reddit_submissions (store w)) (reddit_comments (store w))
              /\ ns = map Subreddits.name added ++ rest).
  { intros ns. exists [], ns.
    rewrite app_nil_r. split; [now destruct (store w) | reflexivity]. }
  unfold RedditManager.update_subreddits, bind.
  rewrite get_values_run, select_all. cbn [table].
  destruct b.
  - unfold lift, raise.
    destruct (RedditAPI.get_subreddit_details E _); apply Hsame.
  - destruct l as [|n l]; [apply Hsame|].
    destruct (RedditManager.new_subs _ (n :: l)) as [|s subs] eqn:Hnew;
      [apply Hsame|].
    unfold lift.
    destruct (get_subreddit_details_outcome E (s :: subs))
      as [(info & Hinfo & Hnames)|Hinfo]; rewrite Hinfo; [|apply Hsame].
    rewrite insert_values_run.
    destruct (insert_rows_appends models.Subreddits
                (map RedditManager.fillna info) (subreddits (store w)))
      as (done & rest & Hv & Hsnd & _).
    exists (numbered models.Subreddits
              (next_id (map Subreddits.id (subreddits (store w)))) done),
           (map SubredditsDF.name rest).
    split; [simpl; f_equal; exact Hsnd|].
    rewrite name_numbered, <- map_app, <- Hnames, <- map_name_fillna.
    f_equal. exact Hv.
Qed.

(** X19. [update_subreddits] never stores a name twice: if the names of
    the subreddits table are distinct, they still are after the call,
    whether it returns or raises. *)
Theorem update_subreddits_keeps_names_distinct :
  forall (E : Env) (subreddits_list : list string) (update_all : bool)
         (w : World),
    NoDup (map Subreddits.name (subreddits (store w))) ->
    NoDup (map Subreddits.name
             (subreddits
                (store (snd (RedditManager.update_subreddits E subreddits_list
                               update_all w))))).
Proof.
  intros E l b w Hnd.
  destruct (update_subreddits_shape E l b w) as (added & rest & -> & Hnew).
  simpl. rewrite map_app. apply NoDup_app; [assumption | |].
  - apply NoDup_app_remove_r with (l' := rest). rewrite <- Hnew.
    apply NoDup_nodup.
  - intros n Hold Hadded.
    assert (Hin : In n (RedditManager.new_subs
                          (map Subreddits.name (subreddits (store w))) l))
      by (rewrite Hnew, in_app_iff; now left).
    apply new_subs_spec in Hin. tauto.
Qed.

Lemma update_subreddits_keeps_names_distinct_witness :
  NoDup (map Subreddits.name
           (subreddits
              (store (snd (RedditManager.update_subreddits
                             Scenario.one_submission
                             ["wallstreetbets"; "wallstreetbets"] false
                             (Scenario.start Scenario.empty_store)))))).
Proof.
  apply (@update_subreddits_keeps_names_distinct Scenario.one_submission
           ["wallstreetbets"; "wallstreetbets"] false
           (Scenario.start Scenario.empty_store)).
  constructor.
Defined.

(* ================================================================== *)
(** * Further properties of RedditManager: processing a batch *)

Lemma mapM_Forall2 {A B} (f : A -> outcome B) l : forall out,
  RedditManager.mapM f l = Ok out -> Forall2 (fun a b => f a = Ok b) l out.
Proof.
  induction l as [|a l IH]; simpl; intros out H.
  - injection H as <-. constructor.
  - destruct (f a) as [b| |] eqn:Hb; simpl in H; try discriminate.
    destruct (RedditManager.mapM f l) as [bs| |]; simpl in H; try discriminate.
    injection H as <-. constructor; auto.
Qed.

Lemma Forall2_map_r {A B C} (R : A -> C -> Prop) (g : B -> C) l l' :
  Forall2 (fun a b => R a (g b)) l l' -> Forall2 R l (map g l').
Proof. induction 1; simpl; constructor; auto. Qed.

(** X20. What [process_submissions] hands on. When it returns, its
    frame has one row for each fetched row whose id was not stored, in
    the same order, with the id, creation time, score and ticker of
    that row, the title passed through the text cleaning, and as
    [subreddit_id] the primary key of the stored subreddit that bears
    the row's subreddit name. The submissions and comments tables are
    not touched. *)
Theorem process_submissions_result :
  forall (E : Env) (rows : list SubmissionsDF.row)
         (processed : list ProcessedSubmissionsDF.row) (w w' : World),
    RedditManager.process_submissions E (DataFrame rows) w = (Ok processed, w') ->
    Forall2 (processed_row E (store w'))
      (RedditManager.new_submissions
         (map RedditSubmissions.submission_id (reddit_submissions (store w)))
         rows)
      processed
    /\ reddit_submissions (store w') = reddit_submissions (store w)
    /\ reddit_comments (store w') = reddit_comments (store w).
Proof.
  intros E rows processed w w' H.
  unfold RedditManager.process_submissions in H.
  apply bind_Ok in H as (stored & w1 & Hget & H).
  rewrite get_values_run, select_all in Hget. injection Hget as <- <-.
  change (table models.RedditSubmissions (store w))
    with (reddit_submissions (store w)) in H.
  cbv zeta in H.
  destruct (RedditManager.new_submissions _ rows) as [|r l].
  - unfold ret in H. injection H as <- <-. simpl. repeat split. constructor.
  - apply bind_Ok in H as (u & w2 & Hupd & H).
    apply bind_Ok in H as (subs & w3 & Hsubs & H).
    apply bind_Ok in H as (mapped & w4 & Hmap & H).
    rewrite get_values_run, select_all in Hsubs. injection Hsubs as <- <-.
    unfold lift in Hmap.
    assert (Hw4 : w4 = mkWorld (store w2)
                         (trace w2 ++ get_values_calls models.Subreddits))
      by (now injection Hmap).
    apply (f_equal fst) in Hmap.
    change (RedditManager.mapM
              (RedditManager.map_subreddit (subreddits (store w2))) (r :: l)
            = Ok mapped) in Hmap.
    unfold ret in H. injection H as <- <-. subst w4. simpl store.
    destruct (update_subreddits_shape E
                (map SubmissionsDF.subreddit (r :: l)) false
                (mkWorld (store w)
                   (trace w ++ get_values_calls models.RedditSubmissions)))
      as (added & rest & Hstore & _).
    rewrite Hupd in Hstore. simpl in Hstore. rewrite Hstore. simpl.
    repeat split.
    apply Forall2_map_r. apply mapM_Forall2 in Hmap. rewrite Hstore in Hmap.
    eapply Forall2_impl; [|exact Hmap]. simpl. intros a b Hab.
    destruct (map_subreddit_primary_key _ _ Hab) as (s & Hin & Hname & Hid).
    unfold RedditManager.map_subreddit in Hab.
    destruct (RedditManager.subreddit_item _ _); simpl in Hab; try discriminate.
    injection Hab as <-. simpl in *. repeat split. now exists s.
Qed.

Lemma process_submissions_result_witness :
  Forall2 (processed_row Scenario.one_submission (store Scenario.after_first_fetch))
    [SubmissionsDF.mk "b2" 90000 "wallstreetbets" "gme to the moon" 12 "GME"]
    [ProcessedSubmissionsDF.mk "b2" 90000 (PyInt 1) "gme to the moon" 12 "GME"].
Proof.
  apply (@process_submissions_result Scenario.one_submission
           [SubmissionsDF.mk "a1" 90000 "wallstreetbets" "gme to the moon" 12 "GME";
            SubmissionsDF.mk "b2" 90000 "wallstreetbets" "gme to the moon" 12 "GME"]
           [ProcessedSubmissionsDF.mk "b2" 90000 (PyInt 1) "gme to the moon" 12 "GME"]
           (Scenario.start (store Scenario.after_first_fetch))
           (snd (RedditManager.process_submissions Scenario.one_submission
                   (DataFrame
                      [SubmissionsDF.mk "a1" 90000 "wallstreetbets"
                         "gme to the moon" 12 "GME";
                       SubmissionsDF.mk "b2" 90000 "wallstreetbets"
                         "gme to the moon" 12 "GME"])
                   (Scenario.start (store Scenario.after_first_fetch))))).
  vm_compute. reflexivity.
Defined.

(* ================================================================== *)
(** * Further properties of RedditManager: what the ingestion writes *)

Lemma grows_refl db : grows db db.
Proof. intros m. exists []. now rewrite app_nil_r. Qed.

Lemma grows_trans a b c : grows a b -> grows b c -> grows a c.
Proof.
  intros Hab Hbc m. destruct (Hab m) as [x Hx]. destruct (Hbc m) as [y Hy].
  exists (x ++ y). now rewrite Hy, Hx, app_assoc.
Qed.

Lemma grows_insert_values m values :
  preserves grows (DatabaseManager.insert_values m values).
Proof.
  intros w m'. rewrite insert_values_run. simpl.
  destruct (insert_rows_appends m values (table m (store w)))
    as (done & rest & _ & Hsnd & _).
  destruct m, m'; simpl in *;
    first [ rewrite Hsnd; eexists; reflexivity
          | exists []; now rewrite app_nil_r ].
Qed.

(** Walks down a computation for a relation on stores that is reflexive
    and transitive; [extra] closes the calls that are not reads. *)
Ltac frame_with Hrefl Htrans extra :=
  repeat first
    [ extra
    | solve [apply preserves_ret; apply Hrefl]
    | solve [apply preserves_raise; apply Hrefl]
    | solve [apply preserves_lift; apply Hrefl]
    | solve [apply preserves_get_values; apply Hrefl]
    | apply preserves_bind; [apply Htrans | | intro]
    | progress cbv beta iota zeta
    | match goal with
      | |- preserves _ (match ?l with [] => _ | _ :: _ => _ end) => destruct l
      end ].

Lemma grows_update_subreddits E l b :
  preserves grows (RedditManager.update_subreddits E l b).
Proof.
  unfold RedditManager.update_subreddits. destruct b;
    frame_with grows_refl grows_trans ltac:(apply grows_insert_values).
Qed.

Lemma grows_process_submissions E submissions :
  preserves grows (RedditManager.process_submissions E submissions).
Proof.
  unfold RedditManager.process_submissions. destruct submissions;
    frame_with grows_refl grows_trans ltac:(apply grows_update_subreddits).
Qed.

Lemma grows_process_comments E comments :
  preserves grows (RedditManager.process_comments E comments).
Proof.
  unfold RedditManager.process_comments.
  frame_with grows_refl grows_trans fail.
Qed.

(** X21. [fetch_data] only appends. Whatever the source answers and
    whether the call returns, raises or is still fetching, every row
    that was in the store is still there, unchanged and in place, in
    each of the three tables; what the call writes comes after. *)
Theorem fetch_data_only_appends :
  forall (E : Env) (fuel : nat) (ticker : string) (limit before after : Z)
         (subreddits : list string) (w : World),
    grows (store w)
      (store (snd (RedditManager.fetch_data E fuel ticker limit before after
                     subreddits w))).
Proof.
  intros E fuel ticker limit before after subreddits.
  change (preserves grows
            (RedditManager.fetch_data E fuel ticker limit before after subreddits)).
  unfold RedditManager.fetch_data.
  frame_with grows_refl grows_trans
    ltac:(first [ apply grows_insert_values
                | apply grows_process_submissions
                | apply grows_process_comments ]).
Qed.

(** The ids stored after a call of [fetch_data] that returned: those
    that were stored, then those of the fetched rows that were new. *)
Lemma fetch_data_Ok_stored_ids E fuel ticker limit before after subreddits w0 w1 :
  RedditManager.fetch_data E fuel ticker limit before after subreddits w0
  = (Ok tt, w1) ->
  exists rows,
    RedditAPI.get_submissions E fuel
      (RedditManager.fetch_params ticker limit before after subreddits)
    = Ok (DataFrame rows)
    /\ map RedditSubmissions.submission_id (reddit_submissions (store w1))
       = map RedditSubmissions.submission_id (reddit_submissions (store w0))
         ++ map SubmissionsDF.submission_id
              (RedditManager.new_submissions
                 (map RedditSubmissions.submission_id
                      (reddit_submissions (store w0))) rows).
Proof.
  intros H. unfold RedditManager.fetch_data in H.
  apply bind_Ok in H as (obj & wA & Hget & H).
  unfold lift in Hget. injection Hget as Hget <-.
  apply bind_Ok in H as (processed & wB & Hproc & H).
  destruct obj as [|rows].
  { rewrite process_submissions_EmptyList in Hproc. discriminate Hproc. }
  exists rows. split; [exact Hget|].
  pose proof (process_submissions_Ok_ids _ _ _ Hproc) as Hids.
  pose proof (preserves_process_submissions E (DataFrame rows) w0) as HB.
  rewrite Hproc in HB. simpl in HB. apply submissions_kept_ids in HB.
  rewrite <- Hids, <- HB. destruct processed as [|p ps].
  - unfold ret in H. injection H as <-. now rewrite app_nil_r.
  - apply bind_Ok in H as (u & wC & Hins & H).
    rewrite insert_values_run in Hins. injection Hins as Hok HC.
    apply after_exit_Ok in Hok.
    assert (Hrows : Session.insert_rows models.RedditSubmissions (p :: ps)
                      (reddit_submissions (store wB))
                    = (Ok tt, reddit_submissions (store wC))).
    { rewrite <- HC. simpl store. simpl reddit_submissions.
      destruct u. rewrite <- Hok. apply surjective_pairing. }
    apply insert_rows_Ok_ids in Hrows. rewrite <- Hrows.
    match type of H with ?c wC = _ =>
      assert (Hrest : preserves submissions_kept c)
        by kept_with ltac:(apply preserves_process_comments)
    end.
    specialize (Hrest wC). rewrite H in Hrest. simpl in Hrest.
    now apply submissions_kept_ids in Hrest.
Qed.

(** X22. Nothing fetched is lost. When [fetch_data] returns, the fetch
    gave a frame, and the id of every row of that frame is the id of a
    stored submission: it was stored before, or the call stored it. *)
Theorem fetch_data_stores_every_fetched_id :
  forall (E : Env) (fuel : nat) (ticker : string) (limit before after : Z)
         (subreddits : list string) (w0 w1 : World),
    RedditManager.fetch_data E fuel ticker limit before after subreddits w0
    = (Ok tt, w1) ->
    exists rows,
      RedditAPI.get_submissions E fuel
        (RedditManager.fetch_params ticker limit before after subreddits)
      = Ok (DataFrame rows)
      /\ Forall (fun r => In (SubmissionsDF.submission_id r)
                             (map RedditSubmissions.submission_id
                                  (reddit_submissions (store w1))))
                rows.
Proof.
  intros E fuel ticker limit before after subreddits w0 w1 H.
  apply fetch_data_Ok_stored_ids in H. destruct H as (rows & Hget & Hids).
  exists rows. split; [exact Hget|]. apply Forall_forall. intros r Hr.
  rewrite Hids, in_app_iff.
  destruct (isin (SubmissionsDF.submission_id r)
              (map RedditSubmissions.submission_id
                   (reddit_submissions (store w0)))) eqn:Hknown.
  - left. now apply isin_In.
  - right. apply in_map. unfold RedditManager.new_submissions.
    apply filter_In. split; [assumption | now rewrite Hknown].
Qed.

Lemma fetch_data_stores_every_fetched_id_witness :
  exists rows,
    RedditAPI.get_submissions Scenario.one_submission 2
      (RedditManager.fetch_params "GME" 1 100000 0 ["wallstreetbets"])
    = Ok (DataFrame rows)
    /\ Forall (fun r => In (SubmissionsDF.submission_id r)
                           (map RedditSubmissions.submission_id
                                (reddit_submissions
                                   (store Scenario.after_first_fetch))))
              rows.
Proof.
  apply (@fetch_data_stores_every_fetched_id Scenario.one_submission 2 "GME" 1
           100000 0 ["wallstreetbets"] (Scenario.start Scenario.empty_store)
           Scenario.after_first_fetch).
  vm_compute. reflexivity.
Defined.

(* ================================================================== *)
(** * Further properties of RedditManager: the comments table *)

Lemma same_comment_refl c : same_comment_but_score c c.
Proof. repeat split. Qed.

Lemma same_comment_trans a b c :
  same_comment_but_score a b -> same_comment_but_score b c ->
  same_comment_but_score a c.
Proof.
  unfold same_comment_but_score. intros (?&?&?&?&?) (?&?&?&?&?).
  repeat split; congruence.
Qed.

Lemma Forall2_same_comment_refl l : Forall2 same_comment_but_score l l.
Proof. induction l; constructor; auto using same_comment_refl. Qed.

Lemma Forall2_same_comment_trans l1 l2 : Forall2 same_comment_but_score l1 l2 ->
  forall l3, Forall2 same_comment_but_score l2 l3 ->
             Forall2 same_comment_but_score l1 l3.
Proof.
  induction 1 as [|a b l1 l2 Hab _ IH]; intros l3 H23; inversion H23; subst;
    constructor; eauto using same_comment_trans.
Qed.

Section CommentsKept.

Variable S : string -> Prop.

Lemma comments_kept_refl db : comments_kept S db db.
Proof.
  exists (reddit_comments db), []. rewrite app_nil_r.
  repeat split; [apply Forall2_same_comment_refl | constructor].
Qed.

Lemma comments_kept_trans a b c :
  comments_kept S a b -> comments_kept S b c -> comments_kept S a c.
Proof.
  intros (k1 & a1 & Hb & Hk1 & Ha1) (k2 & a2 & Hc & Hk2 & Ha2).
  rewrite Hb in Hk2. apply Forall2_app_inv_l in Hk2.
  destruct Hk2 as (k21 & k22 & Hk21 & Hk22 & ->).
  exists k21, (k22 ++ a2). repeat split.
  - now rewrite Hc, app_assoc.
  - eapply Forall2_same_comment_trans; eassumption.
  - apply Forall_app. split; [|assumption].
    clear - Ha1 Hk22. induction Hk22 as [|x y l l' Hxy _ IH]; constructor.
    + inversion Ha1; subst. destruct Hxy as (_ & <- & _). assumption.
    + apply IH. now inversion Ha1.
Qed.

Lemma comments_kept_same_table db db' :
  reddit_comments db' = reddit_comments db -> comments_kept S db db'.
Proof.
  intros H. exists (reddit_comments db), []. rewrite app_nil_r.
  repeat split; [assumption | apply Forall2_same_comment_refl | constructor].
Qed.

Lemma update_rows_same_comment us tbl :
  Forall2 same_comment_but_score tbl
    (Session.update_rows models.RedditComments us tbl).
Proof.
  rewrite update_rows_pointwise.
  induction tbl as [|c tbl IH]; simpl; constructor; [|exact IH].
  clear IH. revert c. induction us as [|u us IHu]; intros c; simpl.
  - apply same_comment_refl.
  - eapply same_comment_trans; [|apply IHu].
    unfold Session.update_row. simpl.
    destruct (RedditComments.id c =? ScoreMapping.id u); repeat split.
Qed.

Lemma comments_kept_update_values m values on :
  preserves (comments_kept S) (DatabaseManager.update_values m values on).
Proof.
  intros w.
  destruct (update_values_store m values on w) as [->|(key & _ & ->)].
  - apply comments_kept_refl.
  - destruct m; try (now apply comments_kept_same_table).
    exists (Session.update_rows models.RedditComments
              (DatabaseManager.join_on models.RedditComments key
                 (reddit_comments (store w)) values)
              (reddit_comments (store w))), [].
    rewrite app_nil_r. repeat split;
      [apply update_rows_same_comment | constructor].
Qed.

Lemma submission_id_numbered i values :
  map RedditComments.submission_id (numbered models.RedditComments i values)
  = map ProcessedCommentsDF.submission_id values.
Proof.
  revert i. induction values as [|v values IH]; intros i; simpl;
    [reflexivity | now rewrite IH].
Qed.

Lemma comments_kept_insert_comments values :
  Forall (fun p => S (ProcessedCommentsDF.submission_id p)) values ->
  preserves (comments_kept S)
    (DatabaseManager.insert_values models.RedditComments values).
Proof.
  intros HS w. rewrite insert_values_run. simpl.
  destruct (insert_rows_appends models.RedditComments values
              (reddit_comments (store w)))
    as (done & rest & Hv & Hsnd & _).
  eexists _, _. split; [exact Hsnd|].
  split; [apply Forall2_same_comment_refl|].
  rewrite Hv in HS. apply Forall_app in HS. destruct HS as [HS _].
  apply Forall_forall. intros c Hc.
  apply (in_map RedditComments.submission_id) in Hc.
  rewrite submission_id_numbered in Hc. apply in_map_iff in Hc.
  destruct Hc as (p & <- & Hp). rewrite Forall_forall in HS. now apply HS.
Qed.

Lemma comments_kept_insert_other m values :
  m <> models.RedditComments ->
  preserves (comments_kept S) (DatabaseManager.insert_values m values).
Proof.
  intros Hm w. rewrite insert_values_run. apply comments_kept_same_table.
  simpl. now apply (@table_set_table_other m models.RedditComments).
Qed.

(** The continuation of a lookup runs only on what the lookup gave. *)
Lemma comments_kept_bind_lift {A B} (o : outcome A) (k : A -> M B) :
  (forall a, o = Ok a -> preserves (comments_kept S) (k a)) ->
  preserves (comments_kept S) (bind (lift o) k).
Proof.
  intros H w. unfold bind, lift. destruct o as [a| |];
    [now apply H | apply comments_kept_refl | apply comments_kept_refl].
Qed.

(** The continuation of [process_comments] runs on cleaned rows of the
    frame it was given. *)
Lemma comments_kept_bind_process_comments {B} E comments
  (k : list ProcessedCommentsDF.row -> M B) :
  (forall processed,
      incl (map ProcessedCommentsDF.submission_id processed)
           (map CommentsDF.submission_id comments) ->
      preserves (comments_kept S) (k processed)) ->
  preserves (comments_kept S) (bind (RedditManager.process_comments E comments) k).
Proof.
  intros H w. unfold bind. rewrite process_comments_run.
  match goal with |- comments_kept _ _ (store (snd (k ?p ?w1))) =>
    apply (H p) with (w := w1) end.
  rewrite map_map. simpl. intros i Hi. apply in_map_iff in Hi.
  destruct Hi as (c & <- & Hc). apply in_map.
  unfold RedditManager.new_comments in Hc. now apply filter_In in Hc.
Qed.

(** The part of [update_ticker] and of [fetch_data] that fetches the
    comments of a list of submissions and stores them. *)
Lemma comments_kept_comments_of E ids (k : list CommentsDF.row ->
                                           list ProcessedCommentsDF.row ->
                                           M unit) :
  (forall i, In i ids -> S i) ->
  (forall comments processed, preserves (comments_kept S) (k comments processed)) ->
  preserves (comments_kept S)
    (comments <- lift (RedditAPI.get_comments E ids) ;;
     processed_comments <- RedditManager.process_comments E comments ;;
     match processed_comments with
     | [] => ret tt
     | _ :: _ =>
         DatabaseManager.insert_values models.RedditComments processed_comments
     end ;;;
     k comments processed_comments).
Proof.
  intros Hids Hk.
  apply comments_kept_bind_lift. intros comments Hcomments.
  apply comments_kept_bind_process_comments. intros processed Hincl.
  apply preserves_bind; [apply comments_kept_trans | | intros _; apply Hk].
  assert (HS : Forall (fun p => S (ProcessedCommentsDF.submission_id p)) processed).
  { apply Forall_forall. intros p Hp. apply Hids.
    apply (in_map ProcessedCommentsDF.submission_id), Hincl in Hp.
    apply in_map_iff in Hp. destruct Hp as (c & <- & Hc).
    pose proof (get_comments_rows E ids Hcomments) as Hrows.
    rewrite Forall_forall in Hrows. now apply Hrows. }
  destruct processed;
    [apply preserves_ret, comments_kept_refl
    | now apply comments_kept_insert_comments].
Qed.

End CommentsKept.

Lemma comments_kept_update_comments S E comments :
  preserves (comments_kept S) (RedditManager.update_comments E comments).
Proof.
  unfold RedditManager.update_comments.
  apply comments_kept_bind_lift. intros updated _.
  apply comments_kept_update_values.
Qed.

(** One ticker of [update_submissions]: the comments that were stored
    stay, up to their score, and the comments added are comments of the
    submissions selected for the ticker. *)
Lemma comments_kept_update_ticker (S : string -> Prop) E ticker daterange w :
  (forall r,
      In r (select models.RedditSubmissions
              (RedditManager.ticker_in_range ticker daterange) (store w)) ->
      S (RedditSubmissions.submission_id r)) ->
  comments_kept S (store w)
    (store (snd (RedditManager.update_ticker E ticker daterange w))).
Proof.
  intros HS. unfold RedditManager.update_ticker. rewrite bind_get_values.
  match goal with |- comments_kept _ _ (store (snd (?c ?w1))) =>
    cut (preserves (comments_kept S) c); [intros Hp; exact (Hp w1)|]
  end.
  apply comments_kept_bind_lift. intros updated _.
  apply preserves_bind;
    [apply comments_kept_trans | apply comments_kept_update_values | intros _].
  apply comments_kept_comments_of.
  - intros i Hi. apply in_map_iff in Hi. destruct Hi as (r & <- & Hr).
    now apply HS.
  - intros comments processed.
    destruct (RedditManager.old_comments comments processed);
      [apply preserves_ret, comments_kept_refl
      | apply comments_kept_update_comments].
Qed.

Lemma references_step (S : string -> Prop) db db' :
  comments_reference_submissions db ->
  (forall i, In i (map RedditSubmissions.submission_id (reddit_submissions db)) ->
             In i (map RedditSubmissions.submission_id (reddit_submissions db'))) ->
  comments_kept S db db' ->
  (forall i, S i ->
             In i (map RedditSubmissions.submission_id (reddit_submissions db'))) ->
  comments_reference_submissions db'.
Proof.
  unfold comments_reference_submissions.
  intros HJ Hids (kept & added & -> & Hkept & Hadded) HS.
  apply Forall_app. split.
  - induction Hkept as [|c c' l l' Hcc _ IH]; constructor.
    + destruct Hcc as (_ & <- & _). apply Hids. now inversion HJ.
    + apply IH. now inversion HJ.
  - eapply Forall_impl; [|exact Hadded]. simpl. auto.
Qed.

Lemma references_update_ticker E ticker daterange w :
  comments_reference_submissions (store w) ->
  comments_reference_submissions
    (store (snd (RedditManager.update_ticker E ticker daterange w))).
Proof.
  intros HJ.
  pose proof (preserves_update_ticker E ticker daterange w) as Hsub.
  apply submissions_kept_ids in Hsub.
  eapply references_step with
    (S := fun i => In i (map RedditSubmissions.submission_id
                             (reddit_submissions (store w)))).
  - exact HJ.
  - intros i Hi. now rewrite Hsub.
  - apply comments_kept_update_ticker. intros r Hr.
    apply in_map. unfold select in Hr. now apply filter_In in Hr.
  - intros i Hi. now rewrite Hsub.
Qed.

(** X23. [update_submissions] keeps the comments attached: if every
    stored comment names a stored submission, this is still so after
    the call, whatever the source answers and whether the call returns
    or raises. The comments it inserts are those of submissions it read
    from the store. *)
Theorem update_submissions_keeps_comment_references :
  forall (E : Env) (tickers : list string) (daterange : Z * Z) (w : World),
    comments_reference_submissions (store w) ->
    comments_reference_submissions
      (store (snd (RedditManager.update_submissions E tickers daterange w))).
Proof.
  intros E tickers daterange. induction tickers as [|ticker rest IH];
    intros w HJ; simpl; [exact HJ|].
  rewrite bind_eq.
  pose proof (references_update_ticker E ticker daterange w HJ) as H1.
  destruct (RedditManager.update_ticker E ticker daterange w) as [[u|e|] w1];
    simpl in *; auto.
Qed.

Lemma update_submissions_keeps_comment_references_witness :
  comments_reference_submissions
    (store (snd (RedditManager.update_submissions Scenario.two_comments
                   ["GME"] (80000, 100000)
                   (Scenario.start (store Scenario.after_first_fetch))))).
Proof.
  apply (@update_submissions_keeps_comment_references Scenario.two_comments
           ["GME"] (80000, 100000)
           (Scenario.start (store Scenario.after_first_fetch))).
  vm_compute. repeat constructor.
Defined.

Lemma comments_same_refl db : reddit_comments db = reddit_comments db.
Proof. reflexivity. Qed.

Lemma comments_same_trans (a b c : Store) :
  reddit_comments b = reddit_comments a ->
  reddit_comments c = reddit_comments b ->
  reddit_comments c = reddit_comments a.
Proof. congruence. Qed.

Lemma comments_same_insert_other m values :
  m <> models.RedditComments ->
  preserves (fun db db' => reddit_comments db' = reddit_comments db)
    (DatabaseManager.insert_values m values).
Proof.
  intros Hm w. rewrite insert_values_run. simpl.
  now apply (@table_set_table_other m models.RedditComments).
Qed.

Lemma comments_same_process_submissions E submissions :
  preserves (fun db db' => reddit_comments db' = reddit_comments db)
    (RedditManager.process_submissions E submissions).
Proof.
  unfold RedditManager.process_submissions, RedditManager.update_subreddits.
  destruct submissions;
    frame_with comments_same_refl comments_same_trans
      ltac:(apply comments_same_insert_other; discriminate).
Qed.

(** X24. [fetch_data] keeps the comments attached too: it stores the
    comments of the submissions it has just inserted, after them, so a
    store where every comment names a stored submission stays such a
    store, whether the call returns or raises. *)
Theorem fetch_data_keeps_comment_references :
  forall (E : Env) (fuel : nat) (ticker : string) (limit before after : Z)
         (subreddits : list string) (w : World),
    comments_reference_submissions (store w) ->
    comments_reference_submissions
      (store (snd (RedditManager.fetch_data E fuel ticker limit before after
                     subreddits w))).
Proof.
  intros E fuel ticker limit before after subreddits w HJ.
  unfold RedditManager.fetch_data. rewrite bind_eq. unfold lift.
  destruct (RedditAPI.get_submissions E fuel _) as [obj| |]; simpl; auto.
  rewrite bind_eq.
  pose proof (grows_process_submissions E obj w models.RedditSubmissions) as Hg1.
  pose proof (comments_same_process_submissions E obj w) as Hc1.
  destruct (RedditManager.process_submissions E obj w) as [r1 w1].
  simpl in Hg1, Hc1. destruct Hg1 as [added1 Hg1].
  assert (HJ1 : comments_reference_submissions (store w1)).
  { apply references_step with (S := fun _ => False) (db := store w); auto.
    - intros i Hi. rewrite Hg1, map_app, in_app_iff. now left.
    - now apply comments_kept_same_table.
    - contradiction. }
  destruct r1 as [processed| |]; [|exact HJ1|exact HJ1]. cbv beta iota.
  destruct processed as [|p ps]; [exact HJ1|].
  rewrite bind_eq.
  pose proof (grows_insert_values models.RedditSubmissions (p :: ps) w1
                models.RedditSubmissions) as Hg2.
  pose proof (@comments_same_insert_other models.RedditSubmissions (p :: ps)
                ltac:(discriminate) w1) as Hc2.
  pose proof (insert_values_run models.RedditSubmissions (p :: ps) w1) as Hrun.
  destruct (DatabaseManager.insert_values models.RedditSubmissions (p :: ps) w1)
    as [r2 w2].
  simpl in Hg2, Hc2. destruct Hg2 as [added2 Hg2].
  assert (HJ2 : comments_reference_submissions (store w2)).
  { apply references_step with (S := fun _ => False) (db := store w1); auto.
    - intros i Hi. rewrite Hg2, map_app, in_app_iff. now left.
    - now apply comments_kept_same_table.
    - contradiction. }
  destruct r2 as [u| |]; [|exact HJ2|exact HJ2]. cbv beta iota.
  assert (Hids : map RedditSubmissions.submission_id (reddit_submissions (store w2))
                 = map RedditSubmissions.submission_id (reddit_submissions (store w1))
                   ++ map ProcessedSubmissionsDF.submission_id (p :: ps)).
  { apply insert_rows_Ok_ids. injection Hrun as Hok ->. simpl store.
    cbn [table set_table reddit_submissions].
    symmetry in Hok. apply after_exit_Ok in Hok. rewrite <- Hok.
    apply surjective_pairing. }
  match goal with |- comments_reference_submissions (store (snd (?c w2))) =>
    assert (Hsub : preserves submissions_kept c)
      by kept_with ltac:(apply preserves_process_comments);
    assert (Hck : preserves
                    (comments_kept
                       (fun i => In i (map ProcessedSubmissionsDF.submission_id
                                           (p :: ps)))) c)
  end.
  { apply comments_kept_bind_lift. intros comments Hcomments.
    apply comments_kept_bind_process_comments. intros processed Hincl.
    destruct processed as [|q qs]; [apply preserves_ret, comments_kept_refl|].
    apply comments_kept_insert_comments. apply Forall_forall. intros c Hc.
    apply (in_map ProcessedCommentsDF.submission_id), Hincl in Hc.
    apply in_map_iff in Hc. destruct Hc as (r & <- & Hr).
    pose proof (get_comments_rows E _ Hcomments) as Hrows.
    rewrite Forall_forall in Hrows. now apply Hrows. }
  specialize (Hsub w2). specialize (Hck w2).
  apply submissions_kept_ids in Hsub.
  eapply references_step; [exact HJ2 | | exact Hck |].
  - intros i Hi. now rewrite Hsub.
  - intros i Hi. rewrite Hsub, Hids, in_app_iff. now right.
Qed.

Lemma fetch_data_keeps_comment_references_witness :
  comments_reference_submissions (store Scenario.after_first_fetch).
Proof.
  apply (@fetch_data_keeps_comment_references Scenario.one_submission 2 "GME" 1
           100000 0 ["wallstreetbets"] (Scenario.start Scenario.empty_store)).
  constructor.
Defined.

Lemma subreddits_same_refl db : subreddits db = subreddits db.
Proof. reflexivity. Qed.

Lemma subreddits_same_trans (a b c : Store) :
  subreddits b = subreddits a -> subreddits c = subreddits b ->
  subreddits c = subreddits a.
Proof. congruence. Qed.

Lemma subreddits_same_insert m values :
  m <> models.Subreddits ->
  preserves (fun db db' => subreddits db' = subreddits db)
    (DatabaseManager.insert_values m values).
Proof.
  intros Hm w. rewrite insert_values_run. simpl.
  now apply (@table_set_table_other m models.Subreddits).
Qed.

Lemma subreddits_same_update_values m values on :
  m <> models.Subreddits ->
  preserves (fun db db' => subreddits db' = subreddits db)
    (DatabaseManager.update_values m values on).
Proof.
  intros Hm w.
  destruct (update_values_store m values on w) as [->|(key & _ & ->)].
  - reflexivity.
  - now apply (@table_set_table_other m models.Subreddits).
Qed.

Lemma subreddits_same_update_ticker E ticker daterange :
  preserves (fun db db' => subreddits db' = subreddits db)
    (RedditManager.update_ticker E ticker daterange).
Proof.
  unfold RedditManager.update_ticker, RedditManager.process_comments,
    RedditManager.update_comments.
  frame_with subreddits_same_refl subreddits_same_trans
    ltac:(first [ apply subreddits_same_update_values; discriminate
                | apply subreddits_same_insert; discriminate ]).
Qed.

(** X26. [update_submissions] never deletes or rewrites a comment and
    never touches the subreddits: after the call, whatever its outcome,
    the comments that were stored are still there, in place, each with
    every column but the score unchanged, the new comments come after
    them, and the subreddits table is what it was. *)
Theorem update_submissions_keeps_comments :
  forall (E : Env) (tickers : list string) (daterange : Z * Z) (w : World),
    comments_kept (fun _ => True) (store w)
      (store (snd (RedditManager.update_submissions E tickers daterange w)))
    /\ subreddits
         (store (snd (RedditManager.update_submissions E tickers daterange w)))
       = subreddits (store w).
Proof.
  intros E tickers daterange w. split; revert w.
  - change (preserves (comments_kept (fun _ => True))
              (RedditManager.update_submissions E tickers daterange)).
    induction tickers as [|ticker rest IH]; simpl.
    + apply preserves_ret, comments_kept_refl.
    + apply preserves_bind; [apply comments_kept_trans | | intros _; exact IH].
      intros w. now apply comments_kept_update_ticker.
  - change (preserves (fun db db' => subreddits db' = subreddits db)
              (RedditManager.update_submissions E tickers daterange)).
    induction tickers as [|ticker rest IH]; simpl.
    + now apply preserves_ret.
    + apply preserves_bind;
        [apply subreddits_same_trans
        | apply subreddits_same_update_ticker | intros _; exact IH].
Qed.

(* ================================================================== *)
(** * Further properties of RedditManager: what a refresh writes *)

Lemma submissions_same_refl db : reddit_submissions db = reddit_submissions db.
Proof. reflexivity. Qed.

Lemma submissions_same_trans (a b c : Store) :
  reddit_submissions b = reddit_submissions a ->
  reddit_submissions c = reddit_submissions b ->
  reddit_submissions c = reddit_submissions a.
Proof. congruence. Qed.

Lemma submissions_same_insert m values :
  m <> models.RedditSubmissions ->
  preserves (fun db db' => reddit_submissions db' = reddit_submissions db)
    (DatabaseManager.insert_values m values).
Proof.
  intros Hm w. rewrite insert_values_run. simpl.
  now apply (@table_set_table_other m models.RedditSubmissions).
Qed.

Lemma submissions_same_update_values m values on :
  m <> models.RedditSubmissions ->
  preserves (fun db db' => reddit_submissions db' = reddit_submissions db)
    (DatabaseManager.update_values m values on).
Proof.
  intros Hm w.
  destruct (update_values_store m values on w) as [->|(key & _ & ->)].
  - reflexivity.
  - now apply (@table_set_table_other m models.RedditSubmissions).
Qed.

Lemma details_scores E ids : forall updated,
  RedditAPI.get_submission_details E ids = Ok updated ->
  Forall (fun v => praw_submission_score E (ScoresDF.id v)
                   = Some (ScoresDF.score v)) updated.
Proof.
  induction ids as [|i ids IH]; simpl; intros updated H.
  - injection H as <-. constructor.
  - destruct (praw_submission_init E i); [|discriminate].
    destruct (praw_submission_score E i) as [sc|] eqn:Hs; [|discriminate].
    destruct (RedditAPI.get_submission_details E ids) as [info| |];
      simpl in H; try discriminate.
    injection H as <-. constructor; [exact Hs | now apply IH].
Qed.

Lemma last_item_In {A} (l : list A) x : last_item l = Some x -> In x l.
Proof.
  destruct l as [|a l]; simpl; intros H; [discriminate|].
  injection H as <-. revert a. induction l as [|b l IH]; intros a.
  - now left.
  - rewrite last_cons. right. apply IH.
Qed.

Lemma NoDup_map_inj {A B} (f : A -> B) l a b :
  NoDup (map f l) -> In a l -> In b l -> f a = f b -> a = b.
Proof.
  induction l as [|x l IH]; simpl; intros Hnd Ha Hb Hf; [contradiction|].
  inversion Hnd as [|? ? Hx Hnd']; subst.
  destruct Ha as [->|Ha], Hb as [->|Hb]; auto.
  - elim Hx. rewrite Hf. now apply in_map.
  - elim Hx. rewrite <- Hf. now apply in_map.
Qed.

(** X25. What a refresh of one ticker writes. In a store whose
    submissions have distinct primary keys and distinct submission ids,
    a call of [update_submissions] for one ticker that returns leaves
    every submission of that ticker created in the range with the score
    the source gives for it, and every other submission exactly as it
    was. *)
Theorem update_submissions_refreshes_the_selected_rows :
  forall (E : Env) (ticker : string) (daterange : Z * Z) (w w' : World),
    NoDup (map RedditSubmissions.id (reddit_submissions (store w))) ->
    NoDup (map RedditSubmissions.submission_id (reddit_submissions (store w))) ->
    RedditManager.update_submissions E [ticker] daterange w = (Ok tt, w') ->
    reddit_submissions (store w')
    = map (refreshed_from_source E ticker daterange)
          (reddit_submissions (store w)).
Proof.
  intros E ticker daterange w w' Hpk Hsid H. simpl in H.
  apply bind_Ok in H as (u & w1 & H & Hret).
  unfold ret in Hret. injection Hret as <-.
  unfold RedditManager.update_ticker in H. rewrite bind_get_values in H.
  set (rows := select models.RedditSubmissions
                 (RedditManager.ticker_in_range ticker daterange) (store w)) in *.
  apply bind_Ok in H as (updated & wa & Hd & H).
  unfold lift in Hd. injection Hd as Hd <-.
  apply bind_Ok in H as (u2 & wb & Hupd & H).
  apply (@update_values_Ok models.RedditSubmissions updated "submission_id"
           RedditSubmissions.submission_id _ _ _ eq_refl) in Hupd.
  cbn [store table] in Hupd.
  match type of H with ?c ?wb = _ =>
    assert (Hrest : preserves
                      (fun db db' => reddit_submissions db' = reddit_submissions db)
                      c)
  end.
  { unfold RedditManager.process_comments, RedditManager.update_comments.
    frame_with submissions_same_refl submissions_same_trans
      ltac:(first [ apply submissions_same_update_values; discriminate
                  | apply submissions_same_insert; discriminate ]). }
  match type of H with _ ?wb = _ => specialize (Hrest wb) end.
  rewrite H in Hrest. simpl in Hrest. rewrite Hrest, Hupd.
  cbn [set_table reddit_submissions].
  rewrite update_rows_join_on by exact Hpk.
  apply map_ext_in. intros r Hr.
  pose proof (get_submission_details_ids _ _ Hd) as Hids.
  pose proof (details_scores _ _ Hd) as Hsc. rewrite Forall_forall in Hsc.
  unfold refreshed, refreshed_from_source.
  destruct (forallb (fun f => f r)
              (RedditManager.ticker_in_range ticker daterange)) eqn:Hsel.
  - assert (Hin : In (RedditSubmissions.submission_id r) (map ScoresDF.id updated)).
    { rewrite Hids. apply in_map. unfold rows, select. apply filter_In. auto. }
    apply in_map_iff in Hin. destruct Hin as (v & Hv & Hvin).
    destruct (last_item (filter _ updated)) as [v'|] eqn:Hlast.
    + apply last_item_In, filter_In in Hlast. destruct Hlast as [Hv' Heq].
      apply String.eqb_eq in Heq. simpl in Heq. rewrite Heq.
      now rewrite (Hsc v' Hv').
    + apply last_item_None in Hlast.
      assert (Hf : In v (filter
                           (fun v0 => (RedditSubmissions.submission_id r
                                       =? ScoresDF.id v0)%string) updated)).
      { apply filter_In. split; [assumption|]. apply String.eqb_eq. now symmetry. }
      simpl in Hlast. rewrite Hlast in Hf. contradiction.
  - rewrite filter_none; [reflexivity|].
    intros v Hv. apply String.eqb_neq. intros Heq.
    assert (Hin : In (ScoresDF.id v) (map RedditSubmissions.submission_id rows))
      by (rewrite <- Hids; now apply in_map).
    apply in_map_iff in Hin. destruct Hin as (r' & Hr' & Hrows).
    unfold rows, select in Hrows. apply filter_In in Hrows.
    destruct Hrows as [Hin' Hsel'].
    assert (r' = r).
    { apply (NoDup_map_inj RedditSubmissions.submission_id _ _ _ Hsid Hin' Hr).
      rewrite Hr'. symmetry. exact Heq. }
    subst r'. pose proof (eq_trans (eq_sym Hsel') Hsel) as Habs.
    discriminate Habs.
Qed.

Lemma update_submissions_refreshes_the_selected_rows_witness :
  reddit_submissions
    (store (snd (RedditManager.update_submissions Scenario.two_comments ["GME"]
                   (80000, 100000)
                   (Scenario.start (store Scenario.after_first_fetch)))))
  = map (refreshed_from_source Scenario.two_comments "GME" (80000, 100000))
        (reddit_submissions (store Scenario.after_first_fetch)).
Proof.
  apply (@update_submissions_refreshes_the_selected_rows Scenario.two_comments
           "GME" (80000, 100000)
           (Scenario.start (store Scenario.after_first_fetch))).
  - vm_compute. repeat constructor. simpl. tauto.
  - vm_compute. repeat constructor. simpl. tauto.
  - vm_compute. reflexivity.
Defined.

(* ================================================================== *)
(** * Further properties of RedditManager: keys and aborted refreshes *)

Lemma keys_stay_distinct_refl db : keys_stay_distinct db db.
Proof. intros m H. exact H. Qed.

Lemma keys_stay_distinct_trans a b c :
  keys_stay_distinct a b -> keys_stay_distinct b c -> keys_stay_distinct a c.
Proof. intros Hab Hbc m H. apply Hbc, Hab, H. Qed.

Lemma keys_insert_values m values :
  preserves keys_stay_distinct (DatabaseManager.insert_values m values).
Proof.
  intros w m' H. rewrite insert_values_run. unfold well_keyed in *. simpl.
  pose proof (insert_rows_well_keyed m values (table m (store w))) as Hm.
  destruct m, m'; simpl in *; auto.
Qed.

Lemma keys_update_values m values on :
  preserves keys_stay_distinct (DatabaseManager.update_values m values on).
Proof.
  intros w m' H.
  destruct (update_values_store m values on w) as [->|(key & _ & ->)].
  - exact H.
  - unfold well_keyed in *.
    destruct (update_rows_keys m
                (DatabaseManager.join_on m key (table m (store w)) values)
                (table m (store w))) as [Hpk Huc].
    destruct m, m'; simpl in *; try assumption; now rewrite Hpk, Huc.
Qed.

(** X27. [fetch_data] keeps the keys distinct: a table whose primary
    keys and unique ids have no duplicate before the call has none
    after it, whatever the source sends, duplicates included, and
    whether the call returns or raises. *)
Theorem fetch_data_keeps_keys_distinct :
  forall (E : Env) (fuel : nat) (ticker : string) (limit before after : Z)
         (subreddits : list string) (w : World) (m : models.t),
    well_keyed m (store w) ->
    well_keyed m
      (store (snd (RedditManager.fetch_data E fuel ticker limit before after
                     subreddits w))).
Proof.
  intros E fuel ticker limit before after subreddits w m.
  revert w m.
  change (preserves keys_stay_distinct
            (RedditManager.fetch_data E fuel ticker limit before after subreddits)).
  unfold RedditManager.fetch_data, RedditManager.process_submissions,
    RedditManager.update_subreddits, RedditManager.process_comments.
  frame_with keys_stay_distinct_refl keys_stay_distinct_trans
    ltac:(first [ apply keys_insert_values
                | match goal with
                  | |- preserves _ (match ?o with
                                    | EmptyList => _ | DataFrame _ => _ end) =>
                      destruct o
                  end ]).
Qed.

Lemma fetch_data_keeps_keys_distinct_witness :
  well_keyed models.RedditSubmissions (store Scenario.after_first_fetch).
Proof.
  apply (@fetch_data_keeps_keys_distinct Scenario.one_submission 2 "GME" 1
           100000 0 ["wallstreetbets"] (Scenario.start Scenario.empty_store)
           models.RedditSubmissions).
  split; constructor.
Defined.

(** X28. [update_submissions] keeps the keys distinct as well: its
    updates leave the keys alone and its inserts check them. *)
Theorem update_submissions_keeps_keys_distinct :
  forall (E : Env) (tickers : list string) (daterange : Z * Z) (w : World)
         (m : models.t),
    well_keyed m (store w) ->
    well_keyed m
      (store (snd (RedditManager.update_submissions E tickers daterange w))).
Proof.
  intros E tickers daterange w m. revert w m.
  change (preserves keys_stay_distinct
            (RedditManager.update_submissions E tickers daterange)).
  induction tickers as [|ticker rest IH]; simpl.
  - apply preserves_ret, keys_stay_distinct_refl.
  - apply preserves_bind;
      [apply keys_stay_distinct_trans | | intros _; exact IH].
    unfold RedditManager.update_ticker, RedditManager.process_comments,
      RedditManager.update_comments.
    frame_with keys_stay_distinct_refl keys_stay_distinct_trans
      ltac:(first [ apply keys_insert_values | apply keys_update_values ]).
Qed.

Lemma update_submissions_keeps_keys_distinct_witness :
  well_keyed models.RedditComments
    (store (snd (RedditManager.update_submissions Scenario.two_comments
                   ["GME"] (80000, 100000)
                   (Scenario.start (store Scenario.after_first_fetch))))).
Proof.
  apply (@update_submissions_keeps_keys_distinct Scenario.two_comments
           ["GME"] (80000, 100000)
           (Scenario.start (store Scenario.after_first_fetch))
           models.RedditComments).
  vm_compute. split; repeat constructor; simpl; tauto.
Defined.

(** X29. A refresh is all or nothing on the scores: when one of the
    submissions selected for a ticker does not resolve, the call raises
    at the lookup, before any write. The store is as it was, the only
    store call made for that ticker is the first read, and the tickers
    that follow are not processed. *)
Theorem update_submissions_aborts_on_unresolved_id :
  forall (E : Env) (ticker : string) (rest : list string) (daterange : Z * Z)
         (w : World),
    forallb (submission_resolves E)
      (map RedditSubmissions.submission_id
           (select models.RedditSubmissions
              (RedditManager.ticker_in_range ticker daterange) (store w)))
    = false ->
    RedditManager.update_submissions E (ticker :: rest) daterange w
    = (Raise PrawException,
       mkWorld (store w)
               (trace w ++ get_values_calls models.RedditSubmissions)).
Proof.
  intros E ticker rest daterange w Hbad. simpl. rewrite bind_eq.
  unfold RedditManager.update_ticker. rewrite bind_get_values.
  rewrite bind_eq. unfold lift.
  rewrite get_submission_details_raises; [reflexivity|].
  revert Hbad. generalize (map RedditSubmissions.submission_id
                             (select models.RedditSubmissions
                                (RedditManager.ticker_in_range ticker daterange)
                                (store w))).
  intros ids. induction ids as [|i ids IH]; simpl; [discriminate|].
  destruct (submission_resolves E i); simpl; auto.
Qed.

Lemma update_submissions_aborts_on_unresolved_id_witness :
  RedditManager.update_submissions Scenario.no_items ["GME"; "AMC"]
    (80000, 100000) (Scenario.start (store Scenario.after_first_fetch))
  = (Raise PrawException,
     mkWorld (store Scenario.after_first_fetch)
             (get_values_calls models.RedditSubmissions)).
Proof.
  apply (@update_submissions_aborts_on_unresolved_id Scenario.no_items "GME"
           ["AMC"] (80000, 100000)
           (Scenario.start (store Scenario.after_first_fetch))).
  vm_compute. reflexivity.
Defined.

(** X30. Registering the same subreddits twice: once a call of
    [update_subreddits] on a list of names has returned, a second call
    on the same list, whatever the source then answers, finds every
    name stored, reads the table once and writes nothing. *)
Theorem update_subreddits_twice_writes_nothing :
  forall (E E' : Env) (subreddits_list : list string) (w w' : World),
    RedditManager.update_subreddits E subreddits_list false w = (Ok tt, w') ->
    RedditManager.update_subreddits E' subreddits_list false w'
    = (Ok tt,
       mkWorld (store w') (trace w' ++ get_values_calls models.Subreddits)).
Proof.
  intros E E' l w w' H.
  assert (Hknown : forall n, In n l ->
                     In n (map Subreddits.name (subreddits (store w')))).
  { destruct (update_subreddits_shape E l false w) as (added & rest & Hst & Hnew).
    rewrite H in Hst. simpl in Hst.
    assert (Hrest : rest = []).
    { unfold RedditManager.update_subreddits in H.
      rewrite bind_get_values, select_all in H. cbn [table] in H.
      destruct l as [|n l].
      - simpl in Hnew. symmetry in Hnew. now apply app_eq_nil in Hnew.
      - destruct (RedditManager.new_subs _ (n :: l)) as [|s subs] eqn:Hns.
        + symmetry in Hnew. now apply app_eq_nil in Hnew.
        + rewrite bind_eq in H. unfold lift in H.
          destruct (get_subreddit_details_outcome E (s :: subs))
            as [(info & Hinfo & Hnames)|Hinfo]; rewrite Hinfo in H;
            [|discriminate].
          rewrite insert_values_run in H. injection H as Hok Hw'.
          apply after_exit_Ok in Hok.
          destruct (insert_rows_appends models.Subreddits
                      (map RedditManager.fillna info) (subreddits (store w)))
            as (done & rest' & Hv & Hsnd & Hfst).
          cbn [table] in Hok. specialize (Hfst Hok). subst rest'.
          rewrite app_nil_r in Hv. subst done.
          assert (Hadded : subreddits (store w')
                           = subreddits (store w)
                             ++ numbered models.Subreddits
                                  (next_id (map Subreddits.id
                                                (subreddits (store w))))
                                  (map RedditManager.fillna info)).
          { rewrite <- Hw'. simpl. exact Hsnd. }
          rewrite Hst in Hadded. simpl in Hadded.
          apply app_inv_head in Hadded. subst added.
          rewrite name_numbered, map_name_fillna, Hnames in Hnew.
          rewrite <- (app_nil_r (s :: subs)) in Hnew at 1.
          now apply app_inv_head in Hnew. }
    subst rest. rewrite app_nil_r in Hnew.
    intros n Hn. rewrite Hst. simpl. rewrite map_app, in_app_iff, <- Hnew.
    rewrite new_subs_spec.
    destruct (in_dec string_dec n (map Subreddits.name (subreddits (store w))));
      tauto. }
  unfold RedditManager.update_subreddits.
  rewrite bind_get_values, select_all. cbn [table].
  destruct l as [|n l]; [reflexivity|].
  destruct (RedditManager.new_subs _ (n :: l)) as [|s subs] eqn:Hnew;
    [reflexivity|].
  assert (Hs : In s (RedditManager.new_subs
                       (map Subreddits.name (subreddits (store w'))) (n :: l)))
    by (rewrite Hnew; now left).
  apply new_subs_spec in Hs. destruct Hs as [Hin Hout].
  now elim Hout; apply Hknown.
Qed.

Lemma update_subreddits_twice_writes_nothing_witness :
  RedditManager.update_subreddits Scenario.no_items
    ["wallstreetbets"; "wallstreetbets"] false
    (snd (RedditManager.update_subreddits Scenario.one_submission
            ["wallstreetbets"; "wallstreetbets"] false
            (Scenario.start Scenario.empty_store)))
  = (Ok tt,
     mkWorld
       (store (snd (RedditManager.update_subreddits Scenario.one_submission
                      ["wallstreetbets"; "wallstreetbets"] false
                      (Scenario.start Scenario.empty_store))))
       (trace (snd (RedditManager.update_subreddits Scenario.one_submission
                      ["wallstreetbets"; "wallstreetbets"] false
                      (Scenario.start Scenario.empty_store)))
          ++ get_values_calls models.Subreddits)).
Proof.
  apply (@update_subreddits_twice_writes_nothing Scenario.one_submission
           Scenario.no_items ["wallstreetbets"; "wallstreetbets"]
           (Scenario.start Scenario.empty_store)).
  vm_compute. reflexivity.
Defined.
